(** * Pattern learning and confidence-weighted promotion: a shallow embedding

    The development follows the Python scripts under [scripts/]:
    [confidence_tracker.py], [memory_learn.py], [enhanced_learn.py],
    [auto_correction_detector.py], [query_patterns.py] and
    [claude_md_updater.py].

    Conventions of the embedding
    - Python [str] values are [string]s of ASCII characters; [str.lower],
      [str.strip] and the [re] module are modelled on that alphabet.
    - Python [float] values are IEEE-754 binary64 numbers, represented by
      [spec_float] with precision 53 and [emax] 1024, so that rounding is the
      one Python performs.
    - A JSON object used as a dictionary is an association list in insertion
      order ([dict]); [d[k] = v] keeps the position of an existing key.
    - A file on disk is a value of type [file]: missing, present but raising
      on [json.load], or holding a parsed document.  Writing never fails.
    - [datetime.now()] is an explicit argument of type [stamp]. *)

From Stdlib Require Import ZArith List String Ascii Bool Lia Sorted.
From Stdlib Require Import Floats.SpecFloat.
From Stdlib Require Import DecimalString.
From Stdlib Require DecimalZ DecimalPos.
Import ListNotations.

Set Implicit Arguments.

(* ================================================================== *)
(** ** Python strings *)

Module PyStr.

Open Scope char_scope.
Open Scope string_scope.

Definition newline : ascii := ascii_of_nat 10.

Definition is_upper (c : ascii) : bool :=
  let n := nat_of_ascii c in (65 <=? n)%nat && (n <=? 90)%nat.

(** [str.lower] on one ASCII character. *)
Definition lower_ascii (c : ascii) : ascii :=
  if is_upper c then ascii_of_nat (nat_of_ascii c + 32) else c.

Fixpoint lower (s : string) : string :=
  match s with
  | EmptyString => EmptyString
  | String c s' => String (lower_ascii c) (lower s')
  end.

(** The ASCII characters for which [str.isspace] holds; the same set is
    [\s] of the [re] module on [str] patterns. *)
Definition is_space (c : ascii) : bool :=
  let n := nat_of_ascii c in
  ((9 <=? n)%nat && (n <=? 13)%nat) || ((28 <=? n)%nat && (n <=? 32)%nat).

Fixpoint all_space (s : string) : bool :=
  match s with
  | EmptyString => true
  | String c s' => is_space c && all_space s'
  end.

Fixpoint lstrip (s : string) : string :=
  match s with
  | EmptyString => EmptyString
  | String c s' => if is_space c then lstrip s' else s
  end.

Fixpoint rstrip (s : string) : string :=
  match s with
  | EmptyString => EmptyString
  | String c s' =>
      match rstrip s' with
      | EmptyString => if is_space c then EmptyString else String c EmptyString
      | r => String c r
      end
  end.

Definition strip (s : string) : string := rstrip (lstrip s).

(** [needle in hay] for two strings. *)
Fixpoint contains (needle hay : string) : bool :=
  String.prefix needle hay ||
  match hay with
  | EmptyString => false
  | String _ hay' => contains needle hay'
  end.

(** [s[:n]] *)
Fixpoint take (n : nat) (s : string) : string :=
  match n, s with
  | S n', String c s' => String c (take n' s')
  | _, _ => EmptyString
  end.

(** [s[n:]] *)
Fixpoint drop (n : nat) (s : string) : string :=
  match n, s with
  | S n', String _ s' => drop n' s'
  | _, _ => s
  end.

(** [sep.join(l)] *)
Definition join (sep : string) (l : list string) : string := String.concat sep l.

(** [str(n)] for an [int]. *)
Definition str_int (n : Z) : string := NilZero.string_of_int (Z.to_int n).

(** [x in l] for a list of strings. *)
Definition mem (x : string) (l : list string) : bool :=
  existsb (String.eqb x) l.

End PyStr.
Import PyStr.

(* ================================================================== *)
(** ** Python floats (binary64) *)

Module Float.

Definition float := spec_float.
Definition prec : Z := 53.
Definition emax : Z := 1024.

Definition add (x y : float) : float := SFadd prec emax x y.
Definition div (x y : float) : float := SFdiv prec emax x y.
Definition opp (x : float) : float := SFopp x.
Definition ltb (x y : float) : bool := SFltb x y.
Definition leb (x y : float) : bool := SFleb x y.
Definition eqb (x y : float) : bool := SFeqb x y.

(** [float(n)] for an [int], rounding to nearest even. *)
Definition of_Z (n : Z) : float := binary_normalize prec emax n 0 false.

(** The literal [m / 10^k] written in decimal: the division of two exactly
    represented integers is correctly rounded, which is how a decimal
    literal is read. *)
Definition dec (m : Z) (k : Z) : float := div (of_Z m) (of_Z (10 ^ k)).

Definition zero : float := S754_zero false.
Definition one : float := of_Z 1.

(** Python's [>] and [>=] *)
Definition gtb (x y : float) : bool := ltb y x.
Definition geb (x y : float) : bool := leb y x.

(** Two-argument [min] and [max] of Python: the first argument is kept
    unless the second is strictly smaller (resp. larger). *)
Definition py_min (a b : float) : float := if ltb b a then b else a.
Definition py_max (a b : float) : float := if gtb b a then b else a.

(** [max(0.0, min(1.0, x))] *)
Definition clamp01 (x : float) : float := py_max zero (py_min one x).

Definition in_unit (x : float) : Prop := leb zero x = true /\ leb x one = true.

End Float.
Import Float.

(* ================================================================== *)
(** ** The fragment of Python's [re] used by the scripts

    A backtracking matcher in continuation-passing style.  The order in
    which alternatives are tried is the one of [re]: the left branch of an
    alternation first, the longest repetition first for a greedy star and
    the shortest first for a lazy one.  Every repetition in the scripts is
    over a single character class. *)

Module Re.

Inductive cclass :=
| Dot                 (* .  *)
| Space               (* \s *)
| Lit (c : ascii).    (* a literal character *)

Inductive regex :=
| Eps
| Cls (c : cclass)
| Seq (r1 r2 : regex)
| Alt (r1 r2 : regex)
| Star (greedy : bool) (c : cclass)
| Group (r : regex)   (* a capturing group *)
| Eol.                (* $  *)

Record flags := { ignorecase : bool; dotall : bool }.

Definition no_flags := {| ignorecase := false; dotall := false |}.
Definition IGNORECASE := {| ignorecase := true; dotall := false |}.
Definition IGNORECASE_DOTALL := {| ignorecase := true; dotall := true |}.

Definition in_class (f : flags) (c : cclass) (x : ascii) : bool :=
  match c with
  | Dot => dotall f || negb (Ascii.eqb x newline)
  | Space => is_space x
  | Lit a =>
      if ignorecase f then Ascii.eqb (lower_ascii a) (lower_ascii x)
      else Ascii.eqb a x
  end.

(** [$] without [re.MULTILINE]: at the end, or before a final newline. *)
Definition at_end (s : string) : bool :=
  match s with
  | EmptyString => true
  | String c EmptyString => Ascii.eqb c newline
  | _ => false
  end.

Definition result := option (list string * string).
Definition cont := string -> list string -> result.

Fixpoint star_greedy (f : flags) (c : cclass) (k : cont)
    (s : string) (caps : list string) : result :=
  match s with
  | String x s' =>
      if in_class f c x then
        match star_greedy f c k s' caps with
        | Some r => Some r
        | None => k s caps
        end
      else k s caps
  | EmptyString => k s caps
  end.

Fixpoint star_lazy (f : flags) (c : cclass) (k : cont)
    (s : string) (caps : list string) : result :=
  match k s caps with
  | Some r => Some r
  | None =>
      match s with
      | String x s' => if in_class f c x then star_lazy f c k s' caps else None
      | EmptyString => None
      end
  end.

Fixpoint run (f : flags) (r : regex) (k : cont)
    (s : string) (caps : list string) : result :=
  match r with
  | Eps => k s caps
  | Cls c =>
      match s with
      | String x s' => if in_class f c x then k s' caps else None
      | EmptyString => None
      end
  | Seq r1 r2 => run f r1 (run f r2 k) s caps
  | Alt r1 r2 =>
      match run f r1 k s caps with
      | Some x => Some x
      | None => run f r2 k s caps
      end
  | Star true c => star_greedy f c k s caps
  | Star false c => star_lazy f c k s caps
  | Group r' =>
      run f r'
        (fun s' caps' =>
           k s' (caps' ++ [take (String.length s - String.length s') s])%list)
        s caps
  | Eol => if at_end s then k s caps else None
  end.

(** A match that starts at the first character of [s]: the captured groups
    and the text left after the match. *)
Definition match_at (f : flags) (r : regex) (s : string) : result :=
  run f r (fun s' caps => Some (caps, s')) s [].

(** [re.search(r, s) is not None] *)
Fixpoint search (f : flags) (r : regex) (s : string) : bool :=
  match match_at f r s with
  | Some _ => true
  | None =>
      match s with
      | String _ s' => search f r s'
      | EmptyString => false
      end
  end.

Definition skip_one (s : string) : option string :=
  match s with
  | String _ s' => Some s'
  | EmptyString => None
  end.

(** [re.findall(r, s)] for a pattern with capturing groups: the groups of
    the leftmost matches, scanning on after each match. *)
Fixpoint findall_from (fuel : nat) (f : flags) (r : regex) (s : string)
  : list (list string) :=
  match fuel with
  | O => []
  | S fuel' =>
      match match_at f r s with
      | Some (caps, rest) =>
          caps ::
          (if (String.length rest <? String.length s)%nat
           then findall_from fuel' f r rest
           else match skip_one s with
                | Some s' => findall_from fuel' f r s'
                | None => []
                end)
      | None =>
          match skip_one s with
          | Some s' => findall_from fuel' f r s'
          | None => []
          end
      end
  end.

Definition findall (f : flags) (r : regex) (s : string) : list (list string) :=
  findall_from (S (String.length s)) f r s.

(** *** Pattern syntax *)

Fixpoint lit (s : string) : regex :=
  match s with
  | EmptyString => Eps
  | String c EmptyString => Cls (Lit c)
  | String c s' => Seq (Cls (Lit c)) (lit s')
  end.

Definition seq (l : list regex) : regex := fold_right Seq Eps l.
Definition alt (l : list regex) : regex :=
  match l with
  | [] => Eps
  | r :: l' => fold_left Alt l' r
  end.

Definition ws0 : regex := Star true Space.                     (* \s*  *)
Definition ws1 : regex := Seq (Cls Space) (Star true Space).   (* \s+  *)
Definition any_lazy : regex := Star false Dot.                 (* .*?  *)
Definition any_greedy : regex := Star true Dot.                (* .*   *)
Definition opt (r : regex) : regex := Alt r Eps.               (* r?   *)
Definition dot_or_end : regex := Alt (Cls (Lit ".")) Eol.      (* (?:\.|$) *)

End Re.
Import Re.

Open Scope string_scope.

(* ================================================================== *)
(** ** The persisted data model *)

(** A JSON object as a Python [dict]: keys in insertion order. *)
Definition dict (V : Type) := list (string * V).

Fixpoint dict_get {V} (k : string) (d : dict V) : option V :=
  match d with
  | [] => None
  | (k', v) :: d' => if String.eqb k k' then Some v else dict_get k d'
  end.

(** [d[k] = v] *)
Fixpoint dict_set {V} (k : string) (v : V) (d : dict V) : dict V :=
  match d with
  | [] => [(k, v)]
  | (k', v') :: d' =>
      if String.eqb k k' then (k, v) :: d' else (k', v') :: dict_set k v d'
  end.

Definition dict_values {V} (d : dict V) : list V := map snd d.

(** [x.get(key, default)] *)
Definition get_or {A} (default : A) (o : option A) : A :=
  match o with
  | Some a => a
  | None => default
  end.

(** One reading of [datetime.now()], in the three formats the scripts use. *)
Record stamp := {
  compact : string;   (* strftime("%Y%m%d_%H%M%S"): resolution of a second *)
  pretty : string;    (* strftime("%Y-%m-%d %H:%M:%S") *)
  iso : string        (* isoformat(), with microseconds *)
}.

(** The [pattern] field: a string (one capture) or a list (several). *)
Inductive pattern_value :=
| PStr (s : string)
| PList (l : list string).

Inductive feedback_type := Positive | Neutral | Negative | Correction.

Record feedback_entry := {
  fb_feedback_type : feedback_type;
  fb_adjustment : float;
  fb_timestamp : string;
  fb_user_text : string
}.

(** An entry of [memory["entities"]].  Every key may be absent. *)
Record entity := {
  e_id : option string;
  e_type : option string;
  e_correction_type : option string;
  e_pattern : option pattern_value;
  e_original_text : option string;
  e_content : option string;
  e_context : option (list string);
  e_confidence : option float;
  e_created : option string;
  e_last_updated : option string;
  e_applied_count : option Z;
  e_success_count : option Z;
  e_feedback_history : option (list feedback_entry);
  e_promoted_to_claude_md : option bool;
  e_promotion_date : option string;
  e_promotion_confidence : option float
}.

Definition empty_entity : entity :=
  {| e_id := None; e_type := None; e_correction_type := None;
     e_pattern := None; e_original_text := None; e_content := None;
     e_context := None; e_confidence := None; e_created := None;
     e_last_updated := None; e_applied_count := None;
     e_success_count := None; e_feedback_history := None;
     e_promoted_to_claude_md := None; e_promotion_date := None;
     e_promotion_confidence := None |}.

Definition set_confidence (c : float) (e : entity) : entity :=
  {| e_id := e_id e; e_type := e_type e;
     e_correction_type := e_correction_type e; e_pattern := e_pattern e;
     e_original_text := e_original_text e; e_content := e_content e;
     e_context := e_context e; e_confidence := Some c;
     e_created := e_created e; e_last_updated := e_last_updated e;
     e_applied_count := e_applied_count e;
     e_success_count := e_success_count e;
     e_feedback_history := e_feedback_history e;
     e_promoted_to_claude_md := e_promoted_to_claude_md e;
     e_promotion_date := e_promotion_date e;
     e_promotion_confidence := e_promotion_confidence e |}.

Definition set_last_updated (t : string) (e : entity) : entity :=
  {| e_id := e_id e; e_type := e_type e;
     e_correction_type := e_correction_type e; e_pattern := e_pattern e;
     e_original_text := e_original_text e; e_content := e_content e;
     e_context := e_context e; e_confidence := e_confidence e;
     e_created := e_created e; e_last_updated := Some t;
     e_applied_count := e_applied_count e;
     e_success_count := e_success_count e;
     e_feedback_history := e_feedback_history e;
     e_promoted_to_claude_md := e_promoted_to_claude_md e;
     e_promotion_date := e_promotion_date e;
     e_promotion_confidence := e_promotion_confidence e |}.

Definition set_applied_count (n : Z) (e : entity) : entity :=
  {| e_id := e_id e; e_type := e_type e;
     e_correction_type := e_correction_type e; e_pattern := e_pattern e;
     e_original_text := e_original_text e; e_content := e_content e;
     e_context := e_context e; e_confidence := e_confidence e;
     e_created := e_created e; e_last_updated := e_last_updated e;
     e_applied_count := Some n;
     e_success_count := e_success_count e;
     e_feedback_history := e_feedback_history e;
     e_promoted_to_claude_md := e_promoted_to_claude_md e;
     e_promotion_date := e_promotion_date e;
     e_promotion_confidence := e_promotion_confidence e |}.

Definition set_success_count (n : Z) (e : entity) : entity :=
  {| e_id := e_id e; e_type := e_type e;
     e_correction_type := e_correction_type e; e_pattern := e_pattern e;
     e_original_text := e_original_text e; e_content := e_content e;
     e_context := e_context e; e_confidence := e_confidence e;
     e_created := e_created e; e_last_updated := e_last_updated e;
     e_applied_count := e_applied_count e;
     e_success_count := Some n;
     e_feedback_history := e_feedback_history e;
     e_promoted_to_claude_md := e_promoted_to_claude_md e;
     e_promotion_date := e_promotion_date e;
     e_promotion_confidence := e_promotion_confidence e |}.

Definition set_feedback_history (h : list feedback_entry) (e : entity)
  : entity :=
  {| e_id := e_id e; e_type := e_type e;
     e_correction_type := e_correction_type e; e_pattern := e_pattern e;
     e_original_text := e_original_text e; e_content := e_content e;
     e_context := e_context e; e_confidence := e_confidence e;
     e_created := e_created e; e_last_updated := e_last_updated e;
     e_applied_count := e_applied_count e;
     e_success_count := e_success_count e;
     e_feedback_history := Some h;
     e_promoted_to_claude_md := e_promoted_to_claude_md e;
     e_promotion_date := e_promotion_date e;
     e_promotion_confidence := e_promotion_confidence e |}.

Definition set_promotion (date : string) (c : float) (e : entity) : entity :=
  {| e_id := e_id e; e_type := e_type e;
     e_correction_type := e_correction_type e; e_pattern := e_pattern e;
     e_original_text := e_original_text e; e_content := e_content e;
     e_context := e_context e; e_confidence := e_confidence e;
     e_created := e_created e; e_last_updated := e_last_updated e;
     e_applied_count := e_applied_count e;
     e_success_count := e_success_count e;
     e_feedback_history := e_feedback_history e;
     e_promoted_to_claude_md := Some true;
     e_promotion_date := Some date;
     e_promotion_confidence := Some c |}.

Record relation := {
  r_from : string; r_to : string; r_type : string; r_created : string
}.

(** The document of [learning_memory.json].  [m_stats] is the value of
    [memory["stats"]["total_corrections"]]. *)
Record memory := {
  m_entities : option (dict entity);
  m_relations : option (list relation);
  m_corrections : option (list string);
  m_stats : option Z;
  m_metadata : option (string * string)   (* created, version *)
}.

(** [memory.get("entities", {})] *)
Definition entities_of (m : memory) : dict entity := get_or [] (m_entities m).

Definition set_entities (d : dict entity) (m : memory) : memory :=
  {| m_entities := Some d; m_relations := m_relations m;
     m_corrections := m_corrections m; m_stats := m_stats m;
     m_metadata := m_metadata m |}.

Definition set_stats (n : Z) (m : memory) : memory :=
  {| m_entities := m_entities m; m_relations := m_relations m;
     m_corrections := m_corrections m; m_stats := Some n;
     m_metadata := m_metadata m |}.

(** The exceptions the scripts distinguish.  [open] and [json.load] raise
    [OSError] when the file cannot be read, [JSONDecodeError] when its text
    is not JSON, and [UnicodeDecodeError] (a [ValueError] that is neither of
    the former two) when its bytes are not text in the default encoding. *)
Inductive py_exn :=
| OSError
| JSONDecodeError
| UnicodeDecodeError
| KeyError (k : string).

(** A path on disk, as [exists()] and [json.load(open(path))] see it. *)
Inductive file (A : Type) :=
| Missing
| Unreadable (e : py_exn)
| Holds (a : A).
Arguments Missing {A}.
Arguments Unreadable {A} e.
Arguments Holds {A} a.

(** The outcome of a call that may raise. *)
Inductive outcome (A : Type) :=
| Return (a : A)
| Raise (e : py_exn).
Arguments Return {A} a.
Arguments Raise {A} e.

(* ================================================================== *)
(** ** [confidence_tracker.py] *)

Module ConfidenceTracker.

Definition positive_words : list string :=
  ["good"; "great"; "perfect"; "excellent"; "thanks"; "correct"; "right";
   "yes"; "exactly"; "nice"].

Definition negative_words : list string :=
  ["wrong"; "incorrect"; "no"; "actually"; "don't"; "error"; "mistake";
   "fix"; "change"; "instead"].

(** Each keyword is a pattern without metacharacters. *)
Definition feedback_patterns_positive : list regex := map lit positive_words.
Definition feedback_patterns_negative : list regex := map lit negative_words.

Definition feedback_patterns_correction : list regex :=
  [ seq [lit "don't"; any_greedy; lit "do"];
    seq [lit "use"; any_greedy; lit "instead"];
    seq [lit "actually"; any_greedy; lit "should"];
    seq [lit "prefer"; any_greedy; lit "not"];
    seq [lit "wrong"; any_greedy; lit "should"] ].

(** [sum(1 for pattern in patterns if re.search(pattern, text))] *)
Definition count_hits (patterns : list regex) (text : string) : nat :=
  List.length (filter (fun p => search no_flags p text) patterns).

Definition detect_feedback_type (user_response : string) : feedback_type :=
  let response_lower := lower user_response in
  if existsb (fun p => search no_flags p response_lower)
       feedback_patterns_correction
  then Correction
  else
    let positive_count := count_hits feedback_patterns_positive response_lower in
    let negative_count := count_hits feedback_patterns_negative response_lower in
    if (positive_count <? negative_count)%nat then Negative
    else if (0 <? positive_count)%nat then Positive
    else Neutral.

Definition adjustments (t : feedback_type) : float :=
  match t with
  | Positive => dec 1 1
  | Neutral => zero
  | Negative => opp (dec 15 2)
  | Correction => opp (dec 25 2)
  end.

Record pattern_update := {
  u_id : string;
  u_old_confidence : float;
  u_new_confidence : float;
  u_feedback_type : feedback_type
}.

Inductive report :=
| NoMemoryFile
| ErrorReading
| Updated (updated_patterns : list pattern_update) (t : feedback_type).

Definition is_success (t : feedback_type) : bool :=
  match t with
  | Positive | Neutral => true
  | _ => false
  end.

(** The body of the loop for a pattern that is in the store. *)
Definition update_entity (now : stamp) (feedback_type : feedback_type)
    (user_feedback : string) (pattern : entity) : entity :=
  let adjustment := adjustments feedback_type in
  let old_confidence := get_or (dec 5 1) (e_confidence pattern) in
  let new_confidence := clamp01 (add old_confidence adjustment) in
  let pattern := set_confidence new_confidence pattern in
  let pattern := set_last_updated (iso now) pattern in
  let pattern :=
    set_applied_count (get_or 0%Z (e_applied_count pattern) + 1) pattern in
  let pattern :=
    if is_success feedback_type
    then set_success_count (get_or 0%Z (e_success_count pattern) + 1) pattern
    else pattern in
  let history := get_or [] (e_feedback_history pattern) in
  set_feedback_history
    (history ++
     [{| fb_feedback_type := feedback_type;
         fb_adjustment := adjustment;
         fb_timestamp := iso now;
         fb_user_text := take 100 user_feedback |}])%list
    pattern.

(** One iteration of [for pattern_id in pattern_ids]. *)
Definition update_step (now : stamp) (feedback_type : feedback_type)
    (user_feedback : string)
    (acc : memory * list pattern_update) (pattern_id : string)
  : memory * list pattern_update :=
  let (mem, updated_patterns) := acc in
  match dict_get pattern_id (entities_of mem) with
  | Some pattern =>
      let old_confidence := get_or (dec 5 1) (e_confidence pattern) in
      (set_entities
         (dict_set pattern_id
            (update_entity now feedback_type user_feedback pattern)
            (entities_of mem))
         mem,
       (updated_patterns ++
        [{| u_id := pattern_id;
            u_old_confidence := old_confidence;
            u_new_confidence :=
              clamp01 (add old_confidence (adjustments feedback_type));
            u_feedback_type := feedback_type |}])%list)
  | None => acc
  end.

Definition update_pattern_confidence (now : stamp)
    (pattern_ids : list string) (user_feedback : string)
    (MEMORY_FILE : file memory) : report * file memory :=
  match MEMORY_FILE with
  | Missing => (NoMemoryFile, MEMORY_FILE)
  | Unreadable _ => (ErrorReading, MEMORY_FILE)
  | Holds mem =>
      let feedback_type := detect_feedback_type user_feedback in
      let (mem', updated_patterns) :=
        fold_left (update_step now feedback_type user_feedback)
                  pattern_ids (mem, []) in
      (Updated updated_patterns feedback_type, Holds mem')
  end.

Definition track_pattern_feedback := update_pattern_confidence.

End ConfidenceTracker.

(* ================================================================== *)
(** ** Sorting by a float key

    [sorted(l, key=..., reverse=True)] and [l.sort(key=..., reverse=True)]:
    descending, elements of equal key in their original order.  Python only
    compares keys with [<]; where that is a total preorder on the keys in
    the list (no NaN) the stable descending order is unique, and this
    insertion sort computes it. *)

Fixpoint insert_desc {A} (key : A -> float) (x : A) (l : list A) : list A :=
  match l with
  | [] => [x]
  | y :: l' =>
      if ltb (key x) (key y) then y :: insert_desc key x l' else x :: l
  end.

Definition sort_desc {A} (key : A -> float) (l : list A) : list A :=
  fold_right (insert_desc key) [] l.

(* ================================================================== *)
(** ** [memory_learn.py] *)

Module MemoryLearn.

Definition default_memory (now : stamp) : memory :=
  {| m_entities := Some [];
     m_relations := Some [];
     m_corrections := Some [];
     m_stats := None;
     m_metadata := Some (iso now, "1.0") |}.

(** [except (OSError, json.JSONDecodeError): pass] *)
Definition recovered (e : py_exn) : bool :=
  match e with
  | OSError | JSONDecodeError => true
  | _ => false
  end.

Definition load_memory (now : stamp) (MEMORY_FILE : file memory)
  : outcome memory :=
  match MEMORY_FILE with
  | Holds m => Return m
  | Unreadable e => if recovered e then Return (default_memory now) else Raise e
  | Missing => Return (default_memory now)
  end.

(** The mutation of an entity that is in the store; [entity["confidence"]]
    raises when the key is absent. *)
Definition update_entity (now : stamp) (adjustment : float) (ent : entity)
  : outcome entity :=
  match e_confidence ent with
  | None => Raise (KeyError "confidence")
  | Some c =>
      let ent := set_confidence (clamp01 (add c adjustment)) ent in
      let ent := set_last_updated (iso now) ent in
      let ent :=
        if gtb adjustment zero
        then set_success_count (get_or 0%Z (e_success_count ent) + 1) ent
        else ent in
      Return (set_applied_count (get_or 0%Z (e_applied_count ent) + 1) ent)
  end.

(** Returns the state of the store file after the call, or the exception
    that leaves it as it was. *)
Definition update_pattern_confidence (now : stamp) (entity_id : string)
    (adjustment : float) (MEMORY_FILE : file memory)
  : outcome (file memory) :=
  match load_memory now MEMORY_FILE with
  | Raise e => Raise e
  | Return mem =>
      match m_entities mem with
      | None => Raise (KeyError "entities")
      | Some entities =>
          match dict_get entity_id entities with
          | None => Return MEMORY_FILE
          | Some ent =>
              match update_entity now adjustment ent with
              | Raise e => Raise e
              | Return ent' =>
                  Return (Holds (set_entities
                                   (dict_set entity_id ent' entities) mem))
              end
          end
      end
  end.

Fixpoint query_loop (current_context : list string) (l : dict entity)
  : outcome (list entity) :=
  match l with
  | [] => Return []
  | (_, ent) :: rest =>
      match e_type ent with
      | None => Raise (KeyError "type")
      | Some t =>
          if String.eqb t "user_correction" then
            let entity_contexts := get_or [] (e_context ent) in
            if existsb (fun ctx => mem ctx current_context) entity_contexts
            then
              match e_confidence ent with
              | None => Raise (KeyError "confidence")
              | Some c =>
                  if gtb c (dec 6 1) then
                    match query_loop current_context rest with
                    | Return r => Return (ent :: r)
                    | Raise e => Raise e
                    end
                  else query_loop current_context rest
              end
            else query_loop current_context rest
          else query_loop current_context rest
      end
  end.

Definition query_relevant_patterns (now : stamp)
    (current_context : list string) (MEMORY_FILE : file memory)
  : outcome (list entity) :=
  match load_memory now MEMORY_FILE with
  | Raise e => Raise e
  | Return mem =>
      match m_entities mem with
      | None => Raise (KeyError "entities")
      | Some entities => query_loop current_context entities
      end
  end.

End MemoryLearn.

(* ================================================================== *)
(** ** [enhanced_learn.py] *)

Module EnhancedLearn.

Definition fresh_memory : memory :=
  {| m_entities := Some [];
     m_relations := Some [];
     m_corrections := None;
     m_stats := Some 0%Z;
     m_metadata := None |}.

(** [memory = {}] *)
Definition empty_document : memory :=
  {| m_entities := None; m_relations := None; m_corrections := None;
     m_stats := None; m_metadata := None |}.

(** The block under [# Load existing memory]: the bare [except:] replaces
    a document that cannot be read, of whatever failure, by a fresh one. *)
Definition load_existing_memory (MEMORY_FILE : file memory) : memory :=
  let memory :=
    match MEMORY_FILE with
    | Missing => empty_document
    | Unreadable _ => fresh_memory
    | Holds m => m
    end in
  let memory :=
    match m_entities memory with
    | None => fresh_memory
    | Some _ => memory
    end in
  match m_stats memory with
  | None => set_stats 0 memory
  | Some _ => memory
  end.

Definition patterns : list (regex * string) :=
  [ (seq [lit "don't"; ws1; Group any_lazy; lit ","; ws0; Group any_greedy],
     "dont_do_instead");
    (seq [lit "use"; ws1; Group any_lazy; ws1; lit "instead"; ws1; lit "of";
          ws1; Group any_lazy],
     "use_instead_of");
    (seq [lit "i"; ws1; lit "prefer"; ws1; Group any_greedy], "preference");
    (seq [lit "when"; ws1; Group any_lazy; lit ","; ws0; Group any_greedy],
     "context_behavior");
    (seq [lit "always"; ws1; Group any_greedy], "always_rule");
    (seq [lit "never"; ws1; Group any_greedy], "never_rule") ].

Definition context_keywords : list (string * list string) :=
  [ ("urgent", ["quick"; "urgent"; "asap"; "fast"]);
    ("quality", ["careful"; "thorough"; "comprehensive"]);
    ("coding", ["function"; "class"; "import"; "test"; "code"]);
    ("review", ["pr"; "review"; "check"]);
    ("workflow", ["command"; "process"; "commit"]) ].

Definition detect_contexts (learning_content : string) : list string :=
  let text_lower := lower learning_content in
  let detected_contexts :=
    map fst
      (filter (fun ck => existsb (fun kw => contains kw text_lower) (snd ck))
              context_keywords) in
  match detected_contexts with
  | [] => ["general"]
  | _ => detected_contexts
  end.

Record found := {
  f_type : string;
  f_match : pattern_value;
  f_text : string
}.

(** What [re.findall] yields for one match: the group itself when the
    pattern has one group, the tuple of groups otherwise. *)
Definition match_value (groups : list string) : pattern_value :=
  match groups with
  | [g] => PStr g
  | _ => PList groups
  end.

Definition find_corrections (learning_content : string) : list found :=
  flat_map
    (fun pc : regex * string =>
       map (fun groups =>
              {| f_type := snd pc; f_match := match_value groups;
                 f_text := learning_content |})
           (findall IGNORECASE (fst pc) learning_content))
    patterns.

Definition correction_entity (now : stamp) (entity_id : string)
    (detected_contexts : list string) (correction : found) : entity :=
  {| e_id := Some entity_id;
     e_type := Some "user_correction";
     e_correction_type := Some (f_type correction);
     e_pattern := Some (f_match correction);
     e_original_text := Some (f_text correction);
     e_content := None;
     e_context := Some detected_contexts;
     e_confidence := Some (dec 8 1);
     e_created := Some (iso now);
     e_last_updated := None;
     e_applied_count := Some 0%Z;
     e_success_count := Some 0%Z;
     e_feedback_history := None;
     e_promoted_to_claude_md := None;
     e_promotion_date := None;
     e_promotion_confidence := None |}.

Definition observation_entity (now : stamp) (entity_id : string)
    (detected_contexts : list string) (learning_content : string) : entity :=
  {| e_id := Some entity_id;
     e_type := Some "general_observation";
     e_correction_type := None;
     e_pattern := None;
     e_original_text := None;
     e_content := Some learning_content;
     e_context := Some detected_contexts;
     e_confidence := None;
     e_created := Some (iso now);
     e_last_updated := None;
     e_applied_count := None;
     e_success_count := None;
     e_feedback_history := None;
     e_promoted_to_claude_md := None;
     e_promotion_date := None;
     e_promotion_confidence := None |}.

(** [for i, correction in enumerate(corrections_found)], from index [i]. *)
Fixpoint store_corrections (now : stamp) (detected_contexts : list string)
    (i : nat) (corrections : list found) (mem : memory) : memory :=
  match corrections with
  | [] => mem
  | correction :: rest =>
      let entity_id :=
        "correction_" ++ compact now ++ "_" ++ str_int (Z.of_nat i) in
      let mem :=
        set_entities
          (dict_set entity_id
             (correction_entity now entity_id detected_contexts correction)
             (entities_of mem))
          mem in
      let mem := set_stats (get_or 0%Z (m_stats mem) + 1) mem in
      store_corrections now detected_contexts (S i) rest mem
  end.

Inductive message :=
| StoredCorrections (corrections_count : nat) (total_corrections : Z)
| StoredObservation (total_corrections : Z).

Definition enhanced_learn (now : stamp) (learning_content : string)
    (MEMORY_FILE : file memory) : message * file memory :=
  let memory := load_existing_memory MEMORY_FILE in
  let detected_contexts := detect_contexts learning_content in
  let corrections_found := find_corrections learning_content in
  match corrections_found with
  | _ :: _ =>
      let memory :=
        store_corrections now detected_contexts 0 corrections_found memory in
      (StoredCorrections (List.length corrections_found)
                         (get_or 0%Z (m_stats memory)),
       Holds memory)
  | [] =>
      let entity_id := "observation_" ++ compact now in
      let memory :=
        set_entities
          (dict_set entity_id
             (observation_entity now entity_id detected_contexts
                                 learning_content)
             (entities_of memory))
          memory in
      (StoredObservation (get_or 0%Z (m_stats memory)), Holds memory)
  end.

End EnhancedLearn.

(* ================================================================== *)
(** ** [auto_correction_detector.py] *)

Module CorrectionDetector.

(** [kw\s+(.*?)<sep>\s*(.*?)(?:\.|$)] *)
Definition two_clauses (kw : string) (sep : string) : regex :=
  seq [lit kw; ws1; Group any_lazy; lit sep; ws0; Group any_lazy; dot_or_end].

(** [kw1\s+(.*?)\s+kw2\s+(.*?)(?:\.|$)], [kw2] given with its inner [\s+] *)
Definition two_sides (kw1 : string) (kw2 : list regex) : regex :=
  seq ([lit kw1; ws1; Group any_lazy; ws1] ++ kw2 ++
       [ws1; Group any_lazy; dot_or_end])%list.

(** [w1\s+w2\s+...\s+(.*?)(?:\.|$)] *)
Fixpoint words_then (ws : list string) : list regex :=
  match ws with
  | [] => [Group any_lazy; dot_or_end]
  | w :: ws' => (lit w :: ws1 :: words_then ws')%list
  end.

(** [kw,?\s+(.*?)(?:\.|$)] *)
Definition interjection (kw : string) : regex :=
  seq [lit kw; opt (lit ","); ws1; Group any_lazy; dot_or_end].

(** [kw.*?(?:a|b)\s+(.*?)(?:\.|$)] *)
Definition verb_to (kw : string) (a b : string) : regex :=
  seq [lit kw; any_lazy; Alt (lit a) (lit b); ws1; Group any_lazy; dot_or_end].

Definition patterns : list (string * list regex) :=
  [ ("dont_do_instead",
     [ two_clauses "don't" ","; two_clauses "don't" ".";
       two_clauses "avoid" ","; two_clauses "stop" "," ]);
    ("use_instead",
     [ two_sides "use" [lit "instead"; ws1; lit "of"];
       two_sides "prefer" [lit "over"];
       two_sides "choose" [lit "not"] ]);
    ("preference",
     [ seq (words_then ["i"; "prefer"]); seq (words_then ["i"; "like"]);
       seq (words_then ["my"; "preference"; "is"]);
       seq (words_then ["please"; "use"]) ]);
    ("context_behavior",
     [ two_clauses "when" ","; two_clauses "if" ",";
       two_clauses "during" ","; two_clauses "for" "," ]);
    ("always_rule",
     [ seq (words_then ["always"]); seq (words_then ["make"; "sure"; "to"]);
       seq (words_then ["remember"; "to"]) ]);
    ("never_rule",
     [ seq (words_then ["never"]); seq (words_then ["don't"; "ever"]);
       seq (words_then ["avoid"]) ]);
    ("correction",
     [ interjection "actually"; interjection "no"; interjection "wrong";
       interjection "incorrect" ]);
    ("mistake_fix",
     [ seq [opt (Seq (lit "that's") ws1);
            alt [lit "wrong"; lit "incorrect"; lit "mistake"];
            any_lazy; lit "should"; ws1; lit "be"; ws1;
            Group any_lazy; dot_or_end];
       verb_to "fix" "by" "to"; verb_to "change" "to" "into" ]) ].

Definition context_keywords : list (string * list string) :=
  [ ("urgent",
     ["quick"; "urgent"; "asap"; "immediately"; "fast"; "rush"; "hurry"]);
    ("quality",
     ["careful"; "thorough"; "comprehensive"; "detailed"; "precise"]);
    ("coding",
     ["function"; "class"; "variable"; "import"; "test"; "code"; "script"]);
    ("review", ["pr"; "review"; "check"; "verify"; "approve"; "merge"]);
    ("workflow", ["command"; "process"; "step"; "procedure"; "protocol"]);
    ("testing", ["test"; "testing"; "spec"; "coverage"; "validate"]);
    ("documentation", ["docs"; "readme"; "documentation"; "comment"]);
    ("git", ["commit"; "branch"; "merge"; "push"; "pull"; "git"]) ].

Record correction := {
  c_type : string;
  c_raw_match : pattern_value;
  c_pattern : list string;
  c_original_text : string;
  c_confidence : float;
  c_context : list string;
  c_timestamp : string;
  c_processed : bool
}.

Definition base_confidence : float := dec 7 1.

(** [confidence_boosts.get(correction_type, 0.0)] *)
Definition confidence_boosts (correction_type : string) : float :=
  if String.eqb correction_type "dont_do_instead" then dec 2 1
  else if String.eqb correction_type "use_instead" then dec 2 1
  else if String.eqb correction_type "always_rule" then dec 1 1
  else if String.eqb correction_type "never_rule" then dec 1 1
  else if String.eqb correction_type "correction" then dec 15 2
  else zero.

Definition explicit_language (message : string) : bool :=
  existsb (fun word => contains word message)
          ["always"; "never"; "must"; "should"].

Definition clear_structure (message : string) : bool :=
  contains "," message || contains "." message.

(** The sum before the final [min]. *)
Definition boosted_confidence (correction_type message : string) : float :=
  let confidence := add base_confidence (confidence_boosts correction_type) in
  let confidence :=
    if explicit_language message then add confidence (dec 1 1)
    else confidence in
  if clear_structure message then add confidence (dec 5 2) else confidence.

Definition _calculate_confidence (correction_type message : string) : float :=
  py_min one (boosted_confidence correction_type message).

Definition _detect_context (message : string) : list string :=
  let detected_contexts :=
    map fst
      (filter (fun ck => existsb (fun keyword => contains keyword message)
                                 (snd ck))
              context_keywords) in
  match detected_contexts with
  | [] => ["general"]
  | _ => detected_contexts
  end.

Definition list_string_eqb (a b : list string) : bool :=
  if list_eq_dec string_dec a b then true else false.

(** The loop over the sorted candidates: [seen_patterns] holds the keys
    [str(correction["pattern"])]; two tuples of strings print alike exactly
    when they are equal, so the tuple itself stands for the key. *)
Fixpoint unique_by_pattern (seen_patterns : list (list string))
    (corrections : list correction) : list correction :=
  match corrections with
  | [] => []
  | c :: rest =>
      if existsb (list_string_eqb (c_pattern c)) seen_patterns
      then unique_by_pattern seen_patterns rest
      else c :: unique_by_pattern (c_pattern c :: seen_patterns) rest
  end.

Definition _deduplicate_corrections (corrections : list correction)
  : list correction :=
  match corrections with
  | [] => corrections
  | _ => unique_by_pattern [] (sort_desc c_confidence corrections)
  end.

Definition detect_corrections (now : stamp) (message : string)
  : list correction :=
  let message_lower := strip (lower message) in
  let corrections :=
    flat_map
      (fun tp : string * list regex =>
         flat_map
           (fun pattern =>
              map (fun groups =>
                     {| c_type := fst tp;
                        c_raw_match := EnhancedLearn.match_value groups;
                        c_pattern := groups;
                        c_original_text := message;
                        c_confidence :=
                          _calculate_confidence (fst tp) message_lower;
                        c_context := _detect_context message_lower;
                        c_timestamp := iso now;
                        c_processed := false |})
                  (findall IGNORECASE_DOTALL pattern message_lower))
           (snd tp))
      patterns in
  _deduplicate_corrections corrections.

End CorrectionDetector.

Module AutoCorrectionPipeline.

Import CorrectionDetector.

Record correction_entry := {
  ce_id : string;
  ce_correction : correction;
  ce_conversation_context : dict string;
  ce_stored_at : string;
  ce_processed : bool;
  ce_processed_at : option string
}.

(** The document of [auto_corrections.json]. *)
Record data := {
  d_corrections : option (list correction_entry);
  d_created : option string
}.

(** [for correction in corrections: data["corrections"].append(...)] *)
Fixpoint append_entries (now : stamp) (conversation_context : dict string)
    (corrections : list correction)
    (stored : list correction_entry) : list correction_entry :=
  match corrections with
  | [] => stored
  | c :: rest =>
      let entry :=
        {| ce_id := "auto_" ++ compact now ++ "_" ++
                    str_int (Z.of_nat (List.length stored));
           ce_correction := c;
           ce_conversation_context := conversation_context;
           ce_stored_at := iso now;
           ce_processed := false;
           ce_processed_at := None |} in
      append_entries now conversation_context rest (stored ++ [entry])%list
  end.

(** Returns [storage_success] and the file afterwards; every exception is
    caught and leaves the file as it was.  [conversation_context or {}]
    is [get_or []] of the optional argument. *)
Definition _store_corrections (now : stamp) (corrections : list correction)
    (conversation_context : option (dict string))
    (memory_file : file data) : bool * file data :=
  let loaded :=
    match memory_file with
    | Holds d => Some d
    | Missing => Some {| d_corrections := Some []; d_created := Some (iso now) |}
    | Unreadable _ => None
    end in
  match loaded with
  | None => (false, memory_file)
  | Some d =>
      match d_corrections d with
      | None =>
          match corrections with
          | [] => (true, Holds d)
          | _ => (false, memory_file)
          end
      | Some stored =>
          (true,
           Holds {| d_corrections :=
                      Some (append_entries now (get_or [] conversation_context)
                              corrections stored);
                    d_created := d_created d |})
      end
  end.

Record process_result := {
  corrections_detected : list correction;
  storage_success : bool;
  user_confirmation_needed : bool
}.

Definition process_user_message (now : stamp) (message : string)
    (conversation_context : option (dict string))
    (memory_file : file data) : process_result * file data :=
  let corrections := detect_corrections now message in
  match corrections with
  | [] =>
      ({| corrections_detected := corrections; storage_success := false;
          user_confirmation_needed := false |}, memory_file)
  | _ =>
      let (stored, memory_file') :=
        _store_corrections now corrections conversation_context memory_file in
      ({| corrections_detected := corrections; storage_success := stored;
          user_confirmation_needed := true |}, memory_file')
  end.

(** [c.get("processed", False)] is the stored flag: every entry the
    pipeline writes has one. *)
Definition get_unprocessed_corrections (memory_file : file data)
  : list correction_entry :=
  match memory_file with
  | Holds d => filter (fun c => negb (ce_processed c)) (get_or [] (d_corrections d))
  | _ => []
  end.

Definition mark_entry (now : stamp) (correction_ids : list string)
    (c : correction_entry) : correction_entry :=
  if mem (ce_id c) correction_ids then
    {| ce_id := ce_id c; ce_correction := ce_correction c;
       ce_conversation_context := ce_conversation_context c;
       ce_stored_at := ce_stored_at c;
       ce_processed := true; ce_processed_at := Some (iso now) |}
  else c.

(** The loop runs over [data.get("corrections", [])]; a document without
    the key is written back as it is. *)
Definition mark_corrections_processed (now : stamp)
    (correction_ids : list string) (memory_file : file data)
  : bool * file data :=
  match memory_file with
  | Missing => (false, memory_file)
  | Unreadable _ => (false, memory_file)
  | Holds d =>
      (true,
       Holds {| d_corrections :=
                  option_map (map (mark_entry now correction_ids))
                             (d_corrections d);
                d_created := d_created d |})
  end.

End AutoCorrectionPipeline.

(* ================================================================== *)
(** ** [query_patterns.py] *)

Module QueryPatterns.

Definition is_user_correction (e : entity) : bool :=
  match e_type e with
  | Some t => String.eqb t "user_correction"
  | None => false
  end.

(** [any(kw in correction_contexts for kw in context_keywords)] after both
    sides are lower-cased. *)
Definition context_matches (context_keywords : list string) (e : entity)
  : bool :=
  let correction_contexts := map lower (get_or [] (e_context e)) in
  existsb (fun kw => mem kw correction_contexts) (map lower context_keywords).

Definition type_matches (correction_type : string) (e : entity) : bool :=
  match e_correction_type e with
  | Some t => String.eqb t correction_type
  | None => false
  end.

(** [x.get("confidence", 0)] *)
Definition confidence_key (e : entity) : float := get_or zero (e_confidence e).

(** The two optional filters; an empty list or string is falsy and filters
    nothing. *)
Definition filter_patterns (context_keywords : list string)
    (correction_type : string) (corrections : list entity) : list entity :=
  let corrections :=
    match context_keywords with
    | [] => corrections
    | _ => filter (context_matches context_keywords) corrections
    end in
  match correction_type with
  | EmptyString => corrections
  | _ => filter (type_matches correction_type) corrections
  end.

Inductive answer :=
| NoMemoryFile
| ErrorReading
| NoCorrections
| NoMatching
| Found (count : nat) (shown : list entity).

(** The value of [corrections] once sorted, before the report is
    formatted. *)
Definition selected (context_keywords : list string)
    (correction_type : string) (mem : memory) : list entity :=
  sort_desc confidence_key
    (filter_patterns context_keywords correction_type
       (filter is_user_correction (dict_values (entities_of mem)))).

(** The report names [len(corrections)] and lists [corrections[:5]]. *)
Definition query_patterns (context_keywords : list string)
    (correction_type : string) (MEMORY_FILE : file memory) : answer :=
  match MEMORY_FILE with
  | Missing => NoMemoryFile
  | Unreadable _ => ErrorReading
  | Holds mem =>
      match filter is_user_correction (dict_values (entities_of mem)) with
      | [] => NoCorrections
      | _ =>
          match selected context_keywords correction_type mem with
          | [] => NoMatching
          | corrections => Found (List.length corrections) (firstn 5 corrections)
          end
      end
  end.

End QueryPatterns.

(* ================================================================== *)
(** ** [claude_md_updater.py] *)

Module ClaudeMdUpdater.

Definition nl : string := String newline EmptyString.

(** [s.find(needle)]: the index of the first occurrence. *)
Fixpoint find (needle hay : string) : option nat :=
  if String.prefix needle hay then Some 0%nat
  else match hay with
       | EmptyString => None
       | String _ hay' => option_map S (find needle hay')
       end.

(** The files the updater reads and writes. *)
Record fs := {
  MEMORY_FILE : file memory;
  CLAUDE_MD : option string;      (* None: the path does not exist *)
  BACKUP_DIR : dict string        (* backup path -> content *)
}.

Definition backup_name (now : stamp) : string :=
  "CLAUDE_md_backup_" ++ compact now ++ ".md".

(** [shutil.copy2(CLAUDE_MD_PATH, backup_path)] *)
Definition create_backup (now : stamp) (s : fs) : option string * fs :=
  match CLAUDE_MD s with
  | None => (None, s)
  | Some content =>
      let backup_path := backup_name now in
      (Some backup_path,
       {| MEMORY_FILE := MEMORY_FILE s; CLAUDE_MD := CLAUDE_MD s;
          BACKUP_DIR := dict_set backup_path content (BACKUP_DIR s) |})
  end.

Record promotable := {
  p_id : string;
  p_pattern : entity;
  p_confidence : float;
  p_applications : Z;
  p_success_rate : float
}.

Definition success_rate (success_count applications : Z) : float :=
  div (of_Z success_count) (of_Z (Z.max 1 applications)).

(** The test under [# Strict promotion criteria], with the guard on the
    entity type around it. *)
Definition meets_criteria (pattern : entity) : bool :=
  match e_type pattern with
  | Some t =>
      String.eqb t "user_correction" &&
      (let confidence := get_or zero (e_confidence pattern) in
       let applications := get_or 0%Z (e_applied_count pattern) in
       let success_count := get_or 0%Z (e_success_count pattern) in
       geb confidence (dec 9 1) && (5 <=? applications)%Z &&
       geb (success_rate success_count applications) (dec 8 1))
  | None => false
  end.

Definition promotable_of (pattern_id : string) (pattern : entity)
  : promotable :=
  let applications := get_or 0%Z (e_applied_count pattern) in
  {| p_id := pattern_id;
     p_pattern := pattern;
     p_confidence := get_or zero (e_confidence pattern);
     p_applications := applications;
     p_success_rate :=
       success_rate (get_or 0%Z (e_success_count pattern)) applications |}.

Definition get_promotable_patterns (MEMORY_FILE : file memory)
  : list promotable :=
  match MEMORY_FILE with
  | Missing => []
  | Unreadable _ => []
  | Holds mem =>
      sort_desc p_confidence
        (map (fun kv => promotable_of (fst kv) (snd kv))
             (filter (fun kv => meets_criteria (snd kv)) (entities_of mem)))
  end.

Section Rendering.

(** Two formatting functions of Python itself: [f"{x:.2f}"] for a float and
    [str(l)] for a list of strings. *)
Variable format_2f : float -> string.
Variable str_list : list string -> string.

(** [f"{pattern_match}"] *)
Definition str_pattern (pattern_match : pattern_value) : string :=
  match pattern_match with
  | PStr s => s
  | PList l => str_list l
  end.

Definition format_pattern_as_rule (pattern_data : promotable) : string :=
  let pattern := p_pattern pattern_data in
  let correction_type := get_or "" (e_correction_type pattern) in
  let pattern_match := get_or (PStr "") (e_pattern pattern) in
  let contexts := get_or [] (e_context pattern) in
  let fallback :=
    "📝 LEARNED RULE: " ++ str_pattern pattern_match ++
    " (context: " ++ join ", " contexts ++ ")" in
  if String.eqb correction_type "dont_do_instead" then
    match pattern_match with
    | PList (a :: b :: _) => "❌ NEVER " ++ a ++ " | ✅ ALWAYS " ++ b
    | _ => fallback
    end
  else if String.eqb correction_type "preference" then
    "✅ USER PREFERENCE: " ++ str_pattern pattern_match
  else if String.eqb correction_type "context_behavior" then
    match pattern_match with
    | PList (context :: behavior :: _) =>
        "⚠️ CONTEXT RULE: When " ++ context ++ ", " ++ behavior
    | _ => fallback
    end
  else if String.eqb correction_type "always_rule" then
    "✅ ALWAYS: " ++ str_pattern pattern_match
  else if String.eqb correction_type "never_rule" then
    "❌ NEVER: " ++ str_pattern pattern_match
  else fallback.

Definition insertion_points : list (string * string) :=
  [ ("## Development Guidelines", "development");
    ("## Code Standards", "coding");
    ("## Testing", "testing");
    ("## Critical Lessons", "lessons");
    ("## Project-Specific", "project") ].

Fixpoint find_section (points : list (string * string))
    (claude_md_content : string) : nat * nat * string :=
  match points with
  | [] =>
      (String.length claude_md_content, String.length claude_md_content, "end")
  | (pattern, section) :: rest =>
      match find pattern claude_md_content with
      | Some i =>
          let start := (i + String.length pattern)%nat in
          match find (nl ++ "## ") (drop start claude_md_content) with
          | Some j => (start, (start + j)%nat, section)
          | None => (start, String.length claude_md_content, section)
          end
      | None => find_section rest claude_md_content
      end
  end.

Definition find_insertion_point (claude_md_content : string)
  : nat * nat * string :=
  find_section insertion_points claude_md_content.

Definition rule_line (pattern_data : promotable) : string :=
  "- " ++ format_pattern_as_rule pattern_data ++ " (learned: " ++
  format_2f (p_confidence pattern_data) ++ " confidence, " ++
  str_int (p_applications pattern_data) ++ " applications)".

Definition learned_section (now : stamp) (new_rules : list string) : string :=
  nl ++ nl ++
  "### 🧠 Learned Rules (Auto-Generated from Experience)" ++ nl ++
  "*Rules promoted from dynamic learning system based on user corrections*" ++
  nl ++ nl ++
  join nl new_rules ++ nl ++ nl ++
  "*Last updated: " ++ pretty now ++ "*" ++ nl.

Definition mark_one (now : stamp) (mem : memory) (pattern_data : promotable)
  : memory :=
  match dict_get (p_id pattern_data) (entities_of mem) with
  | Some pattern =>
      set_entities
        (dict_set (p_id pattern_data)
           (set_promotion (iso now) (p_confidence pattern_data) pattern)
           (entities_of mem))
        mem
  | None => mem
  end.

Definition _mark_patterns_promoted (now : stamp)
    (promoted_patterns : list promotable) (MEMORY_FILE : file memory)
  : file memory :=
  match MEMORY_FILE with
  | Missing => MEMORY_FILE
  | Unreadable _ => MEMORY_FILE
  | Holds mem => Holds (fold_left (mark_one now) promoted_patterns mem)
  end.

Inductive update_result :=
| NoPatterns
| ErrorNotFound
| DryRun (section : string) (backup_path : option string)
         (new_rules : list string) (preview : string)
| Success (backup_path : option string) (rules_added : nat).

Definition update_claude_md (dry_run : bool) (now : stamp) (s : fs)
  : update_result * fs :=
  let promotable_patterns := get_promotable_patterns (MEMORY_FILE s) in
  match promotable_patterns with
  | [] => (NoPatterns, s)
  | _ =>
      match CLAUDE_MD s with
      | None => (ErrorNotFound, s)
      | Some original_content =>
          let (backup_path, s) := create_backup now s in
          let new_rules := map rule_line promotable_patterns in
          let '(insert_start, insert_end, section) :=
            find_insertion_point original_content in
          let section_text := learned_section now new_rules in
          let new_content :=
            take insert_start original_content ++ section_text ++
            drop insert_end original_content in
          if dry_run then
            (DryRun section backup_path new_rules section_text, s)
          else
            (Success backup_path (List.length new_rules),
             {| MEMORY_FILE :=
                  _mark_patterns_promoted now promotable_patterns
                                          (MEMORY_FILE s);
                CLAUDE_MD := Some new_content;
                BACKUP_DIR := BACKUP_DIR s |})
      end
  end.

End Rendering.

Inductive rollback_result :=
| BackupNotFound
| RolledBack.

(** [shutil.copy2(backup_file, CLAUDE_MD_PATH)] *)
Definition rollback_to_backup (backup_path : string) (s : fs)
  : rollback_result * fs :=
  match dict_get backup_path (BACKUP_DIR s) with
  | None => (BackupNotFound, s)
  | Some content =>
      (RolledBack,
       {| MEMORY_FILE := MEMORY_FILE s; CLAUDE_MD := Some content;
          BACKUP_DIR := BACKUP_DIR s |})
  end.

End ClaudeMdUpdater.

(* ================================================================== *)
(** ** The statements of the specification *)

Module Spec.

Definition is_nan (x : float) : bool :=
  match x with
  | S754_nan => true
  | _ => false
  end.






(** A feedback application, through either script. *)
Inductive event :=
| Feedback (now : stamp) (pattern_ids : list string) (user_feedback : string)
| Adjust (now : stamp) (entity_id : string) (adjustment : float).

Definition apply_event (ev : event) (f : file memory) : file memory :=
  match ev with
  | Feedback now ids text =>
      snd (ConfidenceTracker.update_pattern_confidence now ids text f)
  | Adjust now id adjustment =>
      match MemoryLearn.update_pattern_confidence now id adjustment f with
      | Return f' => f'
      | Raise _ => f
      end
  end.

Definition run (events : list event) (f : file memory) : file memory :=
  fold_left (fun f ev => apply_event ev f) events f.

Definition touches (ev : event) (id : string) : Prop :=
  match ev with
  | Feedback _ ids _ => In id ids
  | Adjust _ id' _ => id' = id
  end.

(** The confidence stored under an id, when the store has one. *)
Definition stored_confidence (id : string) (f : file memory) : option float :=
  match f with
  | Holds mem =>
      match dict_get id (entities_of mem) with
      | Some e => e_confidence e
      | None => None
      end
  | _ => None
  end.

(** Whatever the store held before, an entity that an update went through
    carries a clamped confidence. *)
Definition clamped_at (id : string) (mem : memory) : Prop :=
  forall e, dict_get id (entities_of mem) = Some e ->
            exists x, e_confidence e = Some (clamp01 x).

(** Keys of a dictionary are pairwise distinct. *)
Definition dict_wf {V} (d : dict V) : Prop := NoDup (map fst d).


End Spec.


(** ** Sample data *)

Module Samples.

Definition t0 : stamp :=
  {| compact := "20250101_120000"; pretty := "2025-01-01 12:00:00";
     iso := "2025-01-01T12:00:00.000001" |}.

(** A later reading of the clock within the same second. *)
Definition t0' : stamp :=
  {| compact := "20250101_120000"; pretty := "2025-01-01 12:00:00";
     iso := "2025-01-01T12:00:00.700000" |}.

Definition t1 : stamp :=
  {| compact := "20250101_120005"; pretty := "2025-01-01 12:00:05";
     iso := "2025-01-01T12:00:05.000001" |}.

(** A [user_correction] pattern with the given statistics. *)
Definition synthetic (confidence : float) (applied_count success_count : Z)
  : entity :=
  {| e_id := Some "p1";
     e_type := Some "user_correction";
     e_correction_type := Some "always_rule";
     e_pattern := Some (PStr "run tests");
     e_original_text := Some "Always run tests";
     e_content := None;
     e_context := Some ["coding"];
     e_confidence := Some confidence;
     e_created := Some (iso t0);
     e_last_updated := None;
     e_applied_count := Some applied_count;
     e_success_count := Some success_count;
     e_feedback_history := None;
     e_promoted_to_claude_md := None;
     e_promotion_date := None;
     e_promotion_confidence := None |}.

Definition store_of (entities : dict entity) : memory :=
  {| m_entities := Some entities; m_relations := Some [];
     m_corrections := None; m_stats := Some (Z.of_nat (List.length entities));
     m_metadata := None |}.

Definition fresh_pattern : entity := synthetic (dec 8 1) 0 0.

Definition correction_text : string := "Actually, that's wrong, use X instead".

Definition five_corrections : list Spec.event :=
  repeat (Spec.Feedback t0 ["p1"] correction_text) 5.

End Samples.

Module Promotion.

Import ClaudeMdUpdater.


Definition is_user_correction (e : entity) : bool :=
  match e_type e with
  | Some t => String.eqb t "user_correction"
  | None => false
  end.

(** The record stored under [id] is listed by [get_promotable_patterns]. *)
Definition is_promotable (f : file memory) (id : string) (e : entity) : Prop :=
  In (promotable_of id e) (get_promotable_patterns f).



(** The text [x] occurs in [doc]. *)
Definition occurs_in (x doc : string) : Prop :=
  exists before after, doc = before ++ x ++ after.

Definition stored_entity (id : string) (f : file memory) : option entity :=
  match f with
  | Holds mem => dict_get id (entities_of mem)
  | _ => None
  end.

(** The store holds a record [e] under [id] that passes the promotion
    check, and there is a rules document. *)
Definition standing (id : string) (s : fs) (e : entity) : Prop :=
  exists mem doc,
    MEMORY_FILE s = Holds mem /\ Spec.dict_wf (entities_of mem) /\
    CLAUDE_MD s = Some doc /\
    dict_get id (entities_of mem) = Some e /\ meets_criteria e = true.

Section Runs.
Variable format_2f : float -> string.
Variable str_list : list string -> string.

(** Successive non-dry-run promotions, one per reading of the clock. *)
Definition promote_runs (nows : list stamp) (s : fs) : fs :=
  fold_left (fun s now => snd (update_claude_md format_2f str_list false now s))
            nows s.

End Runs.

End Promotion.

Module PromotionSamples.

Import Samples.

Definition observation_id : string := "observation_20250101_120000".




(** Stand-ins for the two formatting functions of Python. *)
Definition fmt (_ : float) : string := "0.95".
Definition strl (l : list string) : string := "[" ++ join ", " l ++ "]".

Definition rules_document : string :=
  "# Rules" ++ ClaudeMdUpdater.nl ++ "## Testing" ++ ClaudeMdUpdater.nl ++
  "Keep tests fast." ++ ClaudeMdUpdater.nl.

Definition ready : ClaudeMdUpdater.fs :=
  {| ClaudeMdUpdater.MEMORY_FILE :=
       Holds (store_of [("p1", synthetic (dec 95 2) 6 5)]);
     ClaudeMdUpdater.CLAUDE_MD := Some rules_document;
     ClaudeMdUpdater.BACKUP_DIR := [] |}.

Definition promoted : ClaudeMdUpdater.fs :=
  snd (ClaudeMdUpdater.update_claude_md fmt strl false t0 ready).

End PromotionSamples.

Module Learning.

Import EnhancedLearn.





Definition observation_id (now : stamp) : string :=
  "observation_" ++ compact now.

Definition correction_id (now : stamp) (i : nat) : string :=
  "correction_" ++ compact now ++ "_" ++ str_int (Z.of_nat i).

(** The ids under which a store file holds records. *)
Definition keys (f : file memory) : list string :=
  match f with
  | Holds mem => map fst (entities_of mem)
  | _ => []
  end.

Definition total_corrections (f : file memory) : option Z :=
  match f with
  | Holds mem => m_stats mem
  | _ => None
  end.

End Learning.

Module Extraction.

Import CorrectionDetector.

(** Initial confidence in the words of the specification: a base, a boost
    fixed per category, a boost for imperative wording and a boost for
    clause-separating punctuation. *)
Definition category_boost (category : string) : float :=
  if String.eqb category "dont_do_instead" then dec 2 1
  else if String.eqb category "use_instead" then dec 2 1
  else if String.eqb category "always_rule" then dec 1 1
  else if String.eqb category "never_rule" then dec 1 1
  else if String.eqb category "correction" then dec 15 2
  else zero.

Definition imperative (text : string) : bool :=
  contains "always" text || contains "never" text ||
  contains "must" text || contains "should" text.

Definition punctuated (text : string) : bool :=
  contains "," text || contains "." text.

Definition natural_sum (category text : string) : float :=
  let c := add (dec 7 1) (category_boost category) in
  let c := if imperative text then add c (dec 1 1) else c in
  if punctuated text then add c (dec 5 2) else c.

(** The claim as the specification has it: the confidence is the natural
    sum, left unclamped, and that sum does not exceed 1. *)
Definition claimed_initial_confidence (category text : string) : Prop :=
  _calculate_confidence category text = natural_sum category text /\
  leb (natural_sum category text) one = true.

Definition example_text : string :=
  "Don't use inline imports, use module-level imports instead.".

Definition example_candidate : correction :=
  {| c_type := "dont_do_instead";
     c_raw_match :=
       PList ["use inline imports"; "use module-level imports instead"];
     c_pattern := ["use inline imports"; "use module-level imports instead"];
     c_original_text := example_text;
     c_confidence := dec 95 2;
     c_context := ["coding"];
     c_timestamp := iso Samples.t0;
     c_processed := false |}.

Definition crowded_text : string := "don't always do x, do y".

End Extraction.

Module Querying.

Import QueryPatterns.

(** A pattern the query is expected to hide: confidence 0.3. *)
Definition unreliable : entity := Samples.synthetic (dec 3 1) 2 0.
Definition reliable : entity := Samples.synthetic (dec 95 2) 6 5.

Definition unreliable_store : memory :=
  Samples.store_of [("p1", unreliable)].

Definition mixed_store : memory :=
  Samples.store_of [("p1", Samples.synthetic (dec 7 1) 1 1); ("p2", reliable)].

(** The filters of [query_patterns], as a predicate on one record. *)
Definition passes (context_keywords : list string) (correction_type : string)
    (e : entity) : bool :=
  is_user_correction e &&
  match context_keywords with
  | [] => true
  | _ => context_matches context_keywords e
  end &&
  match correction_type with
  | EmptyString => true
  | _ => type_matches correction_type e
  end.

End Querying.

(* ================================================================== *)
(** ** [confidence_tracker.py]: the listing of patterns and the statistics *)

Module TrackerReports.

Record high_confidence := {
  h_id : string;
  h_confidence : float;
  h_applications : Z;
  h_success_rate : float;
  h_pattern : entity
}.

Definition is_user_correction (e : entity) : bool :=
  match e_type e with
  | Some t => String.eqb t "user_correction"
  | None => false
  end.

(** [pattern.get("success_count", 0) / max(1, applications)] *)
Definition success_rate (pattern : entity) : float :=
  div (of_Z (get_or 0%Z (e_success_count pattern)))
      (of_Z (Z.max 1 (get_or 0%Z (e_applied_count pattern)))).

(** The test of the loop, a 70% success rate included. *)
Definition qualifies (min_confidence : float) (min_applications : Z)
    (pattern : entity) : bool :=
  is_user_correction pattern &&
  (geb (get_or zero (e_confidence pattern)) min_confidence &&
   (min_applications <=? get_or 0%Z (e_applied_count pattern))%Z &&
   geb (success_rate pattern) (dec 7 1)).

Definition high_confidence_of (pattern_id : string) (pattern : entity)
  : high_confidence :=
  {| h_id := pattern_id;
     h_confidence := get_or zero (e_confidence pattern);
     h_applications := get_or 0%Z (e_applied_count pattern);
     h_success_rate := success_rate pattern;
     h_pattern := pattern |}.

Definition get_high_confidence_patterns (min_confidence : float)
    (min_applications : Z) (MEMORY_FILE : file memory)
  : list high_confidence :=
  match MEMORY_FILE with
  | Missing => []
  | Unreadable _ => []
  | Holds mem =>
      sort_desc h_confidence
        (map (fun kv => high_confidence_of (fst kv) (snd kv))
             (filter (fun kv => qualifies min_confidence min_applications
                                          (snd kv))
                     (entities_of mem)))
  end.

(** The defaults [min_confidence=0.8, min_applications=3], which is also
    the module-level [get_promotable_patterns]. *)
Definition get_promotable_patterns (MEMORY_FILE : file memory)
  : list high_confidence :=
  get_high_confidence_patterns (dec 8 1) 3 MEMORY_FILE.

Inductive confidence_stats :=
| NoStats                                   (* {} *)
| NoPatterns                                (* {"total_patterns": 0} *)
| Stats (total_patterns : nat) (avg_confidence : float)
        (high_confidence medium_confidence low_confidence : nat)
        (total_applications : Z) (patterns_ready_for_promotion : nat).

Definition is_high (c : float) : bool := geb c (dec 8 1).
Definition is_medium (c : float) : bool := leb (dec 5 1) c && ltb c (dec 8 1).
Definition is_low (c : float) : bool := ltb c (dec 5 1).

Section Stats.

(** [sum] of Python on a list of floats. *)
Variable py_sum : list float -> float.

Definition get_confidence_stats (MEMORY_FILE : file memory)
  : confidence_stats :=
  match MEMORY_FILE with
  | Missing => NoStats
  | Unreadable _ => NoStats
  | Holds mem =>
      let patterns :=
        filter is_user_correction (dict_values (entities_of mem)) in
      match patterns with
      | [] => NoPatterns
      | _ =>
          let confidences :=
            map (fun p => get_or (dec 5 1) (e_confidence p)) patterns in
          let applications :=
            map (fun p => get_or 0%Z (e_applied_count p)) patterns in
          Stats (List.length patterns)
                (div (py_sum confidences)
                     (of_Z (Z.of_nat (List.length confidences))))
                (List.length (filter is_high confidences))
                (List.length (filter is_medium confidences))
                (List.length (filter is_low confidences))
                (fold_left Z.add applications 0%Z)
                (List.length (get_promotable_patterns MEMORY_FILE))
      end
  end.

End Stats.

End TrackerReports.

(* ================================================================== *)
(** ** [memory_learn.py]: detection and storage *)

Module MemoryLearnStore.

Import MemoryLearn.

Definition patterns : list (regex * string) :=
  [ (seq [lit "don't"; ws1; Group any_lazy; lit ","; ws0; Group any_greedy],
     "dont_do_instead");
    (seq [lit "use"; ws1; Group any_lazy; ws1; lit "instead"; ws1; lit "of";
          ws1; Group any_lazy],
     "use_instead_of");
    (seq [lit "i"; ws1; lit "prefer"; ws1; Group any_greedy], "preference");
    (seq [lit "when"; ws1; Group any_lazy; lit ","; ws0; Group any_greedy],
     "context_behavior");
    (seq [lit "always"; ws1; Group any_greedy], "always_rule");
    (seq [lit "never"; ws1; Group any_greedy], "never_rule");
    (seq [lit "actually"; opt (lit ","); ws1; Group any_greedy], "correction");
    (seq [alt [lit "wrong"; lit "incorrect"; lit "mistake"]; any_lazy;
          lit "should"; ws1; lit "be"; ws1; Group any_greedy],
     "mistake_fix") ].

Record detected := {
  d_type : string;
  d_match : list string;       (* always a tuple *)
  d_original_text : string;
  d_confidence : float
}.

Definition detect_correction_patterns (text : string) : list detected :=
  let text_lower := lower text in
  flat_map
    (fun pc : regex * string =>
       map (fun groups =>
              {| d_type := snd pc; d_match := groups;
                 d_original_text := text; d_confidence := dec 8 1 |})
           (findall IGNORECASE (fst pc) text_lower))
    patterns.

Definition context_indicators : list (string * list string) :=
  [ ("urgent", ["quick"; "urgent"; "asap"; "immediately"; "fast"; "rush"]);
    ("quality", ["careful"; "thorough"; "comprehensive"; "detailed"]);
    ("coding", ["function"; "class"; "variable"; "import"; "test"; "code"]);
    ("review", ["pr"; "review"; "check"; "verify"; "approve"]);
    ("workflow", ["command"; "process"; "step"; "procedure"]);
    ("testing", ["test"; "testing"; "spec"; "coverage"]);
    ("documentation", ["docs"; "readme"; "documentation"; "comment"]) ].

Definition detect_context (text : string) : list string :=
  let text_lower := lower text in
  let detected_contexts :=
    map fst
      (filter (fun ck => existsb (fun keyword => contains keyword text_lower)
                                 (snd ck))
              context_indicators) in
  match detected_contexts with
  | [] => ["general"]
  | _ => detected_contexts
  end.

Definition correction_entity (now : stamp) (entity_id : string)
    (context : list string) (correction : detected) : entity :=
  {| e_id := Some entity_id;
     e_type := Some "user_correction";
     e_correction_type := Some (d_type correction);
     e_pattern := Some (PList (d_match correction));
     e_original_text := Some (d_original_text correction);
     e_content := None;
     e_context := Some context;
     e_confidence := Some (d_confidence correction);
     e_created := Some (iso now);
     e_last_updated := None;
     e_applied_count := Some 0%Z;
     e_success_count := Some 0%Z;
     e_feedback_history := None;
     e_promoted_to_claude_md := None;
     e_promotion_date := None;
     e_promotion_confidence := None |}.

Definition correction_id (now : stamp) : string := "correction_" ++ compact now.
Definition observation_id (now : stamp) : string := "observation_" ++ compact now.

(** Each subscription raises [KeyError] when the key is absent; the file
    is written only once all three went through. *)
Definition store_correction_local (now : stamp) (correction : detected)
    (context : list string) (MEMORY_FILE : file memory)
  : outcome (string * file memory) :=
  match load_memory now MEMORY_FILE with
  | Raise e => Raise e
  | Return mem =>
      let entity_id := correction_id now in
      match m_entities mem with
      | None => Raise (KeyError "entities")
      | Some entities =>
          match m_corrections mem with
          | None => Raise (KeyError "corrections")
          | Some corrections =>
              match m_relations mem with
              | None => Raise (KeyError "relations")
              | Some relations =>
                  Return
                    (entity_id,
                     Holds
                       {| m_entities :=
                            Some (dict_set entity_id
                                    (correction_entity now entity_id context
                                                       correction)
                                    entities);
                          m_relations :=
                            Some (relations ++
                                  [{| r_from := "jleechan2015";
                                      r_to := entity_id;
                                      r_type := "corrected_with";
                                      r_created := iso now |}])%list;
                          m_corrections := Some (corrections ++ [entity_id])%list;
                          m_stats := m_stats mem;
                          m_metadata := m_metadata mem |})
              end
          end
      end
  end.

Definition store_observation_local (now : stamp) (content : string)
    (context : list string) (MEMORY_FILE : file memory)
  : outcome (string * file memory) :=
  match load_memory now MEMORY_FILE with
  | Raise e => Raise e
  | Return mem =>
      let entity_id := observation_id now in
      match m_entities mem with
      | None => Raise (KeyError "entities")
      | Some entities =>
          Return
            (entity_id,
             Holds (set_entities
                      (dict_set entity_id
                         (EnhancedLearn.observation_entity now entity_id
                            context content)
                         entities)
                      mem))
      end
  end.

(** [for correction in corrections: store_correction_local(...)]; the
    [i]-th call of the run reads the clock as [clock i]. *)
Fixpoint store_each (clock : nat -> stamp) (i : nat)
    (corrections : list detected) (context : list string)
    (MEMORY_FILE : file memory) : outcome (list string * file memory) :=
  match corrections with
  | [] => Return ([], MEMORY_FILE)
  | correction :: rest =>
      match store_correction_local (clock i) correction context MEMORY_FILE with
      | Raise e => Raise e
      | Return (entity_id, f) =>
          match store_each clock (S i) rest context f with
          | Raise e => Raise e
          | Return (ids, f') => Return (entity_id :: ids, f')
          end
      end
  end.

(** [len([e for e in entities.values() if e["type"] == t])] *)
Fixpoint count_type (t : string) (l : dict entity) : outcome nat :=
  match l with
  | [] => Return 0%nat
  | (_, e) :: rest =>
      match e_type e with
      | None => Raise (KeyError "type")
      | Some t' =>
          match count_type t rest with
          | Raise x => Raise x
          | Return n => Return (if String.eqb t' t then S n else n)
          end
      end
  end.

Definition count_corrections (now : stamp) (MEMORY_FILE : file memory)
  : outcome nat :=
  match load_memory now MEMORY_FILE with
  | Raise e => Raise e
  | Return mem =>
      match m_entities mem with
      | None => Raise (KeyError "entities")
      | Some entities => count_type "user_correction" entities
      end
  end.

Record learned := {
  l_stored : list string;          (* the ids reported, in order *)
  l_as_observation : bool;
  l_total_corrections : nat
}.

Definition enhanced_learn (clock : nat -> stamp) (learning_content : string)
    (MEMORY_FILE : file memory) : outcome (learned * file memory) :=
  let context := detect_context learning_content in
  let corrections := detect_correction_patterns learning_content in
  let stored :=
    match corrections with
    | [] =>
        match store_observation_local (clock 0%nat) learning_content context
                                      MEMORY_FILE with
        | Raise e => Raise e
        | Return (entity_id, f) => Return ([entity_id], f)
        end
    | _ => store_each clock 0 corrections context MEMORY_FILE
    end in
  match stored with
  | Raise e => Raise e
  | Return (ids, f) =>
      match count_corrections (clock (List.length ids)) f with
      | Raise e => Raise e
      | Return total =>
          Return ({| l_stored := ids;
                     l_as_observation :=
                       match corrections with [] => true | _ => false end;
                     l_total_corrections := total |}, f)
      end
  end.

Record memory_stats := {
  total_entities : nat;
  s_corrections : nat;
  s_observations : nat;
  s_relations : nat
}.

Definition get_memory_stats (now : stamp) (MEMORY_FILE : file memory)
  : outcome memory_stats :=
  match load_memory now MEMORY_FILE with
  | Raise e => Raise e
  | Return mem =>
      match m_entities mem with
      | None => Raise (KeyError "entities")
      | Some entities =>
          match count_type "user_correction" entities with
          | Raise e => Raise e
          | Return c =>
              match count_type "general_observation" entities with
              | Raise e => Raise e
              | Return o =>
                  match m_relations mem with
                  | None => Raise (KeyError "relations")
                  | Some relations =>
                      Return {| total_entities := List.length entities;
                                s_corrections := c;
                                s_observations := o;
                                s_relations := List.length relations |}
                  end
              end
          end
      end
  end.

End MemoryLearnStore.

(* ================================================================== *)
(** ** [query_patterns.py]: the summary *)

Module MemorySummary.

(** [d[k] = d.get(k, 0) + 1] *)
Definition bump (k : string) (d : dict nat) : dict nat :=
  dict_set k (get_or 0%nat (dict_get k d) + 1)%nat d.

Definition is_of_type (t : string) (e : entity) : bool :=
  match e_type e with
  | Some t' => String.eqb t' t
  | None => false
  end.

(** The two dictionaries the loop over the corrections fills. *)
Definition tally (corrections : list entity) : dict nat * dict nat :=
  fold_left
    (fun acc correction =>
       let ctype := get_or "unknown" (e_correction_type correction) in
       (bump ctype (fst acc),
        fold_left (fun contexts ctx => bump ctx contexts)
                  (get_or [] (e_context correction)) (snd acc)))
    corrections ([], []).

(** [sorted(d.items())]: ascending by key, the keys being distinct. *)
Fixpoint insert_item (x : string * nat) (l : list (string * nat))
  : list (string * nat) :=
  match l with
  | [] => [x]
  | y :: l' =>
      if String.ltb (fst y) (fst x) then y :: insert_item x l' else x :: l
  end.

Definition sorted_items (d : dict nat) : list (string * nat) :=
  fold_right insert_item [] d.

Inductive summary :=
| NoMemoryFile
| ErrorReading
| Summary (total_corrections total_observations : nat)
          (correction_types contexts : list (string * nat)).

Definition get_memory_summary (MEMORY_FILE : file memory) : summary :=
  match MEMORY_FILE with
  | Missing => NoMemoryFile
  | Unreadable _ => ErrorReading
  | Holds mem =>
      let entities := dict_values (entities_of mem) in
      let corrections := filter (is_of_type "user_correction") entities in
      let observations := filter (is_of_type "general_observation") entities in
      let (correction_types, contexts) := tally corrections in
      Summary (List.length corrections) (List.length observations)
              (sorted_items correction_types) (sorted_items contexts)
  end.

End MemorySummary.

(* ================================================================== *)
(** ** Notions used in the further properties *)

Module Extra.

(** [success_count <= applied_count], absent counters counting as 0. *)
Definition counts_ok (e : entity) : Prop :=
  (get_or 0 (e_success_count e) <= get_or 0 (e_applied_count e))%Z.

Definition history (e : entity) : list feedback_entry :=
  get_or [] (e_feedback_history e).

Definition applied_count (e : entity) : Z := get_or 0%Z (e_applied_count e).

(** One call of [ConfidenceTracker.update_pattern_confidence]. *)
Record call := {
  c_now : stamp;
  c_ids : list string;
  c_text : string
}.

Definition as_event (c : call) : Spec.event :=
  Spec.Feedback (c_now c) (c_ids c) (c_text c).

(** How many of the calls name [id]. *)
Definition naming (id : string) (calls : list call) : nat :=
  List.length (filter (fun c => mem id (c_ids c)) calls).

Definition present (m : memory) (id : string) : bool :=
  match dict_get id (entities_of m) with
  | Some _ => true
  | None => false
  end.

(** A row of the tracker's report agrees with the classification. *)
Definition row_ok (t : feedback_type) (u : ConfidenceTracker.pattern_update)
  : Prop :=
  ConfidenceTracker.u_feedback_type u = t /\
  ConfidenceTracker.u_new_confidence u =
    clamp01 (add (ConfidenceTracker.u_old_confidence u)
                 (ConfidenceTracker.adjustments t)).

Definition sample_calls : list call :=
  [ {| c_now := Samples.t0; c_ids := ["p1"; "p2"]; c_text := "good" |};
    {| c_now := Samples.t1; c_ids := ["p2"]; c_text := "wrong" |};
    {| c_now := Samples.t1; c_ids := ["p1"]; c_text := "thanks" |} ].

(** *** The queue of [auto_corrections.json] *)

Import CorrectionDetector AutoCorrectionPipeline.

(** The id of the entry appended at position [i]. *)
Definition auto_id (now : stamp) (i : nat) : string :=
  "auto_" ++ compact now ++ "_" ++ str_int (Z.of_nat i).

Definition new_entry (now : stamp) (conversation_context : dict string)
    (i : nat) (c : correction) : correction_entry :=
  {| ce_id := auto_id now i;
     ce_correction := c;
     ce_conversation_context := conversation_context;
     ce_stored_at := iso now;
     ce_processed := false;
     ce_processed_at := None |}.

(** One entry per correction, numbered from [i]. *)
Fixpoint new_entries (now : stamp) (conversation_context : dict string)
    (i : nat) (corrections : list correction) : list correction_entry :=
  match corrections with
  | [] => []
  | c :: rest =>
      new_entry now conversation_context i c ::
      new_entries now conversation_context (S i) rest
  end.

(** The entries a queue file holds. *)
Definition entries (f : file data) : list correction_entry :=
  match f with
  | Holds d => get_or [] (d_corrections d)
  | _ => []
  end.

(** A call of one of the two writers of the queue file. *)
Inductive queue_event :=
| Store (now : stamp) (corrections : list correction)
        (conversation_context : option (dict string))
| Mark (now : stamp) (correction_ids : list string).

Definition queue_step (f : file data) (ev : queue_event) : file data :=
  match ev with
  | Store now corrections conversation_context =>
      snd (_store_corrections now corrections conversation_context f)
  | Mark now correction_ids =>
      snd (mark_corrections_processed now correction_ids f)
  end.

Definition queue_run (events : list queue_event) (f : file data) : file data :=
  fold_left queue_step events f.

(** Every entry carries the id of its own position. *)
Definition positional (l : list correction_entry) : Prop :=
  forall i e, nth_error l i = Some e -> exists now, ce_id e = auto_id now i.

Definition underscore : ascii := "_"%char.

Fixpoint no_underscore (s : string) : bool :=
  match s with
  | EmptyString => true
  | String c s' => negb (Ascii.eqb c underscore) && no_underscore s'
  end.

Definition not_nan (c : correction) : Prop :=
  Spec.is_nan (c_confidence c) = false.

Definition at_least (a b : correction) : Prop :=
  geb (c_confidence a) (c_confidence b) = true.

(** Two candidates for the same fragment, the weaker one first. *)
Definition weak_twin : correction :=
  {| c_type := "preference"; c_raw_match := PStr "tabs";
     c_pattern := ["tabs"]; c_original_text := "I prefer tabs";
     c_confidence := dec 7 1; c_context := ["general"];
     c_timestamp := iso Samples.t0; c_processed := false |}.

Definition strong_twin : correction :=
  {| c_type := "always_rule"; c_raw_match := PStr "tabs";
     c_pattern := ["tabs"]; c_original_text := "I prefer tabs";
     c_confidence := dec 8 1; c_context := ["general"];
     c_timestamp := iso Samples.t0; c_processed := false |}.

Definition twins : list correction := [weak_twin; strong_twin].

(** Everything a record holds but the three promotion fields. *)
Definition learned_fields (e : entity) :=
  (e_id e, e_type e, e_correction_type e, e_pattern e, e_original_text e,
   e_content e, e_context e, e_confidence e, e_created e, e_last_updated e,
   e_applied_count e, e_success_count e, e_feedback_history e).

(** The test of [query_relevant_patterns], on a record that has the keys
    the loop subscripts. *)
Definition relevant (current_context : list string) (e : entity) : bool :=
  QueryPatterns.is_user_correction e &&
  existsb (fun ctx => mem ctx current_context) (get_or [] (e_context e)) &&
  match e_confidence e with
  | Some c => gtb c (dec 6 1)
  | None => false
  end.

(** The keys of a dictionary after [d[k] = v]. *)
Definition add_key (k : string) (keys : list string) : list string :=
  if mem k keys then keys else (keys ++ [k])%list.

Definition has_type (kv : string * entity) : Prop := e_type (snd kv) <> None.

(** Three matches handled within one second. *)
Definition same_second (i : nat) : stamp :=
  match i with
  | O => Samples.t0
  | _ => Samples.t0'
  end.

End Extra.

(* ================================================================== *)
(** ** The constants of the scripts as binary64 numbers *)

Section Constants.

Example dec_0_1 : dec 1 1 = S754_finite false 7205759403792794 (-56).
Proof. reflexivity. Qed.

Example dec_0_15 : dec 15 2 = S754_finite false 5404319552844595 (-55).
Proof. reflexivity. Qed.

Example dec_0_25 : dec 25 2 = S754_finite false 4503599627370496 (-54).
Proof. reflexivity. Qed.

Example dec_0_6 : dec 6 1 = S754_finite false 5404319552844595 (-53).
Proof. reflexivity. Qed.

Example dec_0_8 : dec 8 1 = S754_finite false 7205759403792794 (-53).
Proof. reflexivity. Qed.

Example dec_0_9 : dec 9 1 = S754_finite false 8106479329266893 (-53).
Proof. reflexivity. Qed.

Example dec_0_95 : dec 95 2 = S754_finite false 8556839292003942 (-53).
Proof. reflexivity. Qed.

(** [0.7 + 0.2] is the double just below [0.9]. *)
Example sum_0_7_0_2 :
  add (dec 7 1) (dec 2 1) = S754_finite false 8106479329266892 (-53) /\
  ltb (add (dec 7 1) (dec 2 1)) (dec 9 1) = true.
Proof. split; reflexivity. Qed.

End Constants.

(* ================================================================== *)
(** ** [findall] has fuel enough *)

Section Fuel.

Lemma findall_from_fuel (f : flags) (r : regex) (n : nat) :
  forall (m : nat) (s : string),
    (String.length s < n)%nat -> (String.length s < m)%nat ->
    findall_from n f r s = findall_from m f r s.
Proof.
  induction n as [|n IH]; intros m s Hn Hm; [lia|].
  destruct m as [|m]; [lia|].
  simpl. destruct (match_at f r s) as [[caps rest]|].
  - destruct (String.length rest <? String.length s)%nat eqn:E.
    + apply Nat.ltb_lt in E. f_equal. apply IH; lia.
    + destruct s as [|x s']; [reflexivity|]. simpl in *.
      f_equal. apply IH; lia.
  - destruct s as [|x s']; [reflexivity|]. simpl in *. apply IH; lia.
Qed.

(** More fuel than [findall] takes changes nothing. *)
Lemma findall_fuel (f : flags) (r : regex) (s : string) (n : nat) :
  (String.length s < n)%nat -> findall_from n f r s = findall f r s.
Proof. intros H. unfold findall. apply findall_from_fuel; lia. Qed.

End Fuel.

(* ================================================================== *)
(** ** Properties of floats *)

Section FloatOrder.

Lemma ltb_leb (a b : float) : ltb a b = true -> leb a b = true.
Proof.
  unfold ltb, leb, SFltb, SFleb.
  destruct (SFcompare a b) as [[ | | ]|]; congruence.
Qed.

Lemma clamp01_in_unit (x : float) : in_unit (clamp01 x).
Proof.
  unfold in_unit, clamp01, py_max, py_min, gtb.
  destruct (ltb x one) eqn:H1.
  - destruct (ltb zero x) eqn:H0.
    + split; apply ltb_leb; assumption.
    + split; reflexivity.
  - destruct (ltb zero one) eqn:H0; split; reflexivity.
Qed.

Lemma compare_antisym (a b : float) c :
  SFcompare a b = Some c -> SFcompare b a = Some (CompOpp c).
Proof.
  destruct a as [sa|sa| |sa ma ea], b as [sb|sb| |sb mb eb]; simpl;
    try discriminate;
    try (destruct sa); try (destruct sb); simpl;
    intros H; inversion H; subst; clear H; try reflexivity.
  all: change (Pos.compare_cont Eq) with Pos.compare;
    rewrite (Z.compare_antisym ea eb), (Pos.compare_antisym ma mb);
    destruct (ea ?= eb)%Z, (ma ?= mb)%positive; reflexivity.
Qed.

Lemma compare_some (a b : float) :
  Spec.is_nan a = false -> Spec.is_nan b = false ->
  exists c, SFcompare a b = Some c.
Proof.
  destruct a, b; simpl; try discriminate; intros _ _; eexists; reflexivity.
Qed.

Lemma leb_total (a b : float) :
  Spec.is_nan a = false -> Spec.is_nan b = false ->
  ltb a b = false -> leb b a = true.
Proof.
  intros Ha Hb. destruct (compare_some a b Ha Hb) as [c Hc].
  unfold ltb, leb, SFltb, SFleb. rewrite (compare_antisym _ _ Hc), Hc.
  destruct c; simpl; congruence.
Qed.

Lemma leb_not_nan (a b : float) :
  leb a b = true -> Spec.is_nan a = false /\ Spec.is_nan b = false.
Proof.
  unfold leb, SFleb. destruct a, b; simpl; try discriminate; auto.
Qed.

Lemma leb_trans (a b c : float) :
  leb a b = true -> leb b c = true -> leb a c = true.
Proof.
  unfold leb, SFleb.
  destruct a as [sa|sa| |sa ma ea], b as [sb|sb| |sb mb eb],
           c as [sc|sc| |sc mc ec]; simpl;
    try discriminate; try reflexivity;
    try (destruct sa); try (destruct sb); try (destruct sc); simpl;
    try discriminate; try reflexivity.
  all: change (Pos.compare_cont Eq) with Pos.compare.
  all: destruct (Z.compare_spec ea eb); destruct (Z.compare_spec eb ec);
       destruct (Z.compare_spec ea ec);
       try discriminate; try reflexivity; try lia; subst.
  all: destruct (Pos.compare_spec ma mb); destruct (Pos.compare_spec mb mc);
       destruct (Pos.compare_spec ma mc);
       simpl; try discriminate; try reflexivity; try lia.
Qed.

Lemma compare_refl (a : float) :
  Spec.is_nan a = false -> SFcompare a a = Some Eq.
Proof.
  destruct a as [s|s| |s m e]; simpl; try discriminate; intros _.
  - reflexivity.
  - now destruct s.
  - change (Pos.compare_cont Eq) with Pos.compare.
    rewrite Z.compare_refl, Pos.compare_refl. now destruct s.
Qed.

(** [clamp01] is the clamp to the unit interval: 0 below it, 1 above it,
    and the number itself (up to the sign of zero) within it. *)
Lemma clamp01_spec (x : float) :
  (ltb x zero = true -> clamp01 x = zero) /\
  (ltb one x = true -> clamp01 x = one) /\
  (in_unit x -> Float.eqb (clamp01 x) x = true).
Proof.
  unfold clamp01, py_max, py_min, gtb, in_unit, Float.eqb, SFeqb.
  split; [|split].
  - intros Hx.
    assert (Hx1 : ltb x one = true).
    { destruct (ltb x one) eqn:E; [reflexivity|].
      pose proof (ltb_leb _ _ Hx) as Hle.
      destruct (leb_not_nan _ _ Hle) as [Hn _].
      assert (H1 : leb one x = true) by (apply leb_total; auto).
      pose proof (leb_trans _ _ _ H1 Hle) as Habs. discriminate Habs. }
    rewrite Hx1.
    destruct (ltb zero x) eqn:E; [|reflexivity].
    pose proof (leb_trans _ _ _ (ltb_leb _ _ E) (ltb_leb _ _ Hx)) as Hle.
    unfold ltb, leb, SFltb, SFleb in *.
    destruct (SFcompare x zero) as [[ | | ]|] eqn:C1; try discriminate.
    rewrite (compare_antisym _ _ C1) in E. discriminate.
  - intros Hx.
    assert (Hx1 : ltb x one = false).
    { unfold ltb, SFltb in *.
      destruct (SFcompare one x) as [[ | | ]|] eqn:C1; try discriminate.
      now rewrite (compare_antisym _ _ C1). }
    rewrite Hx1. reflexivity.
  - intros [H0 H1].
    destruct (leb_not_nan _ _ H0) as [_ Hn].
    destruct (ltb x one) eqn:E1.
    + destruct (ltb zero x) eqn:E0.
      * now rewrite compare_refl.
      * unfold ltb, leb, SFltb, SFleb in *.
        destruct (SFcompare zero x) as [[ | | ]|]; congruence.
    + change (ltb zero one) with true. cbv iota.
      unfold ltb, leb, SFltb, SFleb in *.
      destruct (SFcompare x one) as [[ | | ]|] eqn:C1; try discriminate.
      now rewrite (compare_antisym _ _ C1).
Qed.

End FloatOrder.

(* ================================================================== *)
(** ** Properties of dictionaries *)

Section Dict.

Context {V : Type}.
Implicit Types (d : dict V) (k : string) (v : V).

Lemma dict_get_set_eq k v d : dict_get k (dict_set k v d) = Some v.
Proof.
  induction d as [|[k' v'] d IH]; simpl.
  - now rewrite String.eqb_refl.
  - destruct (String.eqb k k') eqn:E; simpl.
    + now rewrite String.eqb_refl.
    + now rewrite E.
Qed.

Lemma dict_get_set_neq k k' v d :
  k <> k' -> dict_get k' (dict_set k v d) = dict_get k' d.
Proof.
  intros Hne. induction d as [|[k0 v0] d IH]; simpl.
  - destruct (String.eqb k' k) eqn:E; [|reflexivity].
    apply String.eqb_eq in E. congruence.
  - destruct (String.eqb k k0) eqn:E; simpl.
    + apply String.eqb_eq in E. subst k0.
      destruct (String.eqb k' k) eqn:E'; [|reflexivity].
      apply String.eqb_eq in E'. congruence.
    + destruct (String.eqb k' k0); [reflexivity|exact IH].
Qed.

Lemma dict_set_keys k v v0 d :
  dict_get k d = Some v0 -> map fst (dict_set k v d) = map fst d.
Proof.
  induction d as [|[k' v'] d IH]; simpl; [discriminate|].
  destruct (String.eqb k k') eqn:E; simpl.
  - apply String.eqb_eq in E. now subst.
  - intros H. now rewrite IH.
Qed.

Lemma dict_get_In k v d : dict_get k d = Some v -> In (k, v) d.
Proof.
  induction d as [|[k' v'] d IH]; simpl; [discriminate|].
  destruct (String.eqb k k') eqn:E.
  - apply String.eqb_eq in E. intros [= ->]. subst. now left.
  - intros H. right. now apply IH.
Qed.

Lemma dict_In_get k v d : Spec.dict_wf d -> In (k, v) d -> dict_get k d = Some v.
Proof.
  unfold Spec.dict_wf.
  induction d as [|[k' v'] d IH]; simpl; [tauto|].
  intros Hnd [H|H].
  - inversion H; subst. now rewrite String.eqb_refl.
  - inversion Hnd as [|? ? Hnin Hnd']; subst.
    destruct (String.eqb k k') eqn:E.
    + apply String.eqb_eq in E. subst k'.
      exfalso. apply Hnin. change k with (fst (k, v)). now apply in_map.
    + now apply IH.
Qed.

Lemma dict_get_none_set k v d :
  dict_get k d = None -> dict_set k v d = (d ++ [(k, v)])%list.
Proof.
  induction d as [|[k' v'] d IH]; simpl; [reflexivity|].
  destruct (String.eqb k k'); [discriminate|].
  intros H. now rewrite IH.
Qed.

End Dict.

(* ================================================================== *)
(** ** Literal patterns and substring search *)

Section LiteralSearch.








End LiteralSearch.

(* ================================================================== *)
(** ** Feedback classification and application *)

Section Feedback.

Import ConfidenceTracker.



Lemma entities_of_set_entities d mem :
  entities_of (set_entities d mem) = d.
Proof. reflexivity. Qed.

Variables (now : stamp) (t : feedback_type) (text : string).

Local Abbreviation step := (update_step now t text).

Lemma update_step_other acc pid id :
  pid <> id ->
  dict_get id (entities_of (fst (step acc pid))) =
  dict_get id (entities_of (fst acc)).
Proof.
  intros Hne. destruct acc as [mem upd]. unfold step, update_step.
  destruct (dict_get pid (entities_of mem)); [|reflexivity].
  simpl fst. rewrite entities_of_set_entities.
  now apply dict_get_set_neq.
Qed.

Lemma update_step_hit acc id p :
  dict_get id (entities_of (fst acc)) = Some p ->
  dict_get id (entities_of (fst (step acc id))) =
  Some (update_entity now t text p).
Proof.
  destruct acc as [mem upd]. simpl fst. intros H.
  unfold step, update_step. rewrite H. simpl fst.
  rewrite entities_of_set_entities. apply dict_get_set_eq.
Qed.

Lemma update_step_absent acc id :
  dict_get id (entities_of (fst acc)) = None -> step acc id = acc.
Proof.
  destruct acc as [mem upd]. simpl fst. intros H.
  unfold step, update_step. now rewrite H.
Qed.

Lemma fold_update_other ids : forall acc id,
  ~ In id ids ->
  dict_get id (entities_of (fst (fold_left step ids acc))) =
  dict_get id (entities_of (fst acc)).
Proof.
  induction ids as [|pid ids IH]; intros acc id Hnin; [reflexivity|].
  simpl. rewrite IH by (intros H; apply Hnin; now right).
  apply update_step_other. intros ->. apply Hnin. now left.
Qed.

Lemma fold_update_hit ids : forall acc id p,
  NoDup ids -> In id ids ->
  dict_get id (entities_of (fst acc)) = Some p ->
  dict_get id (entities_of (fst (fold_left step ids acc))) =
  Some (update_entity now t text p).
Proof.
  induction ids as [|pid ids IH]; intros acc id p Hnd Hin Hget; [destruct Hin|].
  inversion Hnd as [|? ? Hnin Hnd']; subst. simpl.
  destruct (string_dec pid id) as [->|Hne].
  - rewrite fold_update_other by assumption.
    now apply update_step_hit.
  - destruct Hin as [->|Hin]; [congruence|].
    apply IH; try assumption.
    rewrite update_step_other by assumption. exact Hget.
Qed.

Lemma update_entity_confidence p :
  e_confidence (update_entity now t text p) =
  Some (clamp01 (add (get_or (dec 5 1) (e_confidence p)) (adjustments t))).
Proof. unfold update_entity. destruct (is_success t); reflexivity. Qed.

Lemma update_step_clamps acc id : Spec.clamped_at id (fst (step acc id)).
Proof.
  intros e He.
  destruct (dict_get id (entities_of (fst acc))) as [p|] eqn:Hp.
  - rewrite (update_step_hit _ _ Hp) in He. inversion He; subst.
    eexists. apply update_entity_confidence.
  - rewrite (update_step_absent _ _ Hp) in He. congruence.
Qed.

Lemma update_step_keeps_clamped acc pid id :
  Spec.clamped_at id (fst acc) -> Spec.clamped_at id (fst (step acc pid)).
Proof.
  intros H. destruct (string_dec pid id) as [->|Hne].
  - apply update_step_clamps.
  - intros e He. rewrite update_step_other in He by assumption. now apply H.
Qed.

Lemma fold_keeps_clamped ids : forall acc id,
  Spec.clamped_at id (fst acc) -> Spec.clamped_at id (fst (fold_left step ids acc)).
Proof.
  induction ids as [|pid ids IH]; intros acc id H; [exact H|].
  simpl. apply IH. now apply update_step_keeps_clamped.
Qed.

Lemma fold_clamps ids : forall acc id,
  In id ids -> Spec.clamped_at id (fst (fold_left step ids acc)).
Proof.
  induction ids as [|pid ids IH]; intros acc id Hin; [destruct Hin|].
  simpl. destruct (string_dec pid id) as [->|Hne].
  - apply fold_keeps_clamped, update_step_clamps.
  - destruct Hin as [->|Hin]; [congruence|]. now apply IH.
Qed.

End Feedback.

Section FeedbackClaims.

Import ConfidenceTracker.




(** The example of the specification: the literal feedback is a correction
    and takes exactly 0.25 off a confidence of 0.8. *)
Example correction_example :
  detect_feedback_type Samples.correction_text = Correction /\
  clamp01 (add (dec 8 1) (adjustments Correction)) = dec 55 2.
Proof. split; vm_compute; reflexivity. Qed.

Lemma apply_event_bounds (ev : Spec.event) (f : file memory)
    (id : string) (c : float) :
  Spec.touches ev id ->
  Spec.stored_confidence id (Spec.apply_event ev f) = Some c ->
  in_unit c.
Proof.
  destruct ev as [now ids text|now id' adjustment]; simpl Spec.touches.
  - intros Hin. unfold Spec.apply_event, update_pattern_confidence.
    destruct f as [|e|mem]; simpl; try discriminate.
    pose proof (@fold_clamps now (detect_feedback_type text) text ids
                  (mem, []) id Hin) as Hcl.
    destruct (fold_left _ ids (mem, [])) as [mem' updated].
    simpl in *. unfold Spec.clamped_at in Hcl.
    destruct (dict_get id (entities_of mem')) as [e|]; [|discriminate].
    destruct (Hcl e eq_refl) as [x Hx]. rewrite Hx. intros [= <-].
    apply clamp01_in_unit.
  - intros ->. unfold Spec.apply_event, MemoryLearn.update_pattern_confidence.
    destruct f as [|e|mem]; simpl.
    + discriminate.
    + destruct (MemoryLearn.recovered e); simpl; discriminate.
    + destruct (m_entities mem) as [entities|] eqn:Hents.
      2:{ unfold Spec.stored_confidence, entities_of. rewrite Hents.
          simpl. discriminate. }
      destruct (dict_get id entities) as [ent|] eqn:Hget.
      2:{ unfold Spec.stored_confidence, entities_of. rewrite Hents. simpl.
          rewrite Hget. discriminate. }
      unfold MemoryLearn.update_entity.
      destruct (e_confidence ent) as [c0|] eqn:Hc.
      2:{ unfold Spec.stored_confidence, entities_of. rewrite Hents. simpl.
          rewrite Hget, Hc. discriminate. }
      unfold Spec.stored_confidence. rewrite entities_of_set_entities.
      rewrite dict_get_set_eq.
      destruct (gtb adjustment zero); simpl; intros [= <-];
        apply clamp01_in_unit.
Qed.

(** An application leaves the patterns it does not name as they were. *)
Lemma apply_event_other (ev : Spec.event) (f : file memory) (id : string) :
  ~ Spec.touches ev id ->
  Spec.stored_confidence id (Spec.apply_event ev f) =
  Spec.stored_confidence id f.
Proof.
  destruct ev as [now ids text|now id' adjustment]; simpl Spec.touches;
    intros Hnot.
  - unfold Spec.apply_event, update_pattern_confidence.
    destruct f as [|e|mem]; try reflexivity.
    pose proof (@fold_update_other now (detect_feedback_type text) text ids
                  (mem, []) id Hnot) as Hsame.
    destruct (fold_left _ ids (mem, [])) as [mem' updated].
    simpl in *. now rewrite Hsame.
  - unfold Spec.apply_event, MemoryLearn.update_pattern_confidence.
    destruct (MemoryLearn.load_memory now f) as [mem|e] eqn:Hload;
      [|reflexivity].
    destruct (m_entities mem) as [entities|] eqn:Hents; [|reflexivity].
    destruct (dict_get id' entities) as [ent|] eqn:Hget; [|reflexivity].
    destruct (MemoryLearn.update_entity now adjustment ent) as [ent'|e];
      [|reflexivity].
    destruct f as [|e|mem0]; simpl in Hload.
    + inversion Hload; subst mem. simpl in Hents. inversion Hents; subst.
      discriminate Hget.
    + destruct (MemoryLearn.recovered e); inversion Hload; subst mem.
      simpl in Hents. inversion Hents; subst. discriminate Hget.
    + inversion Hload; subst mem0. unfold Spec.stored_confidence.
      rewrite entities_of_set_entities.
      rewrite dict_get_set_neq by assumption.
      unfold entities_of. now rewrite Hents.
Qed.

(** A store whose confidences all lie in [0, 1] stays so along any
    sequence of applications. *)
Lemma run_keeps_bounds (events : list Spec.event) : forall (f : file memory),
  (forall id c, Spec.stored_confidence id f = Some c -> in_unit c) ->
  forall id c, Spec.stored_confidence id (Spec.run events f) = Some c ->
               in_unit c.
Proof.
  induction events as [|ev events IH]; intros f Hf; [exact Hf|].
  apply IH. intros id c Hc.
  destruct ev as [now ids text|now id' adjustment].
  - destruct (in_dec string_dec id ids) as [Hin|Hnin].
    + now apply (@apply_event_bounds (Spec.Feedback now ids text) f id c).
    + rewrite apply_event_other in Hc by exact Hnin. now apply (Hf id).
  - destruct (string_dec id' id) as [Heq|Hne].
    + now apply (@apply_event_bounds (Spec.Adjust now id' adjustment) f id c).
    + rewrite apply_event_other in Hc by exact Hne. now apply (Hf id).
Qed.

Lemma run_snoc (events : list Spec.event) (ev : Spec.event) (f : file memory) :
  Spec.run (events ++ [ev]) f = Spec.apply_event ev (Spec.run events f).
Proof. unfold Spec.run. now rewrite fold_left_app. Qed.

Lemma firstn_S_nth {A} (l : list A) : forall n x,
  nth_error l n = Some x -> firstn (S n) l = (firstn n l ++ [x])%list.
Proof.
  induction l as [|a l IH]; intros [|n] x H; simpl in *; try discriminate.
  - now inversion H.
  - now rewrite (IH n x H).
Qed.

(** C3. Along any sequence of feedback applications, through the tracker
    or through the numeric adjustment of [memory_learn], of any types in
    any order, the confidence of a pattern lies in [0, 1] right after each
    application that names it. *)
Theorem confidence_bounds
    (f0 : file memory) (events : list Spec.event) (n : nat)
    (ev : Spec.event) (id : string) (c : float) :
  nth_error events n = Some ev ->
  Spec.touches ev id ->
  Spec.stored_confidence id (Spec.run (firstn (S n) events) f0) = Some c ->
  in_unit c.
Proof.
  intros Hnth Htouch. rewrite (firstn_S_nth _ _ Hnth), run_snoc.
  now apply apply_event_bounds.
Qed.

Lemma confidence_bounds_witness :
  nth_error Samples.five_corrections 4 =
    Some (Spec.Feedback Samples.t0 ["p1"] Samples.correction_text) /\
  Spec.touches (Spec.Feedback Samples.t0 ["p1"] Samples.correction_text) "p1" /\
  Spec.stored_confidence "p1"
    (Spec.run (firstn 5 Samples.five_corrections)
       (Holds (Samples.store_of [("p1", Samples.fresh_pattern)]))) = Some zero /\
  in_unit zero.
Proof.
  assert (H1 : nth_error Samples.five_corrections 4 =
    Some (Spec.Feedback Samples.t0 ["p1"] Samples.correction_text))
    by reflexivity.
  assert (H2 : Spec.touches
    (Spec.Feedback Samples.t0 ["p1"] Samples.correction_text) "p1")
    by (simpl; tauto).
  assert (H3 : Spec.stored_confidence "p1"
    (Spec.run (firstn 5 Samples.five_corrections)
       (Holds (Samples.store_of [("p1", Samples.fresh_pattern)]))) = Some zero)
    by (vm_compute; reflexivity).
  split; [exact H1|]. split; [exact H2|]. split; [exact H3|].
  exact (@confidence_bounds
           (Holds (Samples.store_of [("p1", Samples.fresh_pattern)]))
           Samples.five_corrections 4
           (Spec.Feedback Samples.t0 ["p1"] Samples.correction_text)
           "p1" zero H1 H2 H3).
Defined.

End FeedbackClaims.

(* ================================================================== *)
(** ** Sorting *)

Section SortDesc.

Context {A : Type} (key : A -> float).

Lemma insert_desc_In x y l :
  In y (insert_desc key x l) <-> y = x \/ In y l.
Proof.
  induction l as [|z l IH]; simpl.
  - intuition.
  - destruct (ltb (key x) (key z)); simpl; rewrite ?IH; intuition.
Qed.

Lemma sort_desc_In y l : In y (sort_desc key l) <-> In y l.
Proof.
  induction l as [|x l IH]; simpl; [tauto|].
  rewrite insert_desc_In, IH. intuition.
Qed.

Lemma sort_desc_length l : List.length (sort_desc key l) = List.length l.
Proof.
  induction l as [|x l IH]; simpl; [reflexivity|].
  rewrite <- IH. generalize (sort_desc key l) as s.
  induction s as [|z s IHs]; simpl; [reflexivity|].
  destruct (ltb (key x) (key z)); simpl; congruence.
Qed.

Local Abbreviation ge := (fun a b : A => geb (key a) (key b) = true).
Local Abbreviation ok := (fun a : A => Spec.is_nan (key a) = false).

Lemma insert_desc_sorted x l :
  ok x -> Forall ok l -> StronglySorted ge l ->
  StronglySorted ge (insert_desc key x l).
Proof.
  intros Hx Hl Hs. induction Hs as [|z l Hs IH Hz]; simpl.
  - constructor; constructor.
  - inversion Hl as [|? ? Hokz Hl']; subst.
    destruct (ltb (key x) (key z)) eqn:E.
    + constructor; [now apply IH|].
      apply Forall_forall. intros y Hy. apply insert_desc_In in Hy.
      destruct Hy as [->|Hy].
      * unfold geb. now apply ltb_leb.
      * rewrite Forall_forall in Hz. now apply Hz.
    + assert (Hxz : geb (key x) (key z) = true)
        by (unfold geb; now apply leb_total).
      constructor; [now constructor|].
      constructor; [exact Hxz|].
      apply Forall_forall. intros y Hy. rewrite Forall_forall in Hz.
      unfold geb in *. eapply leb_trans; [apply Hz, Hy|exact Hxz].
Qed.

(** Where no key is NaN the result is in descending order. *)
Lemma sort_desc_sorted l :
  Forall ok l -> StronglySorted ge (sort_desc key l).
Proof.
  induction l as [|x l IH]; simpl; intros H; [constructor|].
  inversion H as [|? ? Hx Hl]; subst.
  apply insert_desc_sorted; [exact Hx| |now apply IH].
  apply Forall_forall. intros y Hy. rewrite sort_desc_In in Hy.
  rewrite Forall_forall in Hl. now apply Hl.
Qed.

End SortDesc.

(* ================================================================== *)
(** ** Promotion *)

Section PromotionFacts.

Import ClaudeMdUpdater Promotion.


Lemma promotable_of_inj id id' e e' :
  promotable_of id e = promotable_of id' e' -> id = id' /\ e = e'.
Proof.
  intros H. split.
  - exact (f_equal p_id H).
  - exact (f_equal p_pattern H).
Qed.

Lemma get_promotable_In (mem : memory) (id : string) (e : entity) :
  is_promotable (Holds mem) id e <->
  In (id, e) (entities_of mem) /\ meets_criteria e = true.
Proof.
  unfold is_promotable, get_promotable_patterns.
  rewrite sort_desc_In, in_map_iff. split.
  - intros [[id' e'] [Heq Hin]]. apply filter_In in Hin. simpl in *.
    apply promotable_of_inj in Heq. destruct Heq; subst. exact Hin.
  - intros [Hin Hm]. exists (id, e). split; [reflexivity|].
    apply filter_In. now split.
Qed.

Lemma get_promotable_from (mem : memory) (pd : promotable) :
  In pd (get_promotable_patterns (Holds mem)) ->
  exists id e, pd = promotable_of id e /\ In (id, e) (entities_of mem) /\
               meets_criteria e = true.
Proof.
  unfold get_promotable_patterns. rewrite sort_desc_In, in_map_iff.
  intros [[id e] [Heq Hin]]. apply filter_In in Hin. simpl in *.
  exists id, e. now split.
Qed.






End PromotionFacts.

(* ================================================================== *)
(** ** Backup, rollback and repeated promotion *)

Section Strings.

Lemma append_assoc (a b c : string) : (a ++ b) ++ c = a ++ (b ++ c).
Proof. induction a as [|x a IH]; simpl; congruence. Qed.

Lemma append_empty_r (a : string) : a ++ "" = a.
Proof. induction a as [|x a IH]; simpl; congruence. Qed.

Lemma occurs_in_middle (before x after : string) :
  Promotion.occurs_in x (before ++ x ++ after).
Proof. now exists before, after. Qed.

Lemma occurs_in_append (x doc before after : string) :
  Promotion.occurs_in x doc -> Promotion.occurs_in x (before ++ doc ++ after).
Proof.
  intros (b & a & ->). exists (before ++ b), (a ++ after).
  now rewrite !append_assoc.
Qed.

Lemma occurs_in_prefix (x doc before : string) :
  Promotion.occurs_in x doc -> Promotion.occurs_in x (before ++ doc).
Proof.
  intros (b & a & ->). exists (before ++ b), a. now rewrite !append_assoc.
Qed.

Lemma occurs_in_suffix (x doc after : string) :
  Promotion.occurs_in x doc -> Promotion.occurs_in x (doc ++ after).
Proof.
  intros (b & a & ->). exists b, (a ++ after). now rewrite !append_assoc.
Qed.

Lemma occurs_in_join (sep x : string) (l : list string) :
  In x l -> Promotion.occurs_in x (join sep l).
Proof.
  unfold join. induction l as [|y l IH]; [intros []|].
  intros [->|Hin].
  - destruct l as [|z l].
    + exists "", "". simpl. now rewrite append_empty_r.
    + exists "", (sep ++ String.concat sep (z :: l)). reflexivity.
  - destruct l as [|z l]; [destruct Hin|].
    change (String.concat sep (y :: z :: l))
      with (y ++ sep ++ String.concat sep (z :: l)).
    destruct (IH Hin) as (b & a & ->).
    exists (y ++ sep ++ b), a. now rewrite !append_assoc.
Qed.

End Strings.

Section Promote.

Import ClaudeMdUpdater Promotion.

Variable format_2f : float -> string.
Variable str_list : list string -> string.

Local Abbreviation promote := (update_claude_md format_2f str_list false).

(** What a non-dry-run promotion does when there is something to promote
    and a rules document to put it in. *)
Lemma rule_in_section (now : stamp) (rules : list string) (r : string) :
  In r rules -> occurs_in r (learned_section now rules).
Proof.
  intros Hin. unfold learned_section.
  do 7 apply occurs_in_prefix. apply occurs_in_suffix.
  now apply occurs_in_join.
Qed.

Lemma promote_success (now : stamp) (s : fs) (doc : string) :
  get_promotable_patterns (MEMORY_FILE s) <> [] ->
  CLAUDE_MD s = Some doc ->
  exists new_content,
    promote now s =
      (Success (Some (backup_name now))
               (List.length (get_promotable_patterns (MEMORY_FILE s))),
       {| MEMORY_FILE :=
            _mark_patterns_promoted now
              (get_promotable_patterns (MEMORY_FILE s)) (MEMORY_FILE s);
          CLAUDE_MD := Some new_content;
          BACKUP_DIR := dict_set (backup_name now) doc (BACKUP_DIR s) |}) /\
    forall pd, In pd (get_promotable_patterns (MEMORY_FILE s)) ->
               occurs_in (rule_line format_2f str_list pd) new_content.
Proof.
  intros Hne Hdoc. unfold update_claude_md.
  destruct (get_promotable_patterns (MEMORY_FILE s)) as [|pd0 pds] eqn:Hp;
    [congruence|].
  rewrite Hdoc. unfold create_backup. rewrite Hdoc.
  destruct (find_insertion_point doc) as [[a b] section].
  exists (take a doc ++
          learned_section now (map (rule_line format_2f str_list) (pd0 :: pds))
          ++ drop b doc).
  split.
  - cbv beta iota zeta. rewrite length_map. reflexivity.
  - intros pd Hin. apply occurs_in_append, rule_in_section.
    now apply in_map.
Qed.

(** C8. After a non-dry-run promotion, rolling back to the backup that
    promotion took restores the rules document to its content before the
    promotion, character for character. *)
Theorem rollback_restores
    (now : stamp) (s s' : fs) (backup_path : option string)
    (rules_added : nat) :
  promote now s = (Success backup_path rules_added, s') ->
  exists path original,
    backup_path = Some path /\
    CLAUDE_MD s = Some original /\
    dict_get path (BACKUP_DIR s') = Some original /\
    rollback_to_backup path s' =
      (RolledBack,
       {| MEMORY_FILE := MEMORY_FILE s'; CLAUDE_MD := CLAUDE_MD s;
          BACKUP_DIR := BACKUP_DIR s' |}).
Proof.
  unfold update_claude_md.
  destruct (get_promotable_patterns (MEMORY_FILE s)) as [|pd0 pds];
    [discriminate|].
  destruct (CLAUDE_MD s) as [original|] eqn:Hdoc; [|discriminate].
  unfold create_backup. rewrite Hdoc.
  destruct (find_insertion_point original) as [[a b] section].
  intros [= <- _ <-]. exists (backup_name now), original.
  unfold rollback_to_backup. simpl BACKUP_DIR.
  rewrite dict_get_set_eq. repeat split; reflexivity.
Qed.

End Promote.

Section PromoteAgain.

Import ClaudeMdUpdater Promotion.

Variable format_2f : float -> string.
Variable str_list : list string -> string.

Lemma rollback_restores_witness :
  update_claude_md PromotionSamples.fmt PromotionSamples.strl false
    Samples.t0 PromotionSamples.ready =
    (Success (Some "CLAUDE_md_backup_20250101_120000.md") 1,
     PromotionSamples.promoted) /\
  exists path original,
    Some "CLAUDE_md_backup_20250101_120000.md" = Some path /\
    CLAUDE_MD PromotionSamples.ready = Some original /\
    dict_get path (BACKUP_DIR PromotionSamples.promoted) = Some original /\
    rollback_to_backup path PromotionSamples.promoted =
      (RolledBack,
       {| MEMORY_FILE := MEMORY_FILE PromotionSamples.promoted;
          CLAUDE_MD := CLAUDE_MD PromotionSamples.ready;
          BACKUP_DIR := BACKUP_DIR PromotionSamples.promoted |}).
Proof.
  assert (H : update_claude_md PromotionSamples.fmt PromotionSamples.strl false
    Samples.t0 PromotionSamples.ready =
    (Success (Some "CLAUDE_md_backup_20250101_120000.md") 1,
     PromotionSamples.promoted)) by (vm_compute; reflexivity).
  split; [exact H|].
  exact (@rollback_restores PromotionSamples.fmt PromotionSamples.strl
           Samples.t0 PromotionSamples.ready PromotionSamples.promoted
           (Some "CLAUDE_md_backup_20250101_120000.md") 1%nat H).
Defined.

(** The promotion check reads none of the three promotion fields. *)
Lemma meets_criteria_set_promotion (date : string) (c : float) (e : entity) :
  meets_criteria (set_promotion date c e) = meets_criteria e.
Proof. reflexivity. Qed.

Lemma set_promotion_again (date : string) (c : float) (e : entity) :
  set_promotion date c (set_promotion date c e) = set_promotion date c e.
Proof. reflexivity. Qed.

Lemma mark_one_other now mem pd id :
  p_id pd <> id ->
  dict_get id (entities_of (mark_one now mem pd)) =
  dict_get id (entities_of mem).
Proof.
  intros Hne. unfold mark_one.
  destruct (dict_get (p_id pd) (entities_of mem)); [|reflexivity].
  rewrite entities_of_set_entities. now apply dict_get_set_neq.
Qed.

Lemma mark_one_hit now mem pd x :
  dict_get (p_id pd) (entities_of mem) = Some x ->
  dict_get (p_id pd) (entities_of (mark_one now mem pd)) =
  Some (set_promotion (iso now) (p_confidence pd) x).
Proof.
  intros H. unfold mark_one. rewrite H.
  rewrite entities_of_set_entities. apply dict_get_set_eq.
Qed.

Lemma mark_one_keys now mem pd :
  map fst (entities_of (mark_one now mem pd)) = map fst (entities_of mem).
Proof.
  unfold mark_one.
  destruct (dict_get (p_id pd) (entities_of mem)) eqn:H; [|reflexivity].
  rewrite entities_of_set_entities. eapply dict_set_keys, H.
Qed.

Lemma fold_mark_keys now pds : forall mem,
  map fst (entities_of (fold_left (mark_one now) pds mem)) =
  map fst (entities_of mem).
Proof.
  induction pds as [|pd pds IH]; intros mem; [reflexivity|].
  simpl. rewrite IH. apply mark_one_keys.
Qed.

Lemma fold_mark_stays now pds id c x : forall mem,
  (forall pd, In pd pds -> p_id pd = id -> p_confidence pd = c) ->
  dict_get id (entities_of mem) = Some (set_promotion (iso now) c x) ->
  dict_get id (entities_of (fold_left (mark_one now) pds mem)) =
  Some (set_promotion (iso now) c x).
Proof.
  induction pds as [|pd pds IH]; intros mem Hc Hget; [exact Hget|].
  simpl. apply IH; [intros; apply Hc; [now right|assumption]|].
  destruct (string_dec (p_id pd) id) as [Heq|Hne].
  - rewrite <- Heq in *. rewrite (mark_one_hit _ _ _ Hget).
    rewrite (Hc pd (or_introl eq_refl) eq_refl). apply f_equal.
    apply set_promotion_again.
  - now rewrite mark_one_other.
Qed.

Lemma fold_mark_hit now pds id c x : forall mem,
  (forall pd, In pd pds -> p_id pd = id -> p_confidence pd = c) ->
  In id (map p_id pds) ->
  dict_get id (entities_of mem) = Some x ->
  dict_get id (entities_of (fold_left (mark_one now) pds mem)) =
  Some (set_promotion (iso now) c x).
Proof.
  induction pds as [|pd pds IH]; intros mem Hc Hin Hget; [destruct Hin|].
  simpl. destruct (string_dec (p_id pd) id) as [Heq|Hne].
  - apply fold_mark_stays; [intros; apply Hc; [now right|assumption]|].
    rewrite <- Heq in *. rewrite (mark_one_hit _ _ _ Hget).
    now rewrite (Hc pd (or_introl eq_refl) eq_refl).
  - destruct Hin as [Hin|Hin]; [congruence|].
    apply IH; [intros; apply Hc; [now right|assumption]|exact Hin|].
    now rewrite mark_one_other.
Qed.

Local Abbreviation promote := (update_claude_md format_2f str_list false).

(** One promotion run over a store in which [id] already passes. *)
Lemma promote_step (id : string) (s : fs) (e : entity) (now : stamp) :
  standing id s e ->
  is_promotable (MEMORY_FILE s) id e /\
  exists backup_path rules_added s',
    promote now s = (Success backup_path rules_added, s') /\
    (exists doc', CLAUDE_MD s' = Some doc' /\
       occurs_in (rule_line format_2f str_list (promotable_of id e)) doc') /\
    stored_entity id (MEMORY_FILE s') =
      Some (set_promotion (iso now) (get_or zero (e_confidence e)) e) /\
    standing id s'
      (set_promotion (iso now) (get_or zero (e_confidence e)) e).
Proof.
  intros (mem & doc & Hmem & Hwf & Hdoc & Hget & Hm).
  assert (Hprom : is_promotable (MEMORY_FILE s) id e).
  { rewrite Hmem. apply get_promotable_In. split; [|exact Hm].
    now apply dict_get_In. }
  split; [exact Hprom|].
  assert (Hne : get_promotable_patterns (MEMORY_FILE s) <> []).
  { intros Hnil. unfold is_promotable in Hprom. rewrite Hnil in Hprom.
    destruct Hprom. }
  destruct (@promote_success format_2f str_list now s doc Hne Hdoc)
    as (new_content & Hrun & Hocc).
  assert (Hmark :
    dict_get id
      (entities_of (fold_left (mark_one now)
                      (get_promotable_patterns (Holds mem)) mem)) =
    Some (set_promotion (iso now) (get_or zero (e_confidence e)) e)).
  { apply fold_mark_hit; [| |exact Hget].
    - intros pd Hpd Hid.
      destruct (get_promotable_from _ _ Hpd) as (i & x & -> & Hix & _).
      simpl in Hid. subst i.
      rewrite (dict_In_get _ _ Hwf Hix) in Hget. now inversion Hget.
    - rewrite Hmem in Hprom. unfold is_promotable in Hprom.
      change id with (p_id (promotable_of id e)). now apply in_map. }
  do 3 eexists. split; [exact Hrun|].
  split; [exists new_content; split; [reflexivity|now apply Hocc]|].
  simpl MEMORY_FILE. rewrite Hmem. simpl _mark_patterns_promoted.
  split; [exact Hmark|].
  eexists _, new_content. split; [reflexivity|].
  split; [|split; [reflexivity|split; [exact Hmark|exact Hm]]].
  unfold Spec.dict_wf. now rewrite fold_mark_keys.
Qed.

Lemma promote_runs_standing (id : string) (earlier : list stamp) :
  forall (s : fs) (e : entity),
    standing id s e ->
    exists e_k,
      standing id (promote_runs format_2f str_list earlier s) e_k /\
      (earlier <> [] \/ e_promoted_to_claude_md e = Some true ->
       e_promoted_to_claude_md e_k = Some true).
Proof.
  induction earlier as [|now rest IH]; intros s e Hst.
  - exists e. split; [exact Hst|]. intros [H|H]; [congruence|exact H].
  - destruct (@promote_step id s e now Hst)
      as (_ & bp & n & s' & Hrun & _ & _ & Hst').
    destruct (IH s' _ Hst') as (e_k & Hk & Hflag).
    exists e_k. split.
    + simpl. now rewrite Hrun.
    + intros _. apply Hflag. now right.
Qed.

(** C10. A pattern that passes the promotion check passes it again after
    any number of promotions, whatever its promoted flag: the next
    promotion run lists it again, writes its rule into the rules document
    again and marks it as promoted again. *)
Theorem promoted_patterns_return
    (earlier : list stamp) (now : stamp) (s : fs) (mem : memory)
    (doc : string) (id : string) (e : entity) :
  MEMORY_FILE s = Holds mem ->
  Spec.dict_wf (entities_of mem) ->
  CLAUDE_MD s = Some doc ->
  In (id, e) (entities_of mem) ->
  meets_criteria e = true ->
  (forall date c x, meets_criteria (set_promotion date c x) = meets_criteria x) /\
  exists e_k,
    stored_entity id (MEMORY_FILE (promote_runs format_2f str_list earlier s))
      = Some e_k /\
    (earlier <> [] -> e_promoted_to_claude_md e_k = Some true) /\
    is_promotable (MEMORY_FILE (promote_runs format_2f str_list earlier s))
                  id e_k /\
    exists backup_path rules_added s',
      promote now (promote_runs format_2f str_list earlier s) =
        (Success backup_path rules_added, s') /\
      (exists doc', CLAUDE_MD s' = Some doc' /\
         occurs_in (rule_line format_2f str_list (promotable_of id e_k)) doc') /\
      stored_entity id (MEMORY_FILE s') =
        Some (set_promotion (iso now) (get_or zero (e_confidence e_k)) e_k).
Proof.
  intros Hmem Hwf Hdoc Hin Hm.
  split; [intros; apply meets_criteria_set_promotion|].
  assert (Hst : standing id s e).
  { exists mem, doc. repeat split; try assumption. now apply dict_In_get. }
  destruct (@promote_runs_standing id earlier s e Hst) as (e_k & Hk & Hflag).
  exists e_k.
  destruct (@promote_step id _ e_k now Hk)
    as (Hprom & bp & n & s' & Hrun & Hocc & Hstored & _).
  destruct Hk as (mem_k & doc_k & Hmem_k & _ & _ & Hget_k & _).
  split; [rewrite Hmem_k; exact Hget_k|].
  split; [intros Hne; apply Hflag; now left|].
  split; [exact Hprom|].
  exists bp, n, s'. auto.
Qed.

End PromoteAgain.

Section PromoteAgainSample.

Import ClaudeMdUpdater Promotion PromotionSamples.

Lemma promoted_patterns_return_witness :
  MEMORY_FILE ready =
    Holds (Samples.store_of [("p1", Samples.synthetic (dec 95 2) 6 5)]) /\
  Spec.dict_wf
    (entities_of (Samples.store_of [("p1", Samples.synthetic (dec 95 2) 6 5)])) /\
  CLAUDE_MD ready = Some rules_document /\
  In ("p1", Samples.synthetic (dec 95 2) 6 5)
     (entities_of (Samples.store_of [("p1", Samples.synthetic (dec 95 2) 6 5)])) /\
  meets_criteria (Samples.synthetic (dec 95 2) 6 5) = true /\
  exists e_k,
    stored_entity "p1" (MEMORY_FILE (promote_runs fmt strl [Samples.t0] ready))
      = Some e_k /\
    e_promoted_to_claude_md e_k = Some true /\
    is_promotable (MEMORY_FILE (promote_runs fmt strl [Samples.t0] ready))
                  "p1" e_k /\
    exists backup_path rules_added s',
      update_claude_md fmt strl false Samples.t1
        (promote_runs fmt strl [Samples.t0] ready) =
        (Success backup_path rules_added, s') /\
      (exists doc', CLAUDE_MD s' = Some doc' /\
         occurs_in (rule_line fmt strl (promotable_of "p1" e_k)) doc') /\
      stored_entity "p1" (MEMORY_FILE s') =
        Some (set_promotion (iso Samples.t1)
                (get_or zero (e_confidence e_k)) e_k).
Proof.
  assert (H1 : MEMORY_FILE ready =
    Holds (Samples.store_of [("p1", Samples.synthetic (dec 95 2) 6 5)]))
    by reflexivity.
  assert (H2 : Spec.dict_wf
    (entities_of (Samples.store_of [("p1", Samples.synthetic (dec 95 2) 6 5)])))
    by (constructor; [simpl; tauto|constructor]).
  assert (H3 : CLAUDE_MD ready = Some rules_document) by reflexivity.
  assert (H4 : In ("p1", Samples.synthetic (dec 95 2) 6 5)
     (entities_of (Samples.store_of [("p1", Samples.synthetic (dec 95 2) 6 5)])))
    by (simpl; tauto).
  assert (H5 : meets_criteria (Samples.synthetic (dec 95 2) 6 5) = true)
    by (vm_compute; reflexivity).
  split; [exact H1|]. split; [exact H2|]. split; [exact H3|].
  split; [exact H4|]. split; [exact H5|].
  destruct (@promoted_patterns_return fmt strl [Samples.t0] Samples.t1 ready
              _ _ "p1" _ H1 H2 H3 H4 H5)
    as (_ & e_k & Hk & Hflag & Hprom & Hnext).
  exists e_k. split; [exact Hk|].
  split; [apply Hflag; discriminate|]. split; [exact Hprom|exact Hnext].
Defined.

End PromoteAgainSample.

(* ================================================================== *)
(** ** Learning from text *)

Section Whitespace.

Import Learning.

Lemma lower_space (x : ascii) : is_space x = true -> lower_ascii x = x.
Proof.
  destruct x as [[] [] [] [] [] [] [] []]; vm_compute; congruence.
Qed.

Lemma all_space_lower (s : string) : all_space s = true -> lower s = s.
Proof.
  induction s as [|x s IH]; simpl; [reflexivity|].
  rewrite andb_true_iff. intros [Hx Hs]. now rewrite lower_space, IH.
Qed.













Lemma lstrip_blank (s : string) : all_space s = true -> lstrip s = "".
Proof.
  induction s as [|x s IH]; simpl; [reflexivity|].
  rewrite andb_true_iff. intros [Hx Hs]. rewrite Hx. now apply IH.
Qed.

(** The detector and its pipeline, by contrast, find nothing in a blank
    message and leave their own file untouched. *)
Lemma pipeline_ignores_blank (now : stamp) (message : string)
    (conversation_context : option (dict string))
    (memory_file : file AutoCorrectionPipeline.data) :
  all_space message = true ->
  CorrectionDetector.detect_corrections now message = [] /\
  snd (AutoCorrectionPipeline.process_user_message now message
         conversation_context memory_file) =
    memory_file.
Proof.
  intros Hs.
  assert (H : CorrectionDetector.detect_corrections now message = []).
  { unfold CorrectionDetector.detect_corrections, strip.
    rewrite (all_space_lower _ Hs), (lstrip_blank _ Hs). reflexivity. }
  split; [exact H|].
  unfold AutoCorrectionPipeline.process_user_message. now rewrite H.
Qed.

End Whitespace.

Section SameSecond.

Import Learning EnhancedLearn.

Lemma dict_get_in_keys {V} (k : string) (d : dict V) :
  In k (map fst d) -> exists v, dict_get k d = Some v.
Proof.
  induction d as [|[k' v'] d IH]; simpl; [tauto|].
  destruct (String.eqb k k') eqn:E; [eauto|].
  intros [H|H]; [|now apply IH].
  subst k'. rewrite String.eqb_refl in E. discriminate.
Qed.

Lemma dict_set_keys_in {V} (k : string) (v : V) (d : dict V) :
  In k (map fst d) -> map fst (dict_set k v d) = map fst d.
Proof.
  intros H. destruct (dict_get_in_keys _ _ H) as [v0 Hv].
  eapply dict_set_keys, Hv.
Qed.

Lemma dict_set_has_key {V} (k : string) (v : V) (d : dict V) :
  In k (map fst (dict_set k v d)).
Proof.
  pose proof (dict_get_In _ _ (dict_get_set_eq k v d)) as H.
  change k with (fst (k, v)). now apply in_map.
Qed.

Lemma dict_set_keeps_keys {V} (k k' : string) (v : V) (d : dict V) :
  In k' (map fst d) -> In k' (map fst (dict_set k v d)).
Proof.
  induction d as [|[k0 v0] d IH]; simpl; [tauto|].
  destruct (String.eqb k k0) eqn:E; simpl.
  - apply String.eqb_eq in E. subst. tauto.
  - intros [H|H]; [now left|right; now apply IH].
Qed.

Lemma store_corrections_keeps now ctx cs : forall i mem k,
  In k (map fst (entities_of mem)) ->
  In k (map fst (entities_of (store_corrections now ctx i cs mem))).
Proof.
  induction cs as [|c cs IH]; intros i mem k Hk; [exact Hk|].
  simpl. apply IH. simpl. now apply dict_set_keeps_keys.
Qed.

Lemma store_corrections_has now ctx cs : forall i mem j,
  (i <= j < i + List.length cs)%nat ->
  In (correction_id now j)
     (map fst (entities_of (store_corrections now ctx i cs mem))).
Proof.
  induction cs as [|c cs IH]; intros i mem j Hj; simpl in Hj; [lia|].
  simpl. destruct (Nat.eq_dec i j) as [->|Hne].
  - apply store_corrections_keeps. simpl. apply dict_set_has_key.
  - apply IH. lia.
Qed.

Lemma store_corrections_same_keys now ctx cs : forall i mem,
  (forall j, (i <= j < i + List.length cs)%nat ->
             In (correction_id now j) (map fst (entities_of mem))) ->
  map fst (entities_of (store_corrections now ctx i cs mem)) =
  map fst (entities_of mem).
Proof.
  induction cs as [|c cs IH]; intros i mem H; [reflexivity|].
  simpl. rewrite IH.
  - simpl. apply dict_set_keys_in. apply (H i). simpl. lia.
  - intros j Hj. simpl. apply dict_set_keeps_keys. apply H. simpl. lia.
Qed.

Lemma load_after_learn (mem : memory) (entities : dict entity) (n : Z) :
  m_entities mem = Some entities -> m_stats mem = Some n ->
  load_existing_memory (Holds mem) = mem.
Proof.
  intros He Hs. unfold load_existing_memory. now rewrite He, Hs.
Qed.

Lemma load_has_stats (f : file memory) :
  exists n, m_stats (load_existing_memory f) = Some n.
Proof.
  unfold load_existing_memory.
  destruct f as [|e|mem]; simpl; [now exists 0%Z|now exists 0%Z|].
  destruct (m_entities mem) eqn:He; simpl; [|now exists 0%Z].
  destruct (m_stats mem) eqn:Hs; simpl; [|now exists 0%Z].
  exists z. exact Hs.
Qed.

Lemma store_corrections_shape now ctx cs : forall i mem,
  cs <> [] ->
  exists entities n,
    m_entities (store_corrections now ctx i cs mem) = Some entities /\
    m_stats (store_corrections now ctx i cs mem) = Some n.
Proof.
  induction cs as [|c cs IH]; intros i mem Hne; [congruence|].
  destruct cs as [|c' cs'].
  - simpl. do 2 eexists. split; reflexivity.
  - change (store_corrections now ctx i (c :: c' :: cs') mem)
      with (store_corrections now ctx (S i) (c' :: cs')
              (set_stats (get_or 0%Z
                 (m_stats (set_entities
                    (dict_set (correction_id now i)
                       (correction_entity now (correction_id now i) ctx c)
                       (entities_of mem)) mem)) + 1)
                 (set_entities
                    (dict_set (correction_id now i)
                       (correction_entity now (correction_id now i) ctx c)
                       (entities_of mem)) mem))).
    apply IH. discriminate.
Qed.

Lemma learn_observation now text f :
  find_corrections text = [] ->
  snd (enhanced_learn now text f) =
  Holds (set_entities
           (dict_set (observation_id now)
              (observation_entity now (observation_id now)
                 (detect_contexts text) text)
              (entities_of (load_existing_memory f)))
           (load_existing_memory f)).
Proof. intros H. unfold enhanced_learn. now rewrite H. Qed.

Lemma learn_corrections now text f c cs :
  find_corrections text = c :: cs ->
  snd (enhanced_learn now text f) =
  Holds (store_corrections now (detect_contexts text) 0 (c :: cs)
           (load_existing_memory f)).
Proof. intros H. unfold enhanced_learn. now rewrite H. Qed.

(** C5, first half, on [enhanced_learn.py].  The id of a record carries
    the clock to the second and the index within the call, nothing more:
    learning the same text again within the same second writes over the
    records of the first call, and no record is added. *)
Theorem same_second_learns_collide
    (now now' : stamp) (text : string) (f : file memory) :
  compact now = compact now' ->
  keys (snd (enhanced_learn now' text (snd (enhanced_learn now text f)))) =
  keys (snd (enhanced_learn now text f)).
Proof.
  intros Hsec.
  destruct (find_corrections text) as [|c cs] eqn:Hcs.
  - rewrite (@learn_observation now' text _ Hcs), (@learn_observation now text f Hcs).
    destruct (load_has_stats f) as [n Hn].
    erewrite load_after_learn; [|reflexivity|simpl; exact Hn].
    unfold keys. rewrite !entities_of_set_entities.
    unfold observation_id. rewrite <- Hsec.
    apply dict_set_keys_in, dict_set_has_key.
  - rewrite (@learn_corrections now' text _ c cs Hcs), (@learn_corrections now text f c cs Hcs).
    destruct (@store_corrections_shape now (detect_contexts text) (c :: cs)
                0%nat (load_existing_memory f)) as (entities & n & He & Hn);
      [discriminate|].
    rewrite (load_after_learn _ He Hn).
    unfold keys. apply store_corrections_same_keys.
    intros j Hj. unfold correction_id. rewrite <- Hsec.
    apply (@store_corrections_has now (detect_contexts text) (c :: cs) 0%nat
             (load_existing_memory f) j Hj).
Qed.

Lemma same_second_learns_collide_witness :
  compact Samples.t0 = compact Samples.t0' /\
  keys (snd (enhanced_learn Samples.t0' "Always run tests"
               (snd (enhanced_learn Samples.t0 "Always run tests" Missing)))) =
    ["correction_20250101_120000_0"] /\
  total_corrections
    (snd (enhanced_learn Samples.t0' "Always run tests"
            (snd (enhanced_learn Samples.t0 "Always run tests" Missing)))) =
    Some 2%Z.
Proof.
  assert (Hsec : compact Samples.t0 = compact Samples.t0') by reflexivity.
  split; [exact Hsec|]. split.
  - rewrite (@same_second_learns_collide Samples.t0 Samples.t0'
               "Always run tests" Missing Hsec).
    vm_compute. reflexivity.
  - vm_compute. reflexivity.
Defined.

End SameSecond.

Section InCallDuplicates.

Import CorrectionDetector.

(** Within one call of [enhanced_learn.py] nothing is deduplicated: two
    identical matches are stored as two records. *)
Example enhanced_learn_keeps_duplicates :
  Learning.keys
    (snd (EnhancedLearn.enhanced_learn Samples.t0
            ("always x" ++ ClaudeMdUpdater.nl ++ "always x") Missing)) =
  ["correction_20250101_120000_0"; "correction_20250101_120000_1"].
Proof. vm_compute. reflexivity. Qed.

Lemma list_string_eqb_eq (a b : list string) :
  list_string_eqb a b = true <-> a = b.
Proof.
  unfold list_string_eqb. destruct (list_eq_dec string_dec a b); split;
    congruence.
Qed.

Lemma seen_In (p : list string) (seen : list (list string)) :
  existsb (list_string_eqb p) seen = true <-> In p seen.
Proof.
  rewrite existsb_exists. split.
  - intros (q & Hq & He). apply list_string_eqb_eq in He. now subst.
  - intros H. exists p. split; [exact H|]. now apply list_string_eqb_eq.
Qed.

Lemma unique_by_pattern_fresh (l : list correction) :
  forall seen c, In c (unique_by_pattern seen l) -> ~ In (c_pattern c) seen.
Proof.
  induction l as [|x l IH]; intros seen c; simpl; [tauto|].
  destruct (existsb (list_string_eqb (c_pattern x)) seen) eqn:E.
  - apply IH.
  - intros [->|Hin].
    + intros H. apply seen_In in H. congruence.
    + intros H. apply (IH _ _ Hin). now right.
Qed.

Lemma unique_by_pattern_NoDup (l : list correction) :
  forall seen, NoDup (map c_pattern (unique_by_pattern seen l)).
Proof.
  induction l as [|x l IH]; intros seen; simpl; [constructor|].
  destruct (existsb (list_string_eqb (c_pattern x)) seen); [apply IH|].
  simpl. constructor; [|apply IH].
  intros H. apply in_map_iff in H. destruct H as (c & Hc & Hin).
  apply (unique_by_pattern_fresh _ _ _ Hin). left. now symmetry.
Qed.

(** In the detector, candidates of one call with the same captured
    fragments are kept once. *)
Lemma detect_corrections_NoDup (now : stamp) (message : string) :
  NoDup (map c_pattern (detect_corrections now message)).
Proof.
  unfold detect_corrections, _deduplicate_corrections.
  match goal with
  | |- NoDup (map _ (match ?l with _ => _ end)) => destruct l
  end; [constructor|apply unique_by_pattern_NoDup].
Qed.

(** Each stored entry takes the current length of the list as its index,
    so a later call never writes over an earlier entry. *)
Lemma append_entries_length (now : stamp) (ctx : dict string)
    (cs : list correction) :
  forall stored,
    List.length (AutoCorrectionPipeline.append_entries now ctx cs stored) =
    (List.length stored + List.length cs)%nat.
Proof.
  induction cs as [|c cs IH]; intros stored; simpl; [lia|].
  rewrite IH, length_app. simpl. lia.
Qed.

End InCallDuplicates.

(* ================================================================== *)
(** ** Initial confidence *)

Section InitialConfidence.

Import CorrectionDetector Extraction.

Lemma boosted_is_natural_sum (category text : string) :
  boosted_confidence category text = natural_sum category text.
Proof.
  unfold boosted_confidence, natural_sum, explicit_language, clear_structure,
         imperative, punctuated, base_confidence.
  simpl existsb. rewrite orb_false_r, !orb_assoc. reflexivity.
Qed.

Lemma py_min_one_le (x : float) : leb (py_min one x) one = true.
Proof.
  unfold py_min. destruct (ltb x one) eqn:E; [now apply ltb_leb|reflexivity].
Qed.

(** C7, as the code has it.  The initial confidence of a candidate is the
    smaller of 1.0 and the sum of the base 0.7, the boost of its category
    (0.2 for dont_do_instead and use_instead, 0.1 for always_rule and
    never_rule, 0.15 for correction, nothing otherwise), 0.1 for imperative
    wording and 0.05 for a comma or full stop: it is clamped when it is
    computed, and so never exceeds 1.0.  The example sentence yields a
    dont_do_instead candidate with its two fragments and confidence 0.95,
    which is at least 0.9. *)
Theorem initial_confidence_clamped (category text : string) :
  _calculate_confidence category text = py_min one (natural_sum category text)
  /\ leb (_calculate_confidence category text) one = true
  /\ In example_candidate (detect_corrections Samples.t0 example_text)
  /\ geb (c_confidence example_candidate) (dec 9 1) = true.
Proof.
  unfold _calculate_confidence. rewrite boosted_is_natural_sum.
  split; [reflexivity|]. split; [apply py_min_one_le|].
  split; [vm_compute; left; reflexivity|vm_compute; reflexivity].
Qed.

(** C7 as stated fails: with the category boost, imperative wording and
    punctuation together the sum passes 1.0, and the code returns 1.0. *)
Lemma natural_sum_exceeds_one :
  ~ claimed_initial_confidence "dont_do_instead" crowded_text.
Proof.
  intros [_ H]. vm_compute in H. discriminate H.
Qed.

Example crowded_candidate_is_clamped :
  map (fun c => (c_type c, c_pattern c, c_confidence c))
      (detect_corrections Samples.t0 crowded_text) =
  [("dont_do_instead", ["always do x"; "do y"], one);
   ("always_rule", ["do x, do y"], dec 95 2)].
Proof. vm_compute. reflexivity. Qed.

End InitialConfidence.

(* ================================================================== *)
(** ** Queries *)

Section Queries.

Import QueryPatterns Querying.

Lemma filter_patterns_In (kws : list string) (ctype : string)
    (l : list entity) (e : entity) :
  In e (filter_patterns kws ctype (filter is_user_correction l)) <->
  In e l /\ passes kws ctype e = true.
Proof.
  unfold filter_patterns, passes.
  destruct kws as [|kw kws]; destruct ctype as [|ch ctype];
    rewrite ?filter_In, ?andb_true_iff; tauto.
Qed.

Lemma selected_In (kws : list string) (ctype : string) (mem : memory)
    (e : entity) :
  In e (selected kws ctype mem) <->
  In e (dict_values (entities_of mem)) /\ passes kws ctype e = true.
Proof. unfold selected. rewrite sort_desc_In. apply filter_patterns_In. Qed.

(** C6 on [query_patterns.py].  What the query selects is decided by the
    record type, the context tags and the correction type alone: every
    stored pattern that passes these filters is returned, whatever its
    confidence, which only orders the result. *)
Theorem query_patterns_has_no_threshold
    (kws : list string) (ctype : string) (mem : memory) (e : entity) :
  In e (dict_values (entities_of mem)) ->
  passes kws ctype e = true ->
  In e (selected kws ctype mem).
Proof. intros Hin Hp. apply selected_In. now split. Qed.

Lemma query_patterns_has_no_threshold_witness :
  In unreliable (dict_values (entities_of unreliable_store)) /\
  passes ["coding"] "" unreliable = true /\
  In unreliable (selected ["coding"] "" unreliable_store) /\
  gtb (confidence_key unreliable) (dec 6 1) = false.
Proof.
  assert (Hin : In unreliable (dict_values (entities_of unreliable_store)))
    by (simpl; tauto).
  assert (Hp : passes ["coding"] "" unreliable = true) by reflexivity.
  split; [exact Hin|]. split; [exact Hp|].
  split; [|vm_compute; reflexivity].
  exact (@query_patterns_has_no_threshold ["coding"] "" unreliable_store
           unreliable Hin Hp).
Defined.

(** A pattern of confidence 0.3 is reported by [query_patterns], where
    the sibling [query_relevant_patterns] of [memory_learn.py] leaves it
    out; that sibling in turn returns its matches in store order, not by
    confidence. *)
Example query_siblings_differ :
  query_patterns ["coding"] "" (Holds unreliable_store) = Found 1 [unreliable] /\
  MemoryLearn.query_relevant_patterns Samples.t0 ["coding"]
    (Holds unreliable_store) = Return [] /\
  option_map (map e_confidence)
    (match MemoryLearn.query_relevant_patterns Samples.t0 ["coding"]
             (Holds mixed_store) with
     | Return l => Some l
     | Raise _ => None
     end) = Some [Some (dec 7 1); Some (dec 95 2)].
Proof. repeat split; vm_compute; reflexivity. Qed.


End Queries.

(* ================================================================== *)
(** ** Loading the store *)

Section Loading.

(** C9 on [memory_learn.py].  [load_memory] yields the default structure
    when the file is missing, cannot be opened or is not JSON, and the
    loader of [enhanced_learn.py] yields a fresh structure on every
    failure; but [load_memory] lets a decoding error through to its
    caller. *)
Theorem load_memory_lets_decode_error_through (now : stamp) :
  MemoryLearn.load_memory now (Unreadable UnicodeDecodeError) =
    Raise UnicodeDecodeError /\
  MemoryLearn.load_memory now Missing =
    Return (MemoryLearn.default_memory now) /\
  MemoryLearn.load_memory now (Unreadable OSError) =
    Return (MemoryLearn.default_memory now) /\
  MemoryLearn.load_memory now (Unreadable JSONDecodeError) =
    Return (MemoryLearn.default_memory now) /\
  EnhancedLearn.load_existing_memory Missing = EnhancedLearn.fresh_memory /\
  EnhancedLearn.load_existing_memory (Unreadable UnicodeDecodeError) =
    EnhancedLearn.fresh_memory.
Proof. repeat split; reflexivity. Qed.

Lemma load_existing_memory_recovers (e : py_exn) :
  EnhancedLearn.load_existing_memory (Unreadable e) =
  EnhancedLearn.fresh_memory.
Proof. reflexivity. Qed.

Lemma load_memory_recovers (now : stamp) (e : py_exn) :
  MemoryLearn.recovered e = true ->
  MemoryLearn.load_memory now (Unreadable e) =
  Return (MemoryLearn.default_memory now).
Proof. intros H. simpl. now rewrite H. Qed.

End Loading.

(* ================================================================== *)
(** ** Further properties of feedback *)

Section FeedbackRelation.

Import ConfidenceTracker.

(** A relation between the record an id held before and the one it holds
    after, kept by each single update, is kept by every call. *)
Variable R : entity -> entity -> Prop.
Hypothesis R_refl : forall p, R p p.
Hypothesis R_trans : forall a b c, R a b -> R b c -> R a c.
Hypothesis R_tracker :
  forall now t text p, R p (update_entity now t text p).
Hypothesis R_adjust :
  forall now adjustment p p',
    MemoryLearn.update_entity now adjustment p = Return p' -> R p p'.

Lemma fold_update_rel now t text ids : forall acc id,
  match dict_get id (entities_of (fst acc)) with
  | Some p =>
      exists p',
        dict_get id (entities_of
          (fst (fold_left (update_step now t text) ids acc))) = Some p' /\
        R p p'
  | None =>
      dict_get id (entities_of
        (fst (fold_left (update_step now t text) ids acc))) = None
  end.
Proof.
  induction ids as [|pid ids IH]; intros acc id.
  - simpl. destruct (dict_get id (entities_of (fst acc))); eauto.
  - simpl fold_left. specialize (IH (update_step now t text acc pid) id).
    destruct (string_dec pid id) as [->|Hne].
    + destruct (dict_get id (entities_of (fst acc))) as [p|] eqn:Hp.
      * rewrite (update_step_hit now t text _ _ Hp) in IH.
        destruct IH as (p' & Hp' & HR). exists p'. split; [exact Hp'|].
        eapply R_trans; [apply R_tracker|exact HR].
      * rewrite (update_step_absent now t text _ _ Hp) in IH |- *.
        now rewrite Hp in IH.
    + rewrite (update_step_other now t text acc Hne) in IH. exact IH.
Qed.

Lemma apply_event_rel (ev : Spec.event) (f : file memory) (id : string) :
  match Promotion.stored_entity id f with
  | Some p =>
      exists p', Promotion.stored_entity id (Spec.apply_event ev f) = Some p'
                 /\ R p p'
  | None => Promotion.stored_entity id (Spec.apply_event ev f) = None
  end.
Proof.
  destruct ev as [now ids text|now id' adjustment].
  - unfold Spec.apply_event, update_pattern_confidence.
    destruct f as [|e|mem]; try reflexivity.
    pose proof (fold_update_rel now (detect_feedback_type text) text ids
                  (mem, []) id) as H.
    destruct (fold_left _ ids (mem, [])) as [mem' updated].
    simpl in *. exact H.
  - unfold Spec.apply_event, MemoryLearn.update_pattern_confidence.
    assert (Hsame :
      match Promotion.stored_entity id f with
      | Some p => exists p', Promotion.stored_entity id f = Some p' /\ R p p'
      | None => Promotion.stored_entity id f = None
      end).
    { destruct (Promotion.stored_entity id f) eqn:E; eauto. }
    destruct (MemoryLearn.load_memory now f) as [mem|e] eqn:Hload;
      [|exact Hsame].
    destruct (m_entities mem) as [entities|] eqn:Hents; [|exact Hsame].
    destruct (dict_get id' entities) as [ent|] eqn:Hget; [|exact Hsame].
    destruct (MemoryLearn.update_entity now adjustment ent) as [ent'|e] eqn:Hu;
      [|exact Hsame].
    clear Hsame.
    assert (Hf : f = Holds mem).
    { destruct f as [|e|mem0]; simpl in Hload.
      - inversion Hload; subst mem. simpl in Hents. inversion Hents; subst.
        discriminate Hget.
      - destruct (MemoryLearn.recovered e); inversion Hload; subst mem.
        simpl in Hents. inversion Hents; subst. discriminate Hget.
      - now inversion Hload. }
    subst f. unfold Promotion.stored_entity.
    rewrite entities_of_set_entities. unfold entities_of at 1. rewrite Hents.
    simpl get_or.
    destruct (string_dec id' id) as [->|Hne].
    + rewrite Hget, dict_get_set_eq. exists ent'. split; [reflexivity|].
      eapply R_adjust, Hu.
    + rewrite dict_get_set_neq by assumption.
      destruct (dict_get id entities); eauto.
Qed.

Lemma run_rel (events : list Spec.event) : forall (f : file memory) (id : string),
  match Promotion.stored_entity id f with
  | Some p =>
      exists p', Promotion.stored_entity id (Spec.run events f) = Some p'
                 /\ R p p'
  | None => Promotion.stored_entity id (Spec.run events f) = None
  end.
Proof.
  induction events as [|ev events IH]; intros f id.
  - simpl. destruct (Promotion.stored_entity id f); eauto.
  - simpl. specialize (IH (Spec.apply_event ev f) id).
    pose proof (apply_event_rel ev f id) as Hstep.
    destruct (Promotion.stored_entity id f) as [p|].
    + destruct Hstep as (p1 & Hp1 & HR1). rewrite Hp1 in IH.
      destruct IH as (p' & Hp' & HR). exists p'. split; [exact Hp'|].
      eapply R_trans; eassumption.
    + now rewrite Hstep in IH.
Qed.

End FeedbackRelation.

Section FeedbackFurther.

Import ConfidenceTracker.

Lemma update_step_keys now t text acc pid :
  map fst (entities_of (fst (update_step now t text acc pid))) =
  map fst (entities_of (fst acc)).
Proof.
  destruct acc as [mem upd]. unfold update_step.
  destruct (dict_get pid (entities_of mem)) eqn:H; [|reflexivity].
  simpl fst. rewrite entities_of_set_entities. eapply dict_set_keys, H.
Qed.

Lemma fold_update_keys now t text ids : forall acc,
  map fst (entities_of (fst (fold_left (update_step now t text) ids acc))) =
  map fst (entities_of (fst acc)).
Proof.
  induction ids as [|pid ids IH]; intros acc; [reflexivity|].
  simpl. rewrite IH. apply update_step_keys.
Qed.

Lemma apply_event_keys (ev : Spec.event) (f : file memory) :
  Learning.keys (Spec.apply_event ev f) = Learning.keys f.
Proof.
  destruct ev as [now ids text|now id' adjustment].
  - unfold Spec.apply_event, update_pattern_confidence.
    destruct f as [|e|mem]; try reflexivity.
    pose proof (fold_update_keys now (detect_feedback_type text) text ids
                  (mem, [])) as H.
    destruct (fold_left _ ids (mem, [])) as [mem' updated]. exact H.
  - unfold Spec.apply_event, MemoryLearn.update_pattern_confidence.
    destruct (MemoryLearn.load_memory now f) as [mem|e] eqn:Hload;
      [|reflexivity].
    destruct (m_entities mem) as [entities|] eqn:Hents; [|reflexivity].
    destruct (dict_get id' entities) as [ent|] eqn:Hget; [|reflexivity].
    destruct (MemoryLearn.update_entity now adjustment ent) as [ent'|e];
      [|reflexivity].
    destruct f as [|e|mem0]; simpl in Hload.
    + inversion Hload; subst mem. simpl in Hents. inversion Hents; subst.
      discriminate Hget.
    + destruct (MemoryLearn.recovered e); inversion Hload; subst mem.
      simpl in Hents. inversion Hents; subst. discriminate Hget.
    + inversion Hload; subst mem0. unfold Learning.keys.
      rewrite entities_of_set_entities. unfold entities_of. rewrite Hents.
      eapply dict_set_keys, Hget.
Qed.

(** X1.  A feedback call, through the tracker or through the numeric
    adjustment, leaves every record it does not name exactly as it was,
    and neither adds nor removes a record nor changes their order. *)
Theorem feedback_leaves_others
    (ev : Spec.event) (f : file memory) (id : string) :
  ~ Spec.touches ev id ->
  Promotion.stored_entity id (Spec.apply_event ev f) =
    Promotion.stored_entity id f /\
  Learning.keys (Spec.apply_event ev f) = Learning.keys f.
Proof.
  intros Hnot. split; [|apply apply_event_keys].
  destruct ev as [now ids text|now id' adjustment]; simpl in Hnot.
  - unfold Spec.apply_event, update_pattern_confidence.
    destruct f as [|e|mem]; try reflexivity.
    pose proof (@fold_update_other now (detect_feedback_type text) text ids
                  (mem, []) id Hnot) as Hsame.
    destruct (fold_left _ ids (mem, [])) as [mem' updated]. exact Hsame.
  - unfold Spec.apply_event, MemoryLearn.update_pattern_confidence.
    destruct (MemoryLearn.load_memory now f) as [mem|e] eqn:Hload;
      [|reflexivity].
    destruct (m_entities mem) as [entities|] eqn:Hents; [|reflexivity].
    destruct (dict_get id' entities) as [ent|] eqn:Hget; [|reflexivity].
    destruct (MemoryLearn.update_entity now adjustment ent) as [ent'|e];
      [|reflexivity].
    destruct f as [|e|mem0]; simpl in Hload.
    + inversion Hload; subst mem. simpl in Hents. inversion Hents; subst.
      discriminate Hget.
    + destruct (MemoryLearn.recovered e); inversion Hload; subst mem.
      simpl in Hents. inversion Hents; subst. discriminate Hget.
    + inversion Hload; subst mem0. unfold Promotion.stored_entity.
      rewrite entities_of_set_entities.
      rewrite dict_get_set_neq by assumption.
      unfold entities_of. now rewrite Hents.
Qed.

Lemma feedback_leaves_others_witness :
  ~ Spec.touches (Spec.Feedback Samples.t0 ["p1"] "good") "p2" /\
  Promotion.stored_entity "p2"
    (Spec.apply_event (Spec.Feedback Samples.t0 ["p1"] "good")
       (Holds Querying.mixed_store)) = Some Querying.reliable.
Proof.
  assert (H : ~ Spec.touches (Spec.Feedback Samples.t0 ["p1"] "good") "p2").
  { simpl. intros [H|[]]. discriminate H. }
  split; [exact H|].
  rewrite (proj1 (@feedback_leaves_others
                    (Spec.Feedback Samples.t0 ["p1"] "good")
                    (Holds Querying.mixed_store) "p2" H)).
  reflexivity.
Defined.

Lemma tracker_keeps_counts now t text p :
  Extra.counts_ok p -> Extra.counts_ok (update_entity now t text p).
Proof.
  unfold Extra.counts_ok, update_entity.
  destruct t; simpl; lia.
Qed.

Lemma adjust_keeps_counts now adjustment p p' :
  MemoryLearn.update_entity now adjustment p = Return p' ->
  Extra.counts_ok p -> Extra.counts_ok p'.
Proof.
  unfold Extra.counts_ok, MemoryLearn.update_entity.
  destruct (e_confidence p); [|discriminate].
  destruct (gtb adjustment zero); intros [= <-]; simpl; lia.
Qed.

(** X2.  Along any sequence of feedback calls a record whose success count
    does not exceed its applied count keeps that property: no call raises
    the success count without raising the applied count. *)
Theorem success_never_exceeds_applied
    (events : list Spec.event) (f : file memory) (id : string)
    (p p' : entity) :
  Promotion.stored_entity id f = Some p ->
  Extra.counts_ok p ->
  Promotion.stored_entity id (Spec.run events f) = Some p' ->
  Extra.counts_ok p'.
Proof.
  intros Hp Hok Hp'.
  pose proof (@run_rel (fun a b => Extra.counts_ok a -> Extra.counts_ok b))
    as H.
  specialize (H (fun _ h => h) (fun a b c h1 h2 h => h2 (h1 h))
                (fun now t text q => @tracker_keeps_counts now t text q)
                (fun now adj q q' => @adjust_keeps_counts now adj q q')
                events f id).
  rewrite Hp in H. destruct H as (q & Hq & HR).
  rewrite Hp' in Hq. inversion Hq; subst q. now apply HR.
Qed.

Lemma success_never_exceeds_applied_witness :
  Promotion.stored_entity "p1"
    (Holds (Samples.store_of [("p1", Samples.fresh_pattern)])) =
    Some Samples.fresh_pattern /\
  Extra.counts_ok Samples.fresh_pattern /\
  Extra.counts_ok
    (get_or empty_entity
       (Promotion.stored_entity "p1"
          (Spec.run Samples.five_corrections
             (Holds (Samples.store_of [("p1", Samples.fresh_pattern)]))))).
Proof.
  assert (H1 : Promotion.stored_entity "p1"
    (Holds (Samples.store_of [("p1", Samples.fresh_pattern)])) =
    Some Samples.fresh_pattern) by reflexivity.
  assert (H2 : Extra.counts_ok Samples.fresh_pattern)
    by (unfold Extra.counts_ok; simpl; lia).
  split; [exact H1|]. split; [exact H2|].
  destruct (Promotion.stored_entity "p1"
          (Spec.run Samples.five_corrections
             (Holds (Samples.store_of [("p1", Samples.fresh_pattern)]))))
    as [q|] eqn:E.
  - exact (@success_never_exceeds_applied Samples.five_corrections _ "p1"
             Samples.fresh_pattern q H1 H2 E).
  - unfold Extra.counts_ok. simpl. lia.
Defined.

Lemma mem_In (x : string) (l : list string) : mem x l = true <-> In x l.
Proof.
  unfold mem. rewrite existsb_exists. split.
  - intros (y & Hy & He). apply String.eqb_eq in He. now subst.
  - intros H. exists x. split; [exact H|apply String.eqb_refl].
Qed.

Lemma update_entity_applied_count now t text p :
  Extra.applied_count (update_entity now t text p) =
  (Extra.applied_count p + 1)%Z.
Proof. unfold Extra.applied_count, update_entity. destruct t; reflexivity. Qed.

(** X3.  After any number of tracker calls, each with its ids listed
    once, the applied count of a stored pattern has grown by exactly the
    number of calls that named it. *)
Theorem applied_count_counts_calls (calls : list Extra.call) :
  forall (m : memory) (id : string) (p : entity),
    Forall (fun c => NoDup (Extra.c_ids c)) calls ->
    dict_get id (entities_of m) = Some p ->
    exists p',
      Promotion.stored_entity id
        (Spec.run (map Extra.as_event calls) (Holds m)) = Some p' /\
      Extra.applied_count p' =
        (Extra.applied_count p + Z.of_nat (Extra.naming id calls))%Z.
Proof.
  induction calls as [|c calls IH]; intros m id p Hnd Hp.
  - exists p. split; [exact Hp|]. unfold Extra.naming. simpl. lia.
  - inversion Hnd as [|? ? Hc Hrest]; subst.
    simpl map. simpl Spec.run. unfold Extra.as_event at 1.
    unfold Spec.apply_event, update_pattern_confidence.
    set (t := detect_feedback_type (Extra.c_text c)).
    destruct (fold_left (update_step (Extra.c_now c) t (Extra.c_text c))
                (Extra.c_ids c) (m, [])) as [m' updated] eqn:Efold.
    simpl snd. unfold Extra.naming. simpl filter.
    destruct (mem id (Extra.c_ids c)) eqn:Emem.
    + apply mem_In in Emem.
      pose proof (@fold_update_hit (Extra.c_now c) t (Extra.c_text c)
                    (Extra.c_ids c) (m, []) id p Hc Emem Hp) as Hhit.
      rewrite Efold in Hhit. simpl in Hhit.
      destruct (IH m' id _ Hrest Hhit) as (p' & Hp' & Hcount).
      exists p'. split; [exact Hp'|].
      rewrite Hcount, update_entity_applied_count.
      unfold Extra.naming. simpl List.length. lia.
    + assert (Hnot : ~ In id (Extra.c_ids c)).
      { intros Hin. apply mem_In in Hin. congruence. }
      pose proof (@fold_update_other (Extra.c_now c) t (Extra.c_text c)
                    (Extra.c_ids c) (m, []) id Hnot) as Hsame.
      rewrite Efold in Hsame. simpl in Hsame. rewrite Hp in Hsame.
      destruct (IH m' id p Hrest Hsame) as (p' & Hp' & Hcount).
      exists p'. split; [exact Hp'|exact Hcount].
Qed.

Lemma applied_count_counts_calls_witness :
  Forall (fun c => NoDup (Extra.c_ids c)) Extra.sample_calls /\
  dict_get "p1" (entities_of Querying.mixed_store) =
    Some (Samples.synthetic (dec 7 1) 1 1) /\
  exists p',
    Promotion.stored_entity "p1"
      (Spec.run (map Extra.as_event Extra.sample_calls)
                (Holds Querying.mixed_store)) = Some p' /\
    Extra.applied_count p' = 3%Z.
Proof.
  assert (H1 : Forall (fun c => NoDup (Extra.c_ids c)) Extra.sample_calls).
  { repeat constructor; simpl; try tauto.
    intros [H|[]]. discriminate H. }
  assert (H2 : dict_get "p1" (entities_of Querying.mixed_store) =
    Some (Samples.synthetic (dec 7 1) 1 1)) by reflexivity.
  split; [exact H1|]. split; [exact H2|].
  destruct (@applied_count_counts_calls Extra.sample_calls
              Querying.mixed_store "p1" _ H1 H2) as (p' & Hp' & Hc).
  exists p'. split; [exact Hp'|]. rewrite Hc. reflexivity.
Defined.

Lemma tracker_extends_history now t text p :
  exists suffix,
    Extra.history (update_entity now t text p) =
    (Extra.history p ++ suffix)%list.
Proof.
  unfold Extra.history, update_entity.
  destruct t; eexists; reflexivity.
Qed.

Lemma adjust_keeps_history now adjustment p p' :
  MemoryLearn.update_entity now adjustment p = Return p' ->
  exists suffix, Extra.history p' = (Extra.history p ++ suffix)%list.
Proof.
  unfold Extra.history, MemoryLearn.update_entity.
  destruct (e_confidence p); [|discriminate].
  intros H. exists []. rewrite app_nil_r.
  destruct (gtb adjustment zero); inversion H; reflexivity.
Qed.

(** X4.  Feedback never removes a record and never rewrites its history:
    after any sequence of calls a record that was stored is still stored,
    and its feedback history is the old one with entries appended. *)
Theorem history_is_append_only
    (events : list Spec.event) (f : file memory) (id : string) (p : entity) :
  Promotion.stored_entity id f = Some p ->
  exists p' suffix,
    Promotion.stored_entity id (Spec.run events f) = Some p' /\
    Extra.history p' = (Extra.history p ++ suffix)%list.
Proof.
  intros Hp.
  pose proof (@run_rel
    (fun a b => exists suffix, Extra.history b = (Extra.history a ++ suffix)%list))
    as H.
  assert (Hrefl : forall a : entity,
    exists suffix, Extra.history a = (Extra.history a ++ suffix)%list).
  { intros a. exists []. now rewrite app_nil_r. }
  assert (Htrans : forall a b c : entity,
    (exists s, Extra.history b = (Extra.history a ++ s)%list) ->
    (exists s, Extra.history c = (Extra.history b ++ s)%list) ->
    exists s, Extra.history c = (Extra.history a ++ s)%list).
  { intros a b c [s1 H1] [s2 H2]. exists (s1 ++ s2)%list.
    now rewrite H2, H1, app_assoc. }
  specialize (H Hrefl Htrans
                (fun now t text q => tracker_extends_history now t text q)
                (fun now adj q q' => @adjust_keeps_history now adj q q')
                events f id).
  rewrite Hp in H. destruct H as (p' & Hp' & s & Hs).
  now exists p', s.
Qed.

Lemma history_is_append_only_witness :
  Promotion.stored_entity "p1"
    (Holds (Samples.store_of [("p1", Samples.fresh_pattern)])) =
    Some Samples.fresh_pattern /\
  exists p' suffix,
    Promotion.stored_entity "p1"
      (Spec.run Samples.five_corrections
         (Holds (Samples.store_of [("p1", Samples.fresh_pattern)]))) = Some p' /\
    Extra.history p' = (Extra.history Samples.fresh_pattern ++ suffix)%list.
Proof.
  assert (H1 : Promotion.stored_entity "p1"
    (Holds (Samples.store_of [("p1", Samples.fresh_pattern)])) =
    Some Samples.fresh_pattern) by reflexivity.
  split; [exact H1|].
  exact (@history_is_append_only Samples.five_corrections _ "p1" _ H1).
Defined.

Lemma update_step_present now t text acc pid id :
  Extra.present (fst (update_step now t text acc pid)) id =
  Extra.present (fst acc) id.
Proof.
  unfold Extra.present.
  destruct (string_dec pid id) as [->|Hne].
  - destruct (dict_get id (entities_of (fst acc))) eqn:Hp.
    + now rewrite (update_step_hit now t text _ _ Hp).
    + rewrite (update_step_absent now t text _ _ Hp). now rewrite Hp.
  - now rewrite update_step_other.
Qed.

Lemma fold_update_rows now t text ids : forall acc,
  map u_id (snd (fold_left (update_step now t text) ids acc)) =
    (map u_id (snd acc) ++ filter (Extra.present (fst acc)) ids)%list /\
  (Forall (Extra.row_ok t) (snd acc) ->
   Forall (Extra.row_ok t) (snd (fold_left (update_step now t text) ids acc))).
Proof.
  induction ids as [|pid ids IH]; intros acc.
  - simpl. rewrite app_nil_r. auto.
  - simpl fold_left. destruct (IH (update_step now t text acc pid)) as [Hm Hf].
    split.
    + rewrite Hm. simpl filter.
      assert (Hfilter :
        filter (Extra.present (fst (update_step now t text acc pid))) ids =
        filter (Extra.present (fst acc)) ids).
      { apply filter_ext. intros id. apply update_step_present. }
      rewrite Hfilter. destruct acc as [m upd]. unfold update_step at 1.
      unfold Extra.present at 2. simpl fst.
      destruct (dict_get pid (entities_of m)); simpl snd.
      * rewrite map_app. simpl. now rewrite <- app_assoc.
      * reflexivity.
    + intros Hacc. apply Hf. destruct acc as [m upd]. unfold update_step.
      simpl in Hacc.
      destruct (dict_get pid (entities_of m)); simpl snd; [|exact Hacc].
      apply Forall_app. split; [exact Hacc|].
      constructor; [|constructor]. split; reflexivity.
Qed.

(** X5.  The report of a tracker call has one row for each supplied id
    that is in the store, in the order supplied; ids that are not in the
    store are passed over without notice.  Each row carries the
    classification and the clamped new confidence. *)
Theorem report_rows
    (now : stamp) (ids : list string) (text : string) (m : memory) :
  exists updated m',
    update_pattern_confidence now ids text (Holds m) =
      (Updated updated (detect_feedback_type text), Holds m') /\
    map u_id updated = filter (Extra.present m) ids /\
    Forall (Extra.row_ok (detect_feedback_type text)) updated.
Proof.
  unfold update_pattern_confidence.
  destruct (@fold_update_rows now (detect_feedback_type text) text ids (m, []))
    as [Hm Hf].
  destruct (fold_left _ ids (m, [])) as [m' updated].
  exists updated, m'. split; [reflexivity|].
  split; [exact Hm|]. apply Hf. constructor.
Qed.

End FeedbackFurther.

(* ================================================================== *)
(** ** Further properties of [enhanced_learn.py] *)

Section LearnFurther.

Import Learning EnhancedLearn.





Lemma store_corrections_other now ctx cs k : forall i m,
  (forall j, k <> correction_id now j) ->
  dict_get k (entities_of (store_corrections now ctx i cs m)) =
  dict_get k (entities_of m).
Proof.
  induction cs as [|c cs IH]; intros i m Hk; [reflexivity|].
  simpl store_corrections. rewrite IH by exact Hk.
  simpl. apply dict_get_set_neq. intros Heq. apply (Hk i). now symmetry.
Qed.

(** X7.  Learning touches only the ids it generates, the observation id
    and the correction ids of the current second: a record under any
    other id is afterwards what the loaded store held. *)
Theorem learn_keeps_other_records
    (now : stamp) (text : string) (f : file memory) (k : string) :
  (forall j, k <> correction_id now j) ->
  k <> observation_id now ->
  Promotion.stored_entity k (snd (enhanced_learn now text f)) =
  dict_get k (entities_of (load_existing_memory f)).
Proof.
  intros Hc Ho.
  destruct (find_corrections text) as [|c cs] eqn:Hcs.
  - rewrite (@learn_observation now text f Hcs). simpl.
    apply dict_get_set_neq. intros Heq. apply Ho. now symmetry.
  - rewrite (@learn_corrections now text f c cs Hcs).
    unfold Promotion.stored_entity. now apply store_corrections_other.
Qed.

Lemma append_inj_l (a x y : string) : a ++ x = a ++ y -> x = y.
Proof. induction a as [|c a IH]; simpl; [auto|]. intros [= H]. auto. Qed.

Lemma to_int_normal (z : Z) :
  Z.to_int z <> Decimal.Pos Decimal.Nil /\
  Z.to_int z <> Decimal.Neg Decimal.Nil.
Proof.
  destruct z; simpl; split; try discriminate;
    intros [= H]; now apply DecimalPos.Unsigned.to_uint_nonnil in H.
Qed.

Lemma str_int_inj (a b : Z) : str_int a = str_int b -> a = b.
Proof.
  unfold str_int. intros H.
  apply (f_equal NilZero.int_of_string) in H.
  destruct (to_int_normal a) as [Ha1 Ha2].
  destruct (to_int_normal b) as [Hb1 Hb2].
  rewrite !NilZero.isi in H by assumption.
  inversion H as [H']. now apply DecimalZ.to_int_inj.
Qed.

Lemma correction_id_inj now i j :
  correction_id now i = correction_id now j -> i = j.
Proof.
  unfold correction_id. intros H.
  apply (append_inj_l "correction_") in H.
  apply append_inj_l in H. apply (append_inj_l "_") in H.
  apply str_int_inj in H. lia.
Qed.

Lemma store_corrections_cons now ctx c cs i m :
  store_corrections now ctx i (c :: cs) m =
  store_corrections now ctx (S i) cs
    (set_stats
       (get_or 0%Z (m_stats m) + 1)
       (set_entities
          (dict_set (correction_id now i)
             (correction_entity now (correction_id now i) ctx c)
             (entities_of m))
          m)).
Proof. reflexivity. Qed.

Lemma entities_of_counted n d m :
  entities_of (set_stats n (set_entities d m)) = d.
Proof. reflexivity. Qed.

Lemma store_corrections_fresh_keys now ctx cs : forall i m,
  (forall j, (i <= j < i + List.length cs)%nat ->
             ~ In (correction_id now j) (map fst (entities_of m))) ->
  map fst (entities_of (store_corrections now ctx i cs m)) =
  (map fst (entities_of m) ++
   map (correction_id now) (List.seq i (List.length cs)))%list.
Proof.
  induction cs as [|c cs IH]; intros i m Hfresh.
  - simpl. now rewrite app_nil_r.
  - assert (Hnone : dict_get (correction_id now i) (entities_of m) = None).
    { destruct (dict_get (correction_id now i) (entities_of m)) eqn:E;
        [|reflexivity].
      exfalso. apply (Hfresh i); [simpl; lia|].
      apply dict_get_In in E. change (correction_id now i)
        with (fst (correction_id now i, e)). now apply in_map. }
    rewrite store_corrections_cons, IH.
    + rewrite entities_of_counted, (dict_get_none_set _ _ _ Hnone), map_app.
      cbn [List.length List.seq map]. now rewrite <- app_assoc.
    + intros j Hj.
      rewrite entities_of_counted, (dict_get_none_set _ _ _ Hnone), map_app,
              in_app_iff.
      intros [Hin|Hin].
      * apply (Hfresh j); [simpl; lia|exact Hin].
      * simpl in Hin. destruct Hin as [Heq|[]].
        apply correction_id_inj in Heq. lia.
Qed.

(** X8.  The ids of one call are pairwise distinct: when none of them is
    taken yet, a call that finds [n] matches adds [n] records, in the
    order of the matches, after the records the store already held. *)
Theorem learn_adds_one_record_per_match
    (now : stamp) (text : string) (f : file memory) :
  find_corrections text <> [] ->
  (forall j, (j < List.length (find_corrections text))%nat ->
     ~ In (correction_id now j)
          (map fst (entities_of (load_existing_memory f)))) ->
  keys (snd (enhanced_learn now text f)) =
  (map fst (entities_of (load_existing_memory f)) ++
   map (correction_id now)
       (List.seq 0 (List.length (find_corrections text))))%list.
Proof.
  intros Hne Hfresh.
  destruct (find_corrections text) as [|c cs] eqn:Hcs; [congruence|].
  rewrite (@learn_corrections now text f c cs Hcs). unfold keys.
  apply store_corrections_fresh_keys. intros j Hj. apply Hfresh. lia.
Qed.

Lemma learn_adds_one_record_per_match_witness :
  find_corrections "Use A instead of B, never C" <> [] /\
  keys (snd (enhanced_learn Samples.t0 "Use A instead of B, never C" Missing)) =
    ["correction_20250101_120000_0"; "correction_20250101_120000_1"].
Proof.
  assert (H1 : find_corrections "Use A instead of B, never C" <> [])
    by (vm_compute; discriminate).
  split; [exact H1|].
  rewrite (@learn_adds_one_record_per_match Samples.t0
             "Use A instead of B, never C" Missing H1).
  - vm_compute. reflexivity.
  - intros j _ [].
Defined.

Lemma learn_keeps_other_records_witness :
  (forall j, "p1" <> correction_id Samples.t0 j) /\
  "p1" <> observation_id Samples.t0 /\
  Promotion.stored_entity "p1"
    (snd (enhanced_learn Samples.t0 "Always run tests"
            (Holds (Samples.store_of [("p1", Samples.fresh_pattern)])))) =
    Some Samples.fresh_pattern.
Proof.
  assert (H1 : forall j, "p1" <> correction_id Samples.t0 j)
    by (intros j; unfold correction_id; simpl; discriminate).
  assert (H2 : "p1" <> observation_id Samples.t0) by discriminate.
  split; [exact H1|]. split; [exact H2|].
  rewrite (@learn_keeps_other_records Samples.t0 "Always run tests"
             (Holds (Samples.store_of [("p1", Samples.fresh_pattern)]))
             "p1" H1 H2).
  reflexivity.
Defined.

Lemma dict_set_In {V} (k k' : string) (v v' : V) (d : dict V) :
  In (k', v') (dict_set k v d) -> (k', v') = (k, v) \/ In (k', v') d.
Proof.
  induction d as [|[k0 v0] d IH]; simpl.
  - intros [H|[]]. left. now symmetry.
  - destruct (String.eqb k k0); simpl.
    + intros [H|H]; [left; now symmetry|right; now right].
    + intros [H|H]; [right; now left|].
      destruct (IH H); [now left|right; now right].
Qed.

Lemma store_corrections_In now ctx cs : forall i m k e,
  In (k, e) (entities_of (store_corrections now ctx i cs m)) ->
  In (k, e) (entities_of m) \/
  exists id c, e = correction_entity now id ctx c.
Proof.
  induction cs as [|c cs IH]; intros i m k e Hin; [now left|].
  simpl store_corrections in Hin. apply IH in Hin.
  destruct Hin as [Hin|Hin]; [|now right].
  simpl in Hin. apply dict_set_In in Hin.
  destruct Hin as [Heq|Hin]; [|now left].
  right. inversion Heq; subst. eauto.
Qed.

(** X9.  Nothing that learning writes can be promoted as it stands: a
    record that is promotable after a call of [enhanced_learn] was in the
    loaded store, unchanged, before the call.  New corrections start at
    confidence 0.8 with no application, observations carry no
    statistics. *)
Theorem learned_records_are_not_promotable
    (now : stamp) (text : string) (f : file memory)
    (id : string) (e : entity) :
  Promotion.is_promotable (snd (enhanced_learn now text f)) id e ->
  In (id, e) (entities_of (load_existing_memory f)) /\
  ClaudeMdUpdater.meets_criteria e = true.
Proof.
  destruct (find_corrections text) as [|c cs] eqn:Hcs.
  - rewrite (@learn_observation now text f Hcs).
    intros H. apply get_promotable_In in H. destruct H as [Hin Hm].
    split; [|exact Hm]. simpl in Hin. apply dict_set_In in Hin.
    destruct Hin as [Heq|Hin]; [|exact Hin].
    inversion Heq; subst. discriminate Hm.
  - rewrite (@learn_corrections now text f c cs Hcs).
    intros H. apply get_promotable_In in H. destruct H as [Hin Hm].
    split; [|exact Hm]. apply store_corrections_In in Hin.
    destruct Hin as [Hin|(i & x & ->)]; [exact Hin|].
    vm_compute in Hm. discriminate Hm.
Qed.

Lemma learned_records_are_not_promotable_witness :
  Promotion.is_promotable
    (snd (enhanced_learn Samples.t0 "Always run tests"
            (Holds Querying.mixed_store)))
    "p2" Querying.reliable /\
  In ("p2", Querying.reliable)
     (entities_of (load_existing_memory (Holds Querying.mixed_store))).
Proof.
  assert (H : Promotion.is_promotable
                (snd (enhanced_learn Samples.t0 "Always run tests"
                        (Holds Querying.mixed_store)))
                "p2" Querying.reliable).
  { vm_compute. left. reflexivity. }
  split; [exact H|].
  exact (proj1 (@learned_records_are_not_promotable Samples.t0
                  "Always run tests" (Holds Querying.mixed_store)
                  "p2" Querying.reliable H)).
Defined.

End LearnFurther.

(* ================================================================== *)
(** ** Further properties of [auto_correction_detector.py] *)

Section DetectorFurther.

Import CorrectionDetector AutoCorrectionPipeline Extra.

Lemma calculate_confidence_not_nan (t message : string) :
  Spec.is_nan (_calculate_confidence t message) = false.
Proof.
  exact (proj1 (leb_not_nan _ _ (py_min_one_le (boosted_confidence t message)))).
Qed.

Lemma confidence_boosts_cases (t : string) :
  confidence_boosts t = dec 2 1 \/ confidence_boosts t = dec 1 1 \/
  confidence_boosts t = dec 15 2 \/ confidence_boosts t = zero.
Proof.
  unfold confidence_boosts.
  repeat match goal with
         | |- context [String.eqb ?a ?b] => destruct (String.eqb a b)
         end; auto.
Qed.

(** X10.  The initial confidence of a candidate is never below the base
    0.7 and never above 1, whatever the category and the message. *)
Theorem initial_confidence_range (correction_type message : string) :
  leb base_confidence (_calculate_confidence correction_type message) = true /\
  leb (_calculate_confidence correction_type message) one = true.
Proof.
  split; [|apply py_min_one_le].
  unfold _calculate_confidence, boosted_confidence.
  destruct (explicit_language message), (clear_structure message);
    destruct (confidence_boosts_cases correction_type) as [H|[H|[H|H]]];
    rewrite H; vm_compute; reflexivity.
Qed.

Lemma unique_by_pattern_In (l : list correction) :
  forall seen c, In c (unique_by_pattern seen l) -> In c l.
Proof.
  induction l as [|x l IH]; intros seen c; simpl; [auto|].
  destruct (existsb (list_string_eqb (c_pattern x)) seen).
  - intros H. right. eapply IH; eauto.
  - intros [H|H]; [now left|right; eapply IH; eauto].
Qed.

Lemma unique_by_pattern_sorted (l : list correction) :
  forall seen, StronglySorted at_least l ->
               StronglySorted at_least (unique_by_pattern seen l).
Proof.
  induction l as [|x l IH]; intros seen Hs; simpl; [constructor|].
  inversion Hs as [|? ? Hs' Hall]; subst.
  destruct (existsb (list_string_eqb (c_pattern x)) seen).
  - now apply IH.
  - constructor; [now apply IH|].
    rewrite Forall_forall in *. intros y Hy. apply Hall.
    eapply unique_by_pattern_In; eauto.
Qed.

Lemma deduplicate_sorted (l : list correction) :
  Forall not_nan l -> StronglySorted at_least (_deduplicate_corrections l).
Proof.
  intros Hok. unfold _deduplicate_corrections.
  destruct l as [|x l]; [constructor|].
  apply unique_by_pattern_sorted.
  apply (@sort_desc_sorted correction c_confidence). exact Hok.
Qed.

Lemma candidates_not_nan (now : stamp) (message : string)
    (l : list correction) :
  l = flat_map
        (fun tp : string * list regex =>
           flat_map
             (fun pattern =>
                map (fun groups =>
                       {| c_type := fst tp;
                          c_raw_match := EnhancedLearn.match_value groups;
                          c_pattern := groups;
                          c_original_text := message;
                          c_confidence :=
                            _calculate_confidence (fst tp)
                              (strip (lower message));
                          c_context := _detect_context (strip (lower message));
                          c_timestamp := iso now;
                          c_processed := false |})
                    (findall IGNORECASE_DOTALL pattern (strip (lower message))))
             (snd tp))
        patterns ->
  Forall not_nan l.
Proof.
  intros ->. rewrite Forall_forall. intros c Hc.
  apply in_flat_map in Hc. destruct Hc as (tp & _ & Hc).
  apply in_flat_map in Hc. destruct Hc as (p & _ & Hc).
  apply in_map_iff in Hc. destruct Hc as (g & <- & _).
  apply calculate_confidence_not_nan.
Qed.

(** X11.  [detect_corrections] lists its corrections by descending
    confidence, and no two of them have the same captured fragments. *)
Theorem detect_corrections_sorted (now : stamp) (message : string) :
  StronglySorted at_least (detect_corrections now message) /\
  NoDup (map c_pattern (detect_corrections now message)).
Proof.
  split; [|apply detect_corrections_NoDup].
  unfold detect_corrections. cbv zeta.
  apply deduplicate_sorted. eapply candidates_not_nan. reflexivity.
Qed.

Lemma geb_refl (x : float) : Spec.is_nan x = false -> geb x x = true.
Proof.
  intros H. unfold geb, leb, SFleb. now rewrite (compare_refl _ H).
Qed.

Lemma unique_by_pattern_best (l : list correction) :
  forall seen c,
    Forall not_nan l -> StronglySorted at_least l -> In c l ->
    In (c_pattern c) seen \/
    exists k, In k (unique_by_pattern seen l) /\
              c_pattern k = c_pattern c /\ at_least k c.
Proof.
  induction l as [|x l IH]; intros seen c Hok Hs Hin; [destruct Hin|].
  inversion Hok as [|? ? Hx Hok']; subst.
  inversion Hs as [|? ? Hs' Hall]; subst.
  simpl. destruct (existsb (list_string_eqb (c_pattern x)) seen) eqn:E.
  - destruct Hin as [->|Hin].
    + left. now apply seen_In.
    + now apply IH.
  - destruct Hin as [->|Hin].
    + right. exists c. split; [now left|]. split; [reflexivity|].
      now apply geb_refl.
    + destruct (IH (c_pattern x :: seen) c Hok' Hs' Hin)
        as [[Heq|Hseen]|(k & Hk & Hp & Hge)].
      * right. exists x. split; [now left|]. split; [exact Heq|].
        rewrite Forall_forall in Hall. now apply Hall.
      * now left.
      * right. exists k. split; [now right|]. now split.
Qed.

(** X12.  Deduplication keeps the best candidate of every fragment: for
    each candidate handed in, a correction with the same captured
    fragments and at least its confidence is returned, and nothing is
    returned that was not handed in. *)
Theorem dedup_keeps_best (l : list correction) (c : correction) :
  Forall not_nan l -> In c l ->
  (exists k, In k (_deduplicate_corrections l) /\
             c_pattern k = c_pattern c /\ at_least k c) /\
  (forall k, In k (_deduplicate_corrections l) -> In k l).
Proof.
  intros Hok Hin. unfold _deduplicate_corrections.
  destruct l as [|x l]; [destruct Hin|]. split.
  - destruct (@unique_by_pattern_best (sort_desc c_confidence (x :: l)) [] c)
      as [[]|H].
    + rewrite Forall_forall in *. intros y Hy. apply Hok.
      now rewrite sort_desc_In in Hy.
    + apply (@sort_desc_sorted correction c_confidence). exact Hok.
    + now rewrite sort_desc_In.
    + exact H.
  - intros k Hk. apply unique_by_pattern_In in Hk.
    now rewrite sort_desc_In in Hk.
Qed.

Lemma dedup_keeps_best_witness :
  Forall not_nan twins /\ In weak_twin twins /\
  _deduplicate_corrections twins = [strong_twin] /\
  exists k, In k (_deduplicate_corrections twins) /\
            c_pattern k = c_pattern weak_twin /\ at_least k weak_twin.
Proof.
  assert (H1 : Forall not_nan twins) by (repeat constructor).
  assert (H2 : In weak_twin twins) by (now left).
  split; [exact H1|]. split; [exact H2|]. split; [reflexivity|].
  exact (proj1 (@dedup_keeps_best twins weak_twin H1 H2)).
Defined.

(* ------------------------------------------------------------------ *)
(** *** The queue file *)

Lemma append_entries_spec now ctx cs : forall stored,
  append_entries now ctx cs stored =
  (stored ++ new_entries now ctx (List.length stored) cs)%list.
Proof.
  induction cs as [|c cs IH]; intros stored; simpl.
  - now rewrite app_nil_r.
  - rewrite IH, <- app_assoc, length_app. simpl.
    now rewrite Nat.add_1_r.
Qed.

Lemma new_entries_unprocessed now ctx cs : forall i,
  filter (fun c => negb (ce_processed c)) (new_entries now ctx i cs) =
  new_entries now ctx i cs.
Proof.
  induction cs as [|c cs IH]; intros i; simpl; [reflexivity|].
  now rewrite IH.
Qed.

Lemma new_entries_corrections now ctx cs : forall i,
  map ce_correction (new_entries now ctx i cs) = cs.
Proof.
  induction cs as [|c cs IH]; intros i; simpl; [reflexivity|].
  now rewrite IH.
Qed.

(** X13.  Storing is append-only.  When [_store_corrections] reports
    success the queue is the old queue followed by one unprocessed entry
    per correction, in order, numbered from the old length, so that the
    unprocessed entries grow by exactly those; when it reports failure
    the file is left as it was. *)
Theorem store_appends
    (now : stamp) (corrections : list correction)
    (conversation_context : option (dict string)) (memory_file : file data) :
  let new :=
    new_entries now (get_or [] conversation_context)
      (List.length (entries memory_file)) corrections in
  match _store_corrections now corrections conversation_context memory_file with
  | (true, memory_file') =>
      entries memory_file' = (entries memory_file ++ new)%list /\
      get_unprocessed_corrections memory_file' =
        (get_unprocessed_corrections memory_file ++ new)%list /\
      map ce_correction new = corrections
  | (false, memory_file') => memory_file' = memory_file
  end.
Proof.
  cbv zeta. unfold _store_corrections.
  destruct memory_file as [|e|d]; simpl.
  - rewrite append_entries_spec. simpl.
    rewrite new_entries_unprocessed, new_entries_corrections. auto.
  - reflexivity.
  - destruct (d_corrections d) as [stored|] eqn:Hd; simpl.
    + rewrite ?Hd. simpl. rewrite append_entries_spec, filter_app,
        new_entries_unprocessed, new_entries_corrections. auto.
    + destruct corrections; simpl; [|reflexivity].
      rewrite ?Hd. simpl. auto.
Qed.

Lemma mark_entry_unprocessed now ids (l : list correction_entry) :
  filter (fun c => negb (ce_processed c)) (map (mark_entry now ids) l) =
  filter (fun c => negb (mem (ce_id c) ids))
         (filter (fun c => negb (ce_processed c)) l).
Proof.
  induction l as [|c l IH]; [reflexivity|].
  cbn [map filter]. rewrite IH. unfold mark_entry.
  destruct (mem (ce_id c) ids) eqn:E; simpl;
    destruct (ce_processed c); simpl; rewrite ?E; reflexivity.
Qed.

(** X14.  Marking then listing: after [mark_corrections_processed] the
    unprocessed corrections are those that were unprocessed before, less
    the ones whose id was named; an id that names no entry changes
    nothing in the list. *)
Theorem mark_then_list
    (now : stamp) (correction_ids : list string) (memory_file : file data) :
  get_unprocessed_corrections
    (snd (mark_corrections_processed now correction_ids memory_file)) =
  filter (fun c => negb (mem (ce_id c) correction_ids))
         (get_unprocessed_corrections memory_file).
Proof.
  destruct memory_file as [|e|d]; try reflexivity.
  simpl. destruct (d_corrections d) as [stored|]; simpl; [|reflexivity].
  apply mark_entry_unprocessed.
Qed.

Lemma no_underscore_digits (d : Decimal.uint) :
  no_underscore (NilEmpty.string_of_uint d) = true.
Proof. induction d; simpl; auto. Qed.

Lemma no_underscore_str_int (z : Z) : no_underscore (str_int z) = true.
Proof.
  unfold str_int, NilZero.string_of_int.
  destruct (Z.to_int z) as [d|d]; unfold NilZero.string_of_uint;
    destruct d; simpl; auto using no_underscore_digits.
Qed.

Lemma underscore_inside (a x : string) :
  no_underscore (a ++ String underscore x) = false.
Proof.
  induction a as [|c a IH]; simpl; [reflexivity|].
  rewrite IH. apply andb_false_r.
Qed.

Lemma last_underscore (a : string) : forall (b x y : string),
  no_underscore x = true -> no_underscore y = true ->
  a ++ String underscore x = b ++ String underscore y -> x = y.
Proof.
  induction a as [|c a IH]; intros b x y Hx Hy H.
  - destruct b as [|c' b]; simpl in H; inversion H; subst; [reflexivity|].
    now rewrite underscore_inside in Hx.
  - destruct b as [|c' b]; simpl in H; inversion H; subst.
    + now rewrite underscore_inside in Hy.
    + eapply IH; eauto.
Qed.

Lemma auto_id_inj (now now' : stamp) (i j : nat) :
  auto_id now i = auto_id now' j -> i = j.
Proof.
  unfold auto_id. intros H. apply (append_inj_l "auto_") in H.
  apply last_underscore in H; try apply no_underscore_str_int.
  apply str_int_inj in H. lia.
Qed.

Lemma positional_NoDup (l : list correction_entry) :
  positional l -> NoDup (map ce_id l).
Proof.
  intros Hpos. apply NoDup_nth_error. intros i j Hi Heq.
  rewrite length_map in Hi.
  destruct (nth_error l i) as [e|] eqn:Ei;
    [|apply nth_error_None in Ei; lia].
  rewrite !nth_error_map, Ei in Heq. simpl in Heq.
  destruct (nth_error l j) as [e'|] eqn:Ej; [|discriminate].
  simpl in Heq. inversion Heq as [Hid].
  destruct (Hpos i e Ei) as [n1 H1]. destruct (Hpos j e' Ej) as [n2 H2].
  rewrite H1, H2 in Hid. eapply auto_id_inj; eauto.
Qed.

Lemma new_entries_nth now ctx cs : forall i k e,
  nth_error (new_entries now ctx i cs) k = Some e ->
  ce_id e = auto_id now (i + k).
Proof.
  induction cs as [|c cs IH]; intros i k e H.
  - destruct k; discriminate.
  - destruct k as [|k]; simpl in H.
    + inversion H; subst. simpl. now rewrite Nat.add_0_r.
    + apply IH in H. rewrite H. f_equal. lia.
Qed.

Lemma positional_app now ctx cs (l : list correction_entry) :
  positional l ->
  positional (l ++ new_entries now ctx (List.length l) cs).
Proof.
  intros Hpos i e H.
  destruct (Nat.lt_ge_cases i (List.length l)) as [Hi|Hi].
  - rewrite nth_error_app1 in H by exact Hi. eauto.
  - rewrite nth_error_app2 in H by exact Hi.
    apply new_entries_nth in H. exists now. rewrite H. f_equal. lia.
Qed.

Lemma positional_mark now ids (l : list correction_entry) :
  positional l -> positional (map (mark_entry now ids) l).
Proof.
  intros Hpos i e H. rewrite nth_error_map in H.
  destruct (nth_error l i) as [e0|] eqn:E; [|discriminate].
  simpl in H. inversion H; subst.
  destruct (Hpos i e0 E) as [n Hn]. exists n. rewrite <- Hn.
  unfold mark_entry. now destruct (mem (ce_id e0) ids).
Qed.

Lemma store_entries now cs ctx (f : file data) :
  entries (snd (_store_corrections now cs ctx f)) = entries f \/
  entries (snd (_store_corrections now cs ctx f)) =
    (entries f ++
     new_entries now (get_or [] ctx) (List.length (entries f)) cs)%list.
Proof.
  unfold _store_corrections. destruct f as [|e|d]; simpl.
  - right. now rewrite append_entries_spec.
  - now left.
  - destruct (d_corrections d) as [stored|] eqn:Hd; simpl.
    + right. now rewrite ?Hd, append_entries_spec.
    + left. destruct cs; simpl; now rewrite ?Hd.
Qed.

Lemma queue_step_positional (f : file data) (ev : queue_event) :
  positional (entries f) -> positional (entries (queue_step f ev)).
Proof.
  intros Hpos. destruct ev as [now cs ctx|now ids]; simpl.
  - destruct (store_entries now cs ctx f) as [H|H]; rewrite H;
      [exact Hpos|now apply positional_app].
  - destruct f as [|e|d]; simpl; try exact Hpos.
    simpl in Hpos. destruct (d_corrections d) as [stored|]; simpl;
      [|exact Hpos].
    now apply positional_mark.
Qed.

(** X15.  The ids of the queue are pairwise distinct, whatever the clock
    reads: in a queue file that only the pipeline has written, by any
    sequence of stores and marks, no two entries share an id.  The id
    carries the position of the entry in the list. *)
Theorem queue_ids_are_distinct (events : list queue_event) :
  NoDup (map ce_id (entries (queue_run events Missing))).
Proof.
  apply positional_NoDup. unfold queue_run.
  assert (H : positional (entries (@Missing data)))
    by (intros i e Hi; destruct i; discriminate).
  revert H. generalize (@Missing data).
  induction events as [|ev events IH]; intros f Hf; simpl; [exact Hf|].
  apply IH. now apply queue_step_positional.
Qed.

(** X16.  A message of white space only is ignored by the pipeline:
    nothing is detected, no storage is attempted, no confirmation is
    asked for, and the queue file, present or not, stays as it was. *)
Theorem blank_message_is_ignored
    (now : stamp) (message : string)
    (conversation_context : option (dict string)) (memory_file : file data) :
  all_space message = true ->
  process_user_message now message conversation_context memory_file =
    ({| corrections_detected := []; storage_success := false;
        user_confirmation_needed := false |}, memory_file).
Proof.
  intros Hs.
  destruct (@pipeline_ignores_blank now message conversation_context
              memory_file Hs) as [H _].
  unfold process_user_message. now rewrite H.
Qed.

Lemma blank_message_is_ignored_witness :
  all_space "  " = true /\
  process_user_message Samples.t0 "  " None Missing =
    ({| corrections_detected := []; storage_success := false;
        user_confirmation_needed := false |}, Missing).
Proof.
  assert (H : all_space "  " = true) by reflexivity.
  split; [exact H|].
  exact (@blank_message_is_ignored Samples.t0 "  " None Missing H).
Defined.

End DetectorFurther.

(* ================================================================== *)
(** ** Further properties of [query_patterns.py] *)

Section QueryFurther.

Import QueryPatterns Querying.






End QueryFurther.

Section SummaryFurther.

Import MemorySummary.

Lemma dict_set_sum (k : string) (v : nat) (d : dict nat) :
  (list_sum (map snd (dict_set k v d)) + get_or 0 (dict_get k d) =
   list_sum (map snd d) + v)%nat.
Proof.
  induction d as [|[k' v'] d IH]; simpl; [lia|].
  destruct (String.eqb k k'); simpl; lia.
Qed.

Lemma bump_sum (k : string) (d : dict nat) :
  list_sum (map snd (bump k d)) = S (list_sum (map snd d)).
Proof.
  unfold bump.
  pose proof (dict_set_sum k (get_or 0 (dict_get k d) + 1) d). lia.
Qed.

Lemma bump_all_sum (ks : list string) : forall (d : dict nat),
  list_sum (map snd (fold_left (fun contexts ctx => bump ctx contexts) ks d)) =
  (list_sum (map snd d) + List.length ks)%nat.
Proof.
  induction ks as [|k ks IH]; intros d; simpl; [lia|].
  rewrite IH, bump_sum. lia.
Qed.

Lemma tally_sums (l : list entity) : forall (acc : dict nat * dict nat),
  let r :=
    fold_left
      (fun acc correction =>
         let ctype := get_or "unknown" (e_correction_type correction) in
         (bump ctype (fst acc),
          fold_left (fun contexts ctx => bump ctx contexts)
                    (get_or [] (e_context correction)) (snd acc)))
      l acc in
  list_sum (map snd (fst r)) =
    (list_sum (map snd (fst acc)) + List.length l)%nat /\
  list_sum (map snd (snd r)) =
    (list_sum (map snd (snd acc)) +
     List.length (flat_map (fun e => get_or [] (e_context e)) l))%nat.
Proof.
  induction l as [|x l IH]; intros acc; cbv zeta; simpl; [lia|].
  cbv zeta in IH. destruct (IH
    (bump (get_or "unknown" (e_correction_type x)) (fst acc),
     fold_left (fun contexts ctx => bump ctx contexts)
               (get_or [] (e_context x)) (snd acc))) as [H1 H2].
  rewrite H1, H2. simpl fst. simpl snd.
  rewrite bump_sum, bump_all_sum, length_app. lia.
Qed.

Lemma insert_item_sum (x : string * nat) (l : list (string * nat)) :
  list_sum (map snd (insert_item x l)) = (snd x + list_sum (map snd l))%nat.
Proof.
  induction l as [|y l IH]; simpl; [reflexivity|].
  destruct (String.ltb (fst y) (fst x)); simpl; [rewrite IH|]; lia.
Qed.

Lemma sorted_items_sum (d : dict nat) :
  list_sum (map snd (sorted_items d)) = list_sum (map snd d).
Proof.
  induction d as [|x d IH]; simpl; [reflexivity|].
  now rewrite insert_item_sum, IH.
Qed.

Lemma disjoint_filters {A} (p q : A -> bool) (l : list A) :
  (forall x, p x = true -> q x = false) ->
  (List.length (filter p l) + List.length (filter q l) <= List.length l)%nat.
Proof.
  intros H. induction l as [|x l IH]; simpl; [lia|].
  destruct (p x) eqn:Ep.
  - rewrite (H x Ep). simpl. lia.
  - destruct (q x); simpl; lia.
Qed.

(** X18.  The numbers of the summary add up: the counts per correction
    type sum to the number of corrections, the counts per context to the
    number of context tags the corrections carry, and corrections and
    observations together are no more than the records of the store. *)
Theorem summary_counts_add_up
    (MEMORY_FILE : file memory) (corrections observations : nat)
    (types contexts : list (string * nat)) :
  get_memory_summary MEMORY_FILE =
    Summary corrections observations types contexts ->
  list_sum (map snd types) = corrections /\
  (exists mem, MEMORY_FILE = Holds mem /\
     list_sum (map snd contexts) =
       List.length
         (flat_map (fun e => get_or [] (e_context e))
            (filter (is_of_type "user_correction")
                    (dict_values (entities_of mem))))) /\
  (corrections + observations <= List.length (Learning.keys MEMORY_FILE))%nat.
Proof.
  intros H. destruct MEMORY_FILE as [|e|mem]; try discriminate.
  unfold get_memory_summary, tally in H. cbv zeta in H.
  pose proof (tally_sums
                (filter (is_of_type "user_correction")
                        (dict_values (entities_of mem))) ([], [])) as Hs.
  cbv zeta in Hs. destruct Hs as [H1 H2].
  match type of H with
  | (let (_, _) := ?t in _) = _ => destruct t as [ct cx] eqn:Et
  end.
  simpl fst in *. simpl snd in *. inversion H; subst. clear H.
  rewrite !sorted_items_sum. split; [rewrite H1; simpl; lia|].
  split; [exists mem; split; [reflexivity|rewrite H2; simpl; lia]|].
  simpl Learning.keys. rewrite length_map.
  rewrite <- (length_map snd (entities_of mem)).
  apply disjoint_filters. intros x. unfold is_of_type.
  destruct (e_type x) as [t|]; [|discriminate].
  intros Ht. apply String.eqb_eq in Ht. subst t. reflexivity.
Qed.

Lemma summary_counts_add_up_witness :
  get_memory_summary (Holds Querying.mixed_store) =
    Summary 2 0 [("always_rule", 2%nat)] [("coding", 2%nat)] /\
  list_sum (map snd [("always_rule", 2%nat)]) = 2%nat.
Proof.
  assert (H : get_memory_summary (Holds Querying.mixed_store) =
              Summary 2 0 [("always_rule", 2%nat)] [("coding", 2%nat)])
    by reflexivity.
  split; [exact H|].
  exact (proj1 (@summary_counts_add_up (Holds Querying.mixed_store) 2 0
                  [("always_rule", 2%nat)] [("coding", 2%nat)] H)).
Defined.

End SummaryFurther.

(* ================================================================== *)
(** ** Further properties of [claude_md_updater.py] *)

Section UpdaterStrings.

Import ClaudeMdUpdater.









End UpdaterStrings.

Section UpdaterFurther.

Import ClaudeMdUpdater Promotion.

Variable format_2f : float -> string.
Variable str_list : list string -> string.

Local Abbreviation update := (update_claude_md format_2f str_list).
Local Abbreviation rules_of :=
  (fun s => map (rule_line format_2f str_list)
                (get_promotable_patterns (MEMORY_FILE s))).




Lemma learned_fields_set_promotion (date : string) (c : float) (e : entity) :
  Extra.learned_fields (set_promotion date c e) = Extra.learned_fields e.
Proof. reflexivity. Qed.

Lemma mark_one_fields now pd : forall mem id,
  match dict_get id (entities_of mem) with
  | Some e =>
      exists e', dict_get id (entities_of (mark_one now mem pd)) = Some e' /\
                 Extra.learned_fields e' = Extra.learned_fields e
  | None => dict_get id (entities_of (mark_one now mem pd)) = None
  end.
Proof.
  intros mem id. destruct (string_dec (p_id pd) id) as [Heq|Hne].
  - subst id. destruct (dict_get (p_id pd) (entities_of mem)) as [e|] eqn:E.
    + rewrite (mark_one_hit now mem pd E). eexists. split; [reflexivity|].
      apply learned_fields_set_promotion.
    + unfold mark_one. now rewrite E.
  - rewrite (mark_one_other now mem pd Hne).
    destruct (dict_get id (entities_of mem)) as [e|]; eauto.
Qed.

Lemma fold_mark_fields now pds : forall mem id,
  match dict_get id (entities_of mem) with
  | Some e =>
      exists e',
        dict_get id (entities_of (fold_left (mark_one now) pds mem)) = Some e'
        /\ Extra.learned_fields e' = Extra.learned_fields e
  | None =>
      dict_get id (entities_of (fold_left (mark_one now) pds mem)) = None
  end.
Proof.
  induction pds as [|pd pds IH]; intros mem id; simpl.
  - destruct (dict_get id (entities_of mem)) as [e|]; eauto.
  - pose proof (mark_one_fields now pd mem id) as H1.
    pose proof (IH (mark_one now mem pd) id) as H2.
    destruct (dict_get id (entities_of mem)) as [e|].
    + destruct H1 as (e1 & He1 & Hf1). rewrite He1 in H2.
      destruct H2 as (e2 & He2 & Hf2). exists e2. split; [exact He2|].
      congruence.
    + now rewrite H1 in H2.
Qed.

(** X21.  Promotion, dry or not, never touches what was learned: the
    store keeps its records under the same ids in the same order, and
    each record keeps every field but the three promotion fields, its
    confidence and its counters included. *)
Theorem promotion_keeps_learned_fields
    (dry_run : bool) (now : stamp) (s : fs) (id : string) (e : entity) :
  stored_entity id (MEMORY_FILE s) = Some e ->
  (exists e',
     stored_entity id (MEMORY_FILE (snd (update dry_run now s))) = Some e' /\
     Extra.learned_fields e' = Extra.learned_fields e) /\
  Learning.keys (MEMORY_FILE (snd (update dry_run now s))) =
    Learning.keys (MEMORY_FILE s).
Proof.
  intros He. unfold update_claude_md.
  destruct (get_promotable_patterns (MEMORY_FILE s)) as [|pd pds] eqn:Hp;
    [simpl; eauto|].
  destruct (CLAUDE_MD s) as [doc|] eqn:Hdoc; [|simpl; eauto].
  unfold create_backup. rewrite Hdoc.
  destruct (find_insertion_point doc) as [[a b] section].
  destruct dry_run; [simpl; eauto|].
  cbv beta iota zeta. simpl MEMORY_FILE. simpl snd. simpl MEMORY_FILE.
  destruct (MEMORY_FILE s) as [|x|mem]; try discriminate.
  simpl in He. simpl. split.
  - pose proof (fold_mark_fields now (pd :: pds) mem id) as H.
    rewrite He in H. exact H.
  - apply (@fold_mark_keys now (pd :: pds) mem).
Qed.

(** X22.  Rollback restores the document but not the store: after a
    promotion and the rollback to its backup the rules document is the
    one from before, while the promoted record is still flagged as
    promoted, with the date of the promotion. *)
Theorem rollback_keeps_promotion_flags
    (now : stamp) (s : fs) (id : string) (e : entity) :
  standing id s e ->
  let s' := snd (update false now s) in
  let s'' := snd (rollback_to_backup (backup_name now) s') in
  fst (rollback_to_backup (backup_name now) s') = RolledBack /\
  CLAUDE_MD s'' = CLAUDE_MD s /\
  exists e',
    stored_entity id (MEMORY_FILE s'') = Some e' /\
    e_promoted_to_claude_md e' = Some true /\
    e_promotion_date e' = Some (iso now).
Proof.
  intros Hst. cbv zeta.
  destruct (@promote_step format_2f str_list id s e now Hst)
    as (Hprom & bp & n & s' & Hrun & _ & Hstored & _).
  destruct Hst as (mem & doc & Hm & _ & Hdoc & _ & _).
  assert (Hne : get_promotable_patterns (MEMORY_FILE s) <> []).
  { unfold is_promotable in Hprom. intros Habs. now rewrite Habs in Hprom. }
  destruct (@promote_success format_2f str_list now s doc Hne Hdoc)
    as (new_content & Hrun' & _).
  rewrite Hrun in Hrun'. rewrite Hrun. simpl snd.
  inversion Hrun' as [[Hbp Hn Hs']]. rewrite Hs' in *.
  unfold rollback_to_backup. simpl BACKUP_DIR. rewrite dict_get_set_eq.
  simpl. split; [reflexivity|]. split; [now rewrite Hdoc|].
  simpl in Hstored. eexists. split; [exact Hstored|]. now split.
Qed.

End UpdaterFurther.

Section UpdaterSamples.

Import ClaudeMdUpdater Promotion PromotionSamples.


Lemma promotion_keeps_learned_fields_witness :
  stored_entity "p1" (MEMORY_FILE ready) =
    Some (Samples.synthetic (dec 95 2) 6 5) /\
  exists e',
    stored_entity "p1"
      (MEMORY_FILE (snd (update_claude_md fmt strl false Samples.t0 ready))) =
      Some e' /\
    Extra.learned_fields e' =
      Extra.learned_fields (Samples.synthetic (dec 95 2) 6 5).
Proof.
  assert (H : stored_entity "p1" (MEMORY_FILE ready) =
              Some (Samples.synthetic (dec 95 2) 6 5)) by reflexivity.
  split; [exact H|].
  exact (proj1 (@promotion_keeps_learned_fields fmt strl false Samples.t0
                  ready "p1" (Samples.synthetic (dec 95 2) 6 5) H)).
Defined.

Lemma rollback_keeps_promotion_flags_witness :
  standing "p1" ready (Samples.synthetic (dec 95 2) 6 5) /\
  CLAUDE_MD
    (snd (rollback_to_backup (backup_name Samples.t0)
            (snd (update_claude_md fmt strl false Samples.t0 ready)))) =
    Some rules_document /\
  exists e',
    stored_entity "p1"
      (MEMORY_FILE
         (snd (rollback_to_backup (backup_name Samples.t0)
                 (snd (update_claude_md fmt strl false Samples.t0 ready))))) =
      Some e' /\
    e_promoted_to_claude_md e' = Some true.
Proof.
  assert (H : standing "p1" ready (Samples.synthetic (dec 95 2) 6 5)).
  { exists (Samples.store_of [("p1", Samples.synthetic (dec 95 2) 6 5)]),
           rules_document.
    repeat split; try reflexivity.
    unfold Spec.dict_wf. simpl. repeat constructor. intros []. }
  split; [exact H|].
  destruct (@rollback_keeps_promotion_flags fmt strl Samples.t0 ready "p1"
              (Samples.synthetic (dec 95 2) 6 5) H)
    as (_ & Hdoc & e' & He' & Hflag & _).
  split; [exact Hdoc|]. now exists e'.
Defined.

End UpdaterSamples.

(* ================================================================== *)
(** ** Further properties of [confidence_tracker.py]: the reports *)

Section TrackerFurther.

Import TrackerReports.

Lemma strict_implies_qualifies (e : entity) :
  ClaudeMdUpdater.meets_criteria e = true ->
  qualifies (dec 8 1) 3 e = true.
Proof.
  unfold ClaudeMdUpdater.meets_criteria, qualifies, is_user_correction,
    success_rate, ClaudeMdUpdater.success_rate.
  destruct (e_type e) as [t|]; [|discriminate].
  cbv zeta. rewrite !andb_true_iff. intros (Ht & (Hc & Ha) & Hs).
  split; [exact Ht|]. split; [split|].
  - unfold geb in *. apply (@leb_trans _ (dec 9 1)); [reflexivity|exact Hc].
  - apply Z.leb_le in Ha. apply Z.leb_le. lia.
  - unfold geb in *. apply (@leb_trans _ (dec 8 1)); [reflexivity|exact Hs].
Qed.

(** X23.  The strict criteria of the updater imply the criteria of the
    tracker: every pattern the updater would promote is among those the
    tracker lists as ready for promotion, with the same figures. *)
Theorem promotable_is_listed_by_tracker
    (MEMORY_FILE : file memory) (id : string) (e : entity) :
  Promotion.is_promotable MEMORY_FILE id e ->
  In (high_confidence_of id e) (get_promotable_patterns MEMORY_FILE) /\
  h_confidence (high_confidence_of id e) =
    ClaudeMdUpdater.p_confidence (ClaudeMdUpdater.promotable_of id e) /\
  h_success_rate (high_confidence_of id e) =
    ClaudeMdUpdater.p_success_rate (ClaudeMdUpdater.promotable_of id e).
Proof.
  intros H. split; [|split; reflexivity].
  destruct MEMORY_FILE as [|x|mem]; try destruct H.
  apply get_promotable_In in H. destruct H as [Hin Hm].
  unfold get_promotable_patterns, get_high_confidence_patterns.
  rewrite sort_desc_In.
  apply (in_map (fun kv => high_confidence_of (fst kv) (snd kv)) _ (id, e)).
  apply filter_In. split; [exact Hin|].
  now apply strict_implies_qualifies.
Qed.

Lemma promotable_is_listed_by_tracker_witness :
  Promotion.is_promotable (Holds Querying.mixed_store) "p2" Querying.reliable /\
  In (high_confidence_of "p2" Querying.reliable)
     (get_promotable_patterns (Holds Querying.mixed_store)).
Proof.
  assert (H : Promotion.is_promotable (Holds Querying.mixed_store) "p2"
                Querying.reliable).
  { apply get_promotable_In. split; [right; left; reflexivity|reflexivity]. }
  split; [exact H|].
  exact (proj1 (@promotable_is_listed_by_tracker (Holds Querying.mixed_store)
                  "p2" Querying.reliable H)).
Defined.

(** The converse fails: three applications at confidence 0.85 make a
    pattern ready for the tracker and not for the updater. *)
Example tracker_lists_more :
  qualifies (dec 8 1) 3 (Samples.synthetic (dec 85 2) 3 3) = true /\
  ClaudeMdUpdater.meets_criteria (Samples.synthetic (dec 85 2) 3 3) = false.
Proof. split; reflexivity. Qed.

Lemma qualifies_monotone (c1 c2 : float) (a1 a2 : Z) (e : entity) :
  leb c1 c2 = true -> (a1 <= a2)%Z ->
  qualifies c2 a2 e = true -> qualifies c1 a1 e = true.
Proof.
  unfold qualifies, geb. rewrite !andb_true_iff.
  intros Hc Ha (Hu & (Hc2 & Ha2) & Hs).
  split; [exact Hu|]. split; [split|exact Hs].
  - exact (leb_trans _ _ _ Hc Hc2).
  - apply Z.leb_le in Ha2. apply Z.leb_le. lia.
Qed.

(** X24.  The listing of the tracker is ordered by descending confidence
    and shrinks as its thresholds rise: a pattern listed for a minimum
    confidence and a minimum number of applications is listed for every
    lower pair of thresholds. *)
Theorem high_confidence_listing
    (c1 c2 : float) (a1 a2 : Z) (MEMORY_FILE : file memory)
    (h : high_confidence) :
  leb c1 c2 = true -> (a1 <= a2)%Z ->
  In h (get_high_confidence_patterns c2 a2 MEMORY_FILE) ->
  In h (get_high_confidence_patterns c1 a1 MEMORY_FILE) /\
  StronglySorted (fun a b => geb (h_confidence a) (h_confidence b) = true)
    (get_high_confidence_patterns c2 a2 MEMORY_FILE).
Proof.
  intros Hc Ha Hin. destruct MEMORY_FILE as [|x|mem]; try destruct Hin.
  unfold get_high_confidence_patterns in *. split.
  - rewrite sort_desc_In in *. apply in_map_iff in Hin.
    destruct Hin as ([id e] & <- & Hf). apply filter_In in Hf.
    destruct Hf as [Hi Hq].
    apply (in_map (fun kv => high_confidence_of (fst kv) (snd kv)) _ (id, e)).
    apply filter_In. split; [exact Hi|].
    exact (@qualifies_monotone c1 c2 a1 a2 e Hc Ha Hq).
  - apply (@sort_desc_sorted high_confidence h_confidence).
    apply Forall_forall. intros y Hy. apply in_map_iff in Hy.
    destruct Hy as ([id e] & <- & Hf). apply filter_In in Hf.
    destruct Hf as [_ Hq]. unfold qualifies, geb in Hq.
    rewrite !andb_true_iff in Hq. destruct Hq as (_ & (Hq & _) & _).
    exact (proj2 (leb_not_nan _ _ Hq)).
Qed.

Lemma high_confidence_listing_witness :
  leb (dec 8 1) (dec 9 1) = true /\ (3 <= 5)%Z /\
  In (high_confidence_of "p2" Querying.reliable)
     (get_high_confidence_patterns (dec 9 1) 5 (Holds Querying.mixed_store)) /\
  In (high_confidence_of "p2" Querying.reliable)
     (get_high_confidence_patterns (dec 8 1) 3 (Holds Querying.mixed_store)).
Proof.
  assert (H1 : leb (dec 8 1) (dec 9 1) = true) by reflexivity.
  assert (H2 : (3 <= 5)%Z) by lia.
  assert (H3 : In (high_confidence_of "p2" Querying.reliable)
                 (get_high_confidence_patterns (dec 9 1) 5
                    (Holds Querying.mixed_store)))
    by (vm_compute; left; reflexivity).
  split; [exact H1|]. split; [exact H2|]. split; [exact H3|].
  exact (proj1 (@high_confidence_listing (dec 8 1) (dec 9 1) 3 5
                  (Holds Querying.mixed_store)
                  (high_confidence_of "p2" Querying.reliable) H1 H2 H3)).
Defined.

Lemma ltb_negb_leb (a b : float) :
  Spec.is_nan a = false -> Spec.is_nan b = false ->
  ltb a b = negb (leb b a).
Proof.
  intros Ha Hb. destruct (compare_some a b Ha Hb) as [c Hc].
  unfold ltb, leb, SFltb, SFleb. rewrite (compare_antisym _ _ Hc), Hc.
  now destruct c.
Qed.

Lemma nan_compares_false (c x : float) :
  Spec.is_nan c = true ->
  leb x c = false /\ ltb c x = false /\ leb c x = false.
Proof.
  destruct c; try discriminate. intros _.
  unfold leb, ltb, SFleb, SFltb. now destruct x.
Qed.

Lemma bucket_partition (c : float) :
  ((if is_high c then 1 else 0) + (if is_medium c then 1 else 0) +
   (if is_low c then 1 else 0) + (if Spec.is_nan c then 1 else 0) = 1)%nat.
Proof.
  unfold is_high, is_medium, is_low, geb.
  destruct (Spec.is_nan c) eqn:Hn.
  - destruct (nan_compares_false c (dec 8 1) Hn) as (H1 & H2 & _).
    destruct (nan_compares_false c (dec 5 1) Hn) as (H3 & H4 & _).
    now rewrite H1, H2, H3, H4.
  - rewrite (@ltb_negb_leb c (dec 8 1) Hn eq_refl).
    rewrite (@ltb_negb_leb c (dec 5 1) Hn eq_refl).
    destruct (leb (dec 8 1) c) eqn:H8.
    + assert (H5 : leb (dec 5 1) c = true)
        by (apply (@leb_trans _ (dec 8 1)); [reflexivity|exact H8]).
      now rewrite H5.
    + now destruct (leb (dec 5 1) c).
Qed.

Lemma buckets_cover (cs : list float) :
  (List.length (filter is_high cs) + List.length (filter is_medium cs) +
   List.length (filter is_low cs) + List.length (filter Spec.is_nan cs) =
   List.length cs)%nat.
Proof.
  induction cs as [|c cs IH]; [reflexivity|].
  cbn [filter List.length]. pose proof (bucket_partition c) as H.
  destruct (is_high c), (is_medium c), (is_low c), (Spec.is_nan c);
    cbn [List.length]; simpl in H; lia.
Qed.

Lemma qualifies_is_high (e : entity) :
  qualifies (dec 8 1) 3 e = true ->
  is_user_correction e = true /\
  is_high (get_or (dec 5 1) (e_confidence e)) = true.
Proof.
  unfold qualifies, is_high. rewrite !andb_true_iff.
  intros (Hu & (Hc & _) & _). split; [exact Hu|].
  destruct (e_confidence e) as [c|]; [exact Hc|discriminate Hc].
Qed.

Lemma ready_le_high (l : dict entity) :
  (List.length (filter (fun kv => qualifies (dec 8 1) 3 (snd kv)) l) <=
   List.length
     (filter is_high
        (map (fun p => get_or (dec 5 1) (e_confidence p))
             (filter is_user_correction (dict_values l)))))%nat.
Proof.
  unfold dict_values.
  induction l as [|[k e] l IH]; [apply Nat.le_refl|].
  cbn [filter map snd].
  destruct (qualifies (dec 8 1) 3 e) eqn:Hq.
  - destruct (qualifies_is_high e Hq) as [Hu Hh].
    rewrite Hu. cbn [map filter]. rewrite Hh. cbn [List.length]. lia.
  - destruct (is_user_correction e); [|exact IH].
    cbn [map filter].
    destruct (is_high (get_or (dec 5 1) (e_confidence e)));
      cbn [List.length]; lia.
Qed.

Variable py_sum : list float -> float.

(** X25.  The buckets of the statistics: high, medium and low together
    with the patterns whose confidence is not a number make up the total,
    so that without such a pattern the three buckets add up to it; and
    the patterns ready for promotion are all in the high bucket. *)
Theorem confidence_stats_buckets
    (MEMORY_FILE : file memory) (total : nat) (avg : float)
    (high medium low : nat) (applications : Z) (ready : nat) :
  get_confidence_stats py_sum MEMORY_FILE =
    Stats total avg high medium low applications ready ->
  (ready <= high)%nat /\
  (0 < total)%nat /\
  exists mem,
    MEMORY_FILE = Holds mem /\
    (high + medium + low +
     List.length
       (filter Spec.is_nan
          (map (fun p => get_or (dec 5 1) (e_confidence p))
               (filter is_user_correction (dict_values (entities_of mem))))) =
     total)%nat.
Proof.
  unfold get_confidence_stats.
  destruct MEMORY_FILE as [|x|mem]; try discriminate.
  pose proof (ready_le_high (entities_of mem)) as Hr.
  pose proof (buckets_cover
                (map (fun p => get_or (dec 5 1) (e_confidence p))
                     (filter is_user_correction
                             (dict_values (entities_of mem))))) as Hb.
  destruct (filter is_user_correction (dict_values (entities_of mem)))
    as [|p ps] eqn:Hp; [discriminate|].
  cbv beta zeta match.
  assert (Hpos : (0 < List.length (p :: ps))%nat) by (simpl; lia).
  remember (p :: ps) as pats eqn:Epats. clear Epats.
  intros H. injection H as Ht _ Hh Hm Hl _ Hrd.
  unfold get_promotable_patterns, get_high_confidence_patterns in Hrd.
  rewrite sort_desc_length, length_map in Hrd.
  rewrite length_map in Hb. rewrite ?length_map in Ht.
  split; [lia|]. split; [lia|].
  exists mem. split; [reflexivity|]. rewrite Hp. lia.
Qed.

End TrackerFurther.

Section TrackerSamples.

Import TrackerReports.

Lemma confidence_stats_buckets_witness :
  get_confidence_stats (fun _ => dec 165 2) (Holds Querying.mixed_store) =
    Stats 2 (dec 825 3) 1 1 0 7 1 /\
  (1 <= 1)%nat.
Proof.
  assert (H : get_confidence_stats (fun _ => dec 165 2)
                (Holds Querying.mixed_store) =
              Stats 2 (dec 825 3) 1 1 0 7 1) by reflexivity.
  split; [exact H|].
  exact (proj1 (@confidence_stats_buckets (fun _ => dec 165 2)
                  (Holds Querying.mixed_store) 2 (dec 825 3) 1 1 0 7 1 H)).
Defined.

End TrackerSamples.

(* ================================================================== *)
(** ** Further properties of [memory_learn.py] *)

Section MemoryLearnFurther.

Import MemoryLearn MemoryLearnStore Extra.

Lemma query_loop_filter (current_context : list string) (l : dict entity) :
  forall r, query_loop current_context l = Return r ->
            r = filter (relevant current_context) (dict_values l).
Proof.
  unfold dict_values, relevant, QueryPatterns.is_user_correction.
  induction l as [|[k e] l IH]; intros r H; simpl in H.
  - now inversion H.
  - cbn [map filter snd].
    destruct (e_type e) as [t|]; [|discriminate].
    destruct (String.eqb t "user_correction"); simpl; [|now apply IH].
    destruct (existsb (fun ctx => mem ctx current_context)
                      (get_or [] (e_context e))); simpl; [|now apply IH].
    destruct (e_confidence e) as [c|]; [|discriminate].
    destruct (gtb c (dec 6 1)); [|now apply IH].
    destruct (query_loop current_context l) as [r'|x]; [|discriminate].
    inversion H; subst. f_equal. now apply IH.
Qed.

(** X26.  What [query_relevant_patterns] returns, when it returns: the
    corrections of the store that share a context with the caller and
    whose confidence is above 0.6, in the order of the store.  No record
    at or below the threshold is among them. *)
Theorem relevant_patterns_are_confident
    (now : stamp) (current_context : list string) (MEMORY_FILE : file memory)
    (l : list entity) :
  query_relevant_patterns now current_context MEMORY_FILE = Return l ->
  (exists mem entities,
     load_memory now MEMORY_FILE = Return mem /\
     m_entities mem = Some entities /\
     l = filter (relevant current_context) (dict_values entities)) /\
  Forall (fun e => e_type e = Some "user_correction" /\
                   exists c, e_confidence e = Some c /\
                             gtb c (dec 6 1) = true) l.
Proof.
  unfold query_relevant_patterns. intros H.
  destruct (load_memory now MEMORY_FILE) as [mem|x]; [|discriminate].
  destruct (m_entities mem) as [entities|] eqn:He; [|discriminate].
  apply query_loop_filter in H. split; [exists mem, entities; auto|].
  subst l. apply Forall_forall. intros e Hin.
  apply filter_In in Hin. destruct Hin as [_ Hr].
  unfold relevant, QueryPatterns.is_user_correction in Hr.
  rewrite !andb_true_iff in Hr. destruct Hr as [[Ht _] Hc].
  destruct (e_type e) as [t|]; [|discriminate].
  apply String.eqb_eq in Ht. subst t. split; [reflexivity|].
  destruct (e_confidence e) as [c|]; [|discriminate]. eauto.
Qed.

Lemma relevant_patterns_are_confident_witness :
  query_relevant_patterns Samples.t0 ["coding"] (Holds Querying.mixed_store) =
    Return [Samples.synthetic (dec 7 1) 1 1; Querying.reliable] /\
  Forall (fun e => e_type e = Some "user_correction" /\
                   exists c, e_confidence e = Some c /\
                             gtb c (dec 6 1) = true)
         [Samples.synthetic (dec 7 1) 1 1; Querying.reliable].
Proof.
  assert (H : query_relevant_patterns Samples.t0 ["coding"]
                (Holds Querying.mixed_store) =
              Return [Samples.synthetic (dec 7 1) 1 1; Querying.reliable])
    by reflexivity.
  split; [exact H|].
  exact (proj2 (@relevant_patterns_are_confident Samples.t0 ["coding"]
                  (Holds Querying.mixed_store) _ H)).
Defined.

Lemma dict_set_add_key {V} (k : string) (v : V) (d : dict V) :
  map fst (dict_set k v d) = add_key k (map fst d).
Proof.
  unfold add_key, mem.
  induction d as [|[k' v'] d IH]; simpl; [reflexivity|].
  destruct (String.eqb k k') eqn:E; simpl.
  - apply String.eqb_eq in E. now subst.
  - rewrite IH. now destruct (existsb (String.eqb k) (map fst d)).
Qed.

Lemma store_correction_local_loaded now c ctx f mem ents cors rels :
  load_memory now f = Return mem ->
  m_entities mem = Some ents -> m_corrections mem = Some cors ->
  m_relations mem = Some rels ->
  store_correction_local now c ctx f =
  Return
    (correction_id now,
     Holds
       {| m_entities :=
            Some (dict_set (correction_id now)
                    (correction_entity now (correction_id now) ctx c) ents);
          m_relations :=
            Some (rels ++
                  [{| r_from := "jleechan2015"; r_to := correction_id now;
                      r_type := "corrected_with";
                      r_created := iso now |}])%list;
          m_corrections := Some (cors ++ [correction_id now])%list;
          m_stats := m_stats mem;
          m_metadata := m_metadata mem |}).
Proof.
  intros Hl He Hc Hr. unfold store_correction_local.
  now rewrite Hl, He, Hc, Hr.
Qed.

Lemma store_each_holds (clock : nat -> stamp) (id : string)
    (ctx : list string) (d : detected) :
  (forall k, correction_id (clock k) = id) ->
  forall cs i mem ents cors rels,
    m_entities mem = Some ents -> m_corrections mem = Some cors ->
    m_relations mem = Some rels -> In id (map fst ents) ->
    exists mem' ents' rels',
      store_each clock i cs ctx (Holds mem) =
        Return (repeat id (List.length cs), Holds mem') /\
      m_entities mem' = Some ents' /\
      map fst ents' = map fst ents /\
      m_corrections mem' = Some (cors ++ repeat id (List.length cs))%list /\
      m_relations mem' = Some rels' /\
      List.length rels' = (List.length rels + List.length cs)%nat /\
      dict_get id ents' =
        match cs with
        | [] => dict_get id ents
        | _ => Some (correction_entity (clock (i + List.length cs - 1)%nat)
                       id ctx (last cs d))
        end.
Proof.
  intros Hid. induction cs as [|c cs IH]; intros i mem ents cors rels
    He Hc Hr Hin.
  - exists mem, ents, rels. simpl. rewrite app_nil_r.
    repeat split; auto; lia.
  - cbn [store_each].
    rewrite (@store_correction_local_loaded (clock i) c ctx (Holds mem)
               mem ents cors rels eq_refl He Hc Hr).
    rewrite Hid.
    match goal with
    | |- context [store_each clock (S i) cs ctx (Holds ?m)] =>
        destruct (IH (S i) m
                    (dict_set id (correction_entity (clock i) id ctx c) ents)
                    (cors ++ [id])%list
                    (rels ++
                     [{| r_from := "jleechan2015"; r_to := id;
                         r_type := "corrected_with";
                         r_created := iso (clock i) |}])%list
                    eq_refl eq_refl eq_refl
                    (dict_set_has_key id _ ents))
          as (mem' & ents' & rels' & Hrun & He' & Hk & Hc' & Hr' & Hl & Hg)
    end.
    rewrite Hrun. exists mem', ents', rels'.
    split; [reflexivity|]. split; [exact He'|].
    split; [now rewrite Hk, dict_set_keys_in|].
    split; [now rewrite Hc', <- app_assoc|].
    split; [exact Hr'|].
    split; [rewrite Hl, length_app; simpl; lia|].
    rewrite Hg. destruct cs as [|c' cs'].
    + rewrite dict_get_set_eq. simpl.
      now replace (i + 1 - 1)%nat with i by lia.
    + cbn [last List.length].
      now replace (S i + S (List.length cs') - 1)%nat
        with (i + S (S (List.length cs')) - 1)%nat by lia.
Qed.

(** X27.  In [memory_learn.py] the matches of one call overwrite each
    other.  When the clock stays within one second while the corrections
    of a call are stored, all of them are reported under one id, the
    store gains at most that one record, which is the one of the last
    match, while the list of corrections and the relations grow by one
    entry per match. *)
Theorem same_second_matches_overwrite
    (clock : nat -> stamp) (cs : list detected) (ctx : list string)
    (MEMORY_FILE : file memory) (mem : memory) (ents : dict entity)
    (cors : list string) (rels : list relation) (d : detected) :
  (forall k, compact (clock k) = compact (clock 0%nat)) ->
  load_memory (clock 0%nat) MEMORY_FILE = Return mem ->
  m_entities mem = Some ents -> m_corrections mem = Some cors ->
  m_relations mem = Some rels -> cs <> [] ->
  exists mem' ents' rels',
    store_each clock 0 cs ctx MEMORY_FILE =
      Return (repeat (correction_id (clock 0%nat)) (List.length cs),
              Holds mem') /\
    m_entities mem' = Some ents' /\
    map fst ents' = add_key (correction_id (clock 0%nat)) (map fst ents) /\
    dict_get (correction_id (clock 0%nat)) ents' =
      Some (correction_entity (clock (List.length cs - 1)%nat)
              (correction_id (clock 0%nat)) ctx (last cs d)) /\
    m_corrections mem' =
      Some (cors ++ repeat (correction_id (clock 0%nat)) (List.length cs))%list
    /\
    m_relations mem' = Some rels' /\
    List.length rels' = (List.length rels + List.length cs)%nat.
Proof.
  intros Hsame Hl He Hc Hr Hne.
  destruct cs as [|c cs]; [congruence|]. clear Hne.
  assert (Hid : forall k, correction_id (clock k) = correction_id (clock 0%nat))
    by (intros k; unfold correction_id; now rewrite Hsame).
  cbn [store_each].
  rewrite (@store_correction_local_loaded (clock 0%nat) c ctx MEMORY_FILE
             mem ents cors rels Hl He Hc Hr).
  set (id := correction_id (clock 0%nat)) in *.
  match goal with
  | |- context [store_each clock 1 cs ctx (Holds ?m)] =>
      destruct (@store_each_holds clock id ctx d Hid cs 1%nat m
                  (dict_set id (correction_entity (clock 0%nat) id ctx c) ents)
                  (cors ++ [id])%list
                  (rels ++
                   [{| r_from := "jleechan2015"; r_to := id;
                       r_type := "corrected_with";
                       r_created := iso (clock 0%nat) |}])%list
                  eq_refl eq_refl eq_refl
                  (dict_set_has_key id _ ents))
        as (mem' & ents' & rels' & Hrun & He' & Hk & Hc' & Hr' & Hlen & Hg)
  end.
  rewrite Hrun. exists mem', ents', rels'.
  split; [reflexivity|]. split; [exact He'|].
  split; [now rewrite Hk, dict_set_add_key|].
  split.
  - rewrite Hg. destruct cs as [|c' cs'].
    + now rewrite dict_get_set_eq.
    + cbn [last List.length].
      now replace (1 + S (List.length cs') - 1)%nat
        with (S (S (List.length cs')) - 1)%nat by lia.
  - split; [now rewrite Hc', <- app_assoc|].
    split; [exact Hr'|]. rewrite Hlen, length_app. simpl. lia.
Qed.

Lemma same_second_matches_overwrite_witness :
  (forall k, compact (same_second k) = compact (same_second 0)) /\
  List.length (detect_correction_patterns "Always test, never guess") = 2%nat /\
  exists mem' ents',
    store_each same_second 0
      (detect_correction_patterns "Always test, never guess")
      ["coding"] Missing =
      Return (["correction_20250101_120000"; "correction_20250101_120000"],
              Holds mem') /\
    m_entities mem' = Some ents' /\
    map fst ents' = ["correction_20250101_120000"].
Proof.
  assert (H1 : forall k, compact (same_second k) = compact (same_second 0))
    by (intros [|k]; reflexivity).
  assert (H2 : detect_correction_patterns "Always test, never guess" <> [])
    by (vm_compute; discriminate).
  split; [exact H1|]. split; [vm_compute; reflexivity|].
  destruct (@same_second_matches_overwrite same_second
              (detect_correction_patterns "Always test, never guess")
              ["coding"] Missing (default_memory Samples.t0) [] [] []
              {| d_type := ""; d_match := []; d_original_text := "";
                 d_confidence := zero |}
              H1 eq_refl eq_refl eq_refl eq_refl H2)
    as (mem' & ents' & rels' & Hrun & He & Hk & _).
  exists mem', ents'. split; [|split; [exact He|exact Hk]].
  rewrite Hrun. reflexivity.
Defined.

Lemma load_existing_has_entities (f : file memory) :
  exists ents, m_entities (EnhancedLearn.load_existing_memory f) = Some ents.
Proof.
  unfold EnhancedLearn.load_existing_memory.
  destruct f as [|x|m]; simpl; eauto.
  destruct (m_entities m) as [ents|] eqn:E; simpl.
  - destruct (m_stats m); simpl; rewrite ?E; eauto.
  - eauto.
Qed.

Lemma store_corrections_corrections now ctx cs : forall i mem,
  m_corrections (EnhancedLearn.store_corrections now ctx i cs mem) =
  m_corrections mem.
Proof.
  induction cs as [|c cs IH]; intros i mem; [reflexivity|].
  simpl EnhancedLearn.store_corrections. now rewrite IH.
Qed.

Lemma store_corrections_entities now ctx cs : forall i mem ents,
  m_entities mem = Some ents ->
  exists ents',
    m_entities (EnhancedLearn.store_corrections now ctx i cs mem) = Some ents'.
Proof.
  induction cs as [|c cs IH]; intros i mem ents H; [eauto|].
  simpl EnhancedLearn.store_corrections. eapply IH. reflexivity.
Qed.

Lemma learned_store_shape now text f :
  exists mem ents,
    snd (EnhancedLearn.enhanced_learn now text f) = Holds mem /\
    m_entities mem = Some ents /\
    m_corrections mem =
      m_corrections (EnhancedLearn.load_existing_memory f).
Proof.
  destruct (load_existing_has_entities f) as [ents0 He0].
  destruct (EnhancedLearn.find_corrections text) as [|c cs] eqn:Hcs.
  - rewrite (@learn_observation now text f Hcs).
    eexists. eexists. split; [reflexivity|]. split; reflexivity.
  - rewrite (@learn_corrections now text f c cs Hcs).
    destruct (@store_corrections_entities now
                (EnhancedLearn.detect_contexts text) (c :: cs) 0%nat _ _ He0)
      as [ents' He'].
    eexists. exists ents'. split; [reflexivity|]. split; [exact He'|].
    apply store_corrections_corrections.
Qed.

(** X28.  The two learn scripts share one store file but not its
    layout.  A store that [enhanced_learn.py] has written, starting from
    a file without the list of corrections (a missing or unreadable file
    among them), makes [store_correction_local] of [memory_learn.py]
    raise [KeyError] on that list, so that its [enhanced_learn] fails as
    soon as it detects a correction. *)
Theorem learn_scripts_disagree_on_layout
    (now0 : stamp) (text0 : string) (f : file memory)
    (clock : nat -> stamp) (text : string) :
  m_corrections (EnhancedLearn.load_existing_memory f) = None ->
  (forall now c ctx,
     store_correction_local now c ctx
       (snd (EnhancedLearn.enhanced_learn now0 text0 f)) =
     Raise (KeyError "corrections")) /\
  (detect_correction_patterns text <> [] ->
   enhanced_learn clock text
     (snd (EnhancedLearn.enhanced_learn now0 text0 f)) =
   Raise (KeyError "corrections")).
Proof.
  intros Hnone.
  destruct (learned_store_shape now0 text0 f) as (mem & ents & Hf & He & Hc).
  rewrite Hnone in Hc.
  assert (H : forall now c ctx,
             store_correction_local now c ctx (Holds mem) =
             Raise (KeyError "corrections")).
  { intros now c ctx. unfold store_correction_local. simpl.
    now rewrite He, Hc. }
  rewrite Hf. split; [exact H|].
  intros Hne. unfold enhanced_learn.
  destruct (detect_correction_patterns text) as [|c cs]; [congruence|].
  cbn [store_each]. now rewrite H.
Qed.

Lemma learn_scripts_disagree_on_layout_witness :
  m_corrections (EnhancedLearn.load_existing_memory Missing) = None /\
  store_correction_local Samples.t1
    {| d_type := "always_rule"; d_match := ["run tests"];
       d_original_text := "Always run tests"; d_confidence := dec 8 1 |}
    ["coding"]
    (snd (EnhancedLearn.enhanced_learn Samples.t0 "hello" Missing)) =
  Raise (KeyError "corrections").
Proof.
  assert (H : m_corrections (EnhancedLearn.load_existing_memory Missing) = None)
    by reflexivity.
  split; [exact H|].
  exact (proj1 (@learn_scripts_disagree_on_layout Samples.t0 "hello" Missing
                  (fun _ => Samples.t1) "" H) _ _ _).
Defined.

Lemma count_type_spec (t : string) (l : dict entity) : forall n,
  count_type t l = Return n ->
  n = List.length (filter (MemorySummary.is_of_type t) (dict_values l)) /\
  Forall has_type l.
Proof.
  unfold dict_values, MemorySummary.is_of_type, has_type.
  induction l as [|[k e] l IH]; intros n H; simpl in H.
  - inversion H. split; [reflexivity|constructor].
  - cbn [map filter snd].
    destruct (e_type e) as [t'|] eqn:Et; [|discriminate].
    destruct (count_type t l) as [m|x]; [|discriminate].
    destruct (IH m eq_refl) as [Hm Hall]. inversion H; subst n.
    split.
    + destruct (String.eqb t' t); simpl; congruence.
    + constructor; [simpl; congruence|exact Hall].
Qed.

(** X29.  [get_memory_stats] returns only when every record of the
    store has a type; corrections and observations are then counted by
    type and together never exceed the number of records. *)
Theorem memory_stats_counts
    (now : stamp) (MEMORY_FILE : file memory) (st : memory_stats) :
  get_memory_stats now MEMORY_FILE = Return st ->
  (s_corrections st + s_observations st <= total_entities st)%nat /\
  exists mem entities,
    load_memory now MEMORY_FILE = Return mem /\
    m_entities mem = Some entities /\
    Forall has_type entities /\
    total_entities st = List.length entities /\
    s_corrections st =
      List.length (filter (MemorySummary.is_of_type "user_correction")
                          (dict_values entities)) /\
    s_observations st =
      List.length (filter (MemorySummary.is_of_type "general_observation")
                          (dict_values entities)).
Proof.
  unfold get_memory_stats. intros H.
  destruct (load_memory now MEMORY_FILE) as [mem|x]; [|discriminate].
  destruct (m_entities mem) as [entities|] eqn:He; [|discriminate].
  destruct (count_type "user_correction" entities) as [c|x] eqn:Hc;
    [|discriminate].
  destruct (count_type "general_observation" entities) as [o|x] eqn:Ho;
    [|discriminate].
  destruct (m_relations mem) as [rels|]; [|discriminate].
  inversion H; subst st. clear H. simpl.
  destruct (count_type_spec _ _ Hc) as [Hc' Hall].
  destruct (count_type_spec _ _ Ho) as [Ho' _].
  split.
  - rewrite Hc', Ho'. rewrite <- (length_map snd entities).
    apply disjoint_filters. intros e. unfold MemorySummary.is_of_type.
    destruct (e_type e) as [t|]; [|discriminate].
    intros Ht. apply String.eqb_eq in Ht. now subst t.
  - exists mem, entities. repeat split; auto.
Qed.

Lemma memory_stats_counts_witness :
  get_memory_stats Samples.t0 (Holds Querying.mixed_store) =
    Return {| total_entities := 2; s_corrections := 2; s_observations := 0;
              s_relations := 0 |} /\
  (2 + 0 <= 2)%nat.
Proof.
  assert (H : get_memory_stats Samples.t0 (Holds Querying.mixed_store) =
              Return {| total_entities := 2; s_corrections := 2;
                        s_observations := 0; s_relations := 0 |})
    by reflexivity.
  split; [exact H|].
  exact (proj1 (@memory_stats_counts Samples.t0 (Holds Querying.mixed_store)
                  _ H)).
Defined.

End MemoryLearnFurther.
